(** * Toolshed: Advanced RAG-Tool Fusion

    A shallow embedding of the retrieval pipeline of the Toolshed
    repository: the query expander, the candidate retriever, the two
    rerankers with their bounded retry loops, and the LangGraph nodes that
    wire them together.

    The language model and the vector index are external services.  They are
    modelled as oracles whose answer may depend on everything that was asked
    before; every call is recorded in a trace, so that the number and the
    content of the calls can be stated. Python exceptions are explicit: a
    computation ends in [Returned v] or in [Raised e].  Two things that the
    program leaves to its libraries are parameters: the part of the
    format-string syntax of the prompt templates that is not modelled, and
    the order in which the tasks of a LangGraph superstep run. *)

From Stdlib Require Import ZArith.
From stdpp Require Import base list gmap strings pretty.
From Equations Require Import Equations.

(** ** Python values and exceptions *)

(** The classes of [Exception] that the modelled code can meet.  Everything
    here derives from [Exception], which is what [except Exception] catches;
    interpreter signals outside that hierarchy (KeyboardInterrupt, SystemExit)
    are not part of the model. *)
Inductive exn_class : Type :=
  | ValueError
  | IndexError
  | ZeroDivisionError
  | OtherException (class_name : string).

(** An exception instance; [str e] is what Python's [str(e)] gives. *)
Record exn : Type := Exception { class_of : exn_class; str : string }.

Inductive outcome (A : Type) : Type :=
  | Returned (a : A)
  | Raised (e : exn).
Arguments Returned {A} a.
Arguments Raised {A} e.

#[global] Instance outcome_ret : MRet outcome := λ A a, Returned a.
#[global] Instance outcome_bind : MBind outcome := λ A B f m,
  match m with
  | Returned a => f a
  | Raised e => Raised e
  end.

Definition LF : string := String (Ascii.ascii_of_nat 10) EmptyString.
Definition DQ : string := String (Ascii.ascii_of_nat 34) EmptyString.
Definition SQ : string := String (Ascii.ascii_of_nat 39) EmptyString.
Definition BACKSLASH : string := String (Ascii.ascii_of_nat 92) EmptyString.

(** [sep.join(parts)] *)
Fixpoint join (sep : string) (parts : list string) : string :=
  match parts with
  | [] => ""
  | [p] => p
  | p :: rest => p +:+ sep +:+ join sep rest
  end.

Fixpoint contains_char (c : Ascii.ascii) (s : string) : bool :=
  match s with
  | EmptyString => false
  | String d s' => if Ascii.eqb c d then true else contains_char c s'
  end.

Definition hex_digit (n : nat) : string :=
  String (Ascii.ascii_of_nat (if (n <? 10)%nat then 48 + n else 87 + n)) EmptyString.

(** One character of [repr] of a [str] delimited by [quote].  Strings are
    byte strings here: bytes from 128 up stand for UTF-8 encoded printable
    text and are left as they are. *)
Definition repr_char (quote c : Ascii.ascii) : string :=
  let n := Ascii.nat_of_ascii c in
  if Ascii.eqb c quote then BACKSLASH +:+ String c EmptyString
  else if (n =? 92)%nat then BACKSLASH +:+ BACKSLASH
  else if (n =? 9)%nat then BACKSLASH +:+ "t"
  else if (n =? 10)%nat then BACKSLASH +:+ "n"
  else if (n =? 13)%nat then BACKSLASH +:+ "r"
  else if ((n <? 32) || (n =? 127))%nat
       then BACKSLASH +:+ "x" +:+ hex_digit (n / 16) +:+ hex_digit (n mod 16)
  else String c EmptyString.

Fixpoint repr_chars (quote : Ascii.ascii) (s : string) : string :=
  match s with
  | EmptyString => EmptyString
  | String c s' => repr_char quote c +:+ repr_chars quote s'
  end.

(** [repr(s)] for a [str]: single quotes, unless the text has a single quote
    and no double quote. *)
Definition repr_str (s : string) : string :=
  let sq := Ascii.ascii_of_nat 39 in
  let dq := Ascii.ascii_of_nat 34 in
  let quote := if contains_char sq s && negb (contains_char dq s) then dq else sq in
  String quote EmptyString +:+ repr_chars quote s +:+ String quote EmptyString.

(** [str(l)] for a list of [str]. *)
Definition str_list (l : list string) : string :=
  "[" +:+ join ", " (repr_str <$> l) +:+ "]".

(** [l[i]] for [0 <= i]. *)
Definition getitem {A} (l : list A) (i : nat) : outcome A :=
  match l !! i with
  | Some x => Returned x
  | None => Raised (Exception IndexError "list index out of range")
  end.

(** [len(list(set(l)))] *)
Definition len_set (l : list string) : Z :=
  Z.of_nat (size (list_to_set l : gset string)).

(** [len(l)] *)
Definition len {A} (l : list A) : Z := Z.of_nat (length l).

(** [d[k]] and [d.get(k)] on a Python dict with string keys, kept as the list
    of its items in insertion order. *)
Fixpoint dict_get {V} (d : list (string * V)) (k : string) : option V :=
  match d with
  | [] => None
  | (k', v) :: d' => if decide (k' = k) then Some v else dict_get d' k
  end.

(** [KeyError(k)]; its [str] is [repr(k)]. *)
Definition KeyError (k : string) : exn :=
  Exception (OtherException "KeyError") (repr_str k).

Definition dict_getitem {V} (d : list (string * V)) (k : string) : outcome V :=
  match dict_get d k with
  | Some v => Returned v
  | None => Raised (KeyError k)
  end.

(** [m[k]] on a dict whose order plays no part. *)
Definition map_getitem {V} (m : gmap string V) (k : string) : outcome V :=
  match m !! k with
  | Some v => Returned v
  | None => Raised (KeyError k)
  end.

(** A list comprehension or an appending loop whose body can raise: the
    first exception ends it. *)
Fixpoint for_each {A B} (body : A → outcome B) (l : list A) : outcome (list B) :=
  match l with
  | [] => Returned []
  | x :: rest => y ← body x; ys ← for_each body rest; mret (y :: ys)
  end.

Definition UNDERSCORE : Ascii.ascii := Ascii.ascii_of_nat 95.
Definition SPACE : Ascii.ascii := Ascii.ascii_of_nat 32.

Definition is_upper (c : Ascii.ascii) : bool :=
  let n := Ascii.nat_of_ascii c in (65 <=? n)%nat && (n <=? 90)%nat.

Definition is_lower (c : Ascii.ascii) : bool :=
  let n := Ascii.nat_of_ascii c in (97 <=? n)%nat && (n <=? 122)%nat.

Definition to_upper (c : Ascii.ascii) : Ascii.ascii :=
  if is_lower c then Ascii.ascii_of_nat (Ascii.nat_of_ascii c - 32) else c.

Definition to_lower (c : Ascii.ascii) : Ascii.ascii :=
  if is_upper c then Ascii.ascii_of_nat (Ascii.nat_of_ascii c + 32) else c.

Definition is_digit (c : Ascii.ascii) : bool :=
  let n := Ascii.nat_of_ascii c in (48 <=? n)%nat && (n <=? 57)%nat.

Fixpoint all_chars (p : Ascii.ascii → bool) (s : string) : bool :=
  match s with
  | EmptyString => true
  | String c s' => p c && all_chars p s'
  end.

(** ** Messages, documents and the two ports *)

Inductive role : Type := System | Human | AI.

#[global] Instance role_eq_dec : EqDecision role.
Proof. solve_decision. Defined.

(** A formatted chat message. *)
Record message : Type := Message { role_of : role; content : string }.

(** What [llm.invoke] gives back.  The expander hands the whole object to a
    prompt template, which renders it with [str]; that rendering belongs to
    the object. *)
Record AIMessage : Type := { ai_content : string; ai_str : string }.

Record Document : Type :=
  { page_content : string; metadata : gmap string string }.

(** Loose Python values that reach a prompt template: a text, a list of
    texts (the workflow passes one where the reranker's signature announces a
    [str]), or the message object that [llm.invoke] returned.  A template
    renders whatever it receives with [str]. *)
Inductive pyval : Type :=
  | PyStr (s : string)
  | PyList (l : list string)
  | PyMessage (m : AIMessage).

Definition py_str (v : pyval) : string :=
  match v with
  | PyStr s => s
  | PyList l => str_list l
  | PyMessage m => ai_str m
  end.

(** ** Prompt templates

    Every prompt goes through the templates of the library:
    [SystemMessagePromptTemplate.from_template(text)] and its siblings parse
    [text] as a format string, and [chat_template.format_messages(...)]
    fills it.  The pipeline often hands to [from_template] a text that an
    f-string has already rendered, so a brace that comes from a question, an
    intent or a tool description is read as template syntax.

    The syntax modelled here is the one these prompts can be expected to
    meet: literal text, the doubled braces that stand for one brace, and
    replacement fields that hold a plain name.  A field with a conversion, a
    format specification, an attribute or an index access, a number or no
    name at all belongs to the rest of the format-string language; what the
    library does with a template that has such a field is the parameter
    [FormatLibrary]. *)

Definition LBRACE : Ascii.ascii := Ascii.ascii_of_nat 123.
Definition RBRACE : Ascii.ascii := Ascii.ascii_of_nat 125.

(** The parts of a parsed format string, in order. *)
Inductive piece : Type :=
  | Literal (text : string)
  | Field (name : string).

Inductive scanned : Type :=
  | Scanned (pieces : list piece)
  | ScanError (e : exn)
  | NotModelled.

Definition literal_char (c : Ascii.ascii) (r : scanned) : scanned :=
  match r with
  | Scanned (Literal text :: pieces) => Scanned (Literal (String c text) :: pieces)
  | Scanned pieces => Scanned (Literal (String c EmptyString) :: pieces)
  | ScanError e => ScanError e
  | NotModelled => NotModelled
  end.

Definition field (name : string) (r : scanned) : scanned :=
  match r with
  | Scanned pieces => Scanned (Literal "" :: Field name :: pieces)
  | ScanError e => ScanError e
  | NotModelled => NotModelled
  end.

(** The characters that a plain field name can hold: ASCII, and none of
    those that start an index or attribute access, a conversion, a format
    specification or a nested field. *)
Definition plain_name_char (c : Ascii.ascii) : bool :=
  let n := Ascii.nat_of_ascii c in
  (n <? 128)%nat &&
  negb ((n =? 123) || (n =? 125) || (n =? 91) || (n =? 93) ||
        (n =? 58) || (n =? 33) || (n =? 46))%nat.

(** A name made of digits only is a positional field, and so is the empty
    name. *)
Definition plain_name (name : string) : bool :=
  negb (all_chars is_digit name).

(** Reading a format string from left to right.  [scan_text] reads literal
    text; [scan_name] reads a field name up to its closing brace.  The first
    thing met that is an error, or that is outside the modelled syntax,
    decides. *)
Fixpoint scan_text (s : string) : scanned :=
  match s with
  | EmptyString => Scanned [Literal ""]
  | String c s' =>
      if Ascii.eqb c LBRACE then
        match s' with
        | EmptyString =>
            ScanError (Exception ValueError "Single '{' encountered in format string")
        | String c' s'' =>
            if Ascii.eqb c' LBRACE then literal_char LBRACE (scan_text s'')
            else scan_name s' ""
        end
      else if Ascii.eqb c RBRACE then
        match s' with
        | EmptyString =>
            ScanError (Exception ValueError "Single '}' encountered in format string")
        | String c' s'' =>
            if Ascii.eqb c' RBRACE then literal_char RBRACE (scan_text s'')
            else ScanError (Exception ValueError
                              "Single '}' encountered in format string")
        end
      else literal_char c (scan_text s')
  end
with scan_name (s : string) (name : string) : scanned :=
  match s with
  | EmptyString =>
      ScanError (Exception ValueError "expected '}' before end of string")
  | String c s' =>
      if Ascii.eqb c RBRACE then
        if plain_name name then field name (scan_text s') else NotModelled
      else if plain_name_char c then scan_name s' (name +:+ String c EmptyString)
      else NotModelled
  end.

(** Filling the fields: a field takes [str] of the value given under its
    name; a name that was not given raises KeyError. *)
Fixpoint fill (pieces : list piece) (kwargs : list (string * pyval))
  : outcome string :=
  match pieces with
  | [] => Returned ""
  | Literal text :: pieces' =>
      rest ← fill pieces' kwargs; mret (text +:+ rest)
  | Field name :: pieces' =>
      match dict_get kwargs name with
      | Some value => rest ← fill pieces' kwargs; mret (py_str value +:+ rest)
      | None => Raised (KeyError name)
      end
  end.

(** The library on the templates that have a field outside the modelled
    syntax: what [from_template] gives for the text, and what formatting
    that template gives. *)
Record FormatLibrary : Type :=
  { other_template : Type;
    other_from_template : string → outcome other_template;
    other_format : other_template → list (string * pyval) → outcome string }.

Module PromptTemplate.
Section WithLibrary.
Context (lib : FormatLibrary).

Inductive t : Type :=
  | Plain (pieces : list piece)
  | Other (prompt : other_template lib).

Definition from_template (template : string) : outcome t :=
  match scan_text template with
  | Scanned pieces => Returned (Plain pieces)
  | ScanError e => Raised e
  | NotModelled => prompt ← other_from_template lib template; mret (Other prompt)
  end.

Definition format (self : t) (kwargs : list (string * pyval)) : outcome string :=
  match self with
  | Plain pieces => fill pieces kwargs
  | Other prompt => other_format lib prompt kwargs
  end.
End WithLibrary.
Arguments Plain {lib} pieces.
Arguments Other {lib} prompt.
Arguments format {lib} self kwargs.
End PromptTemplate.

(** An element of the list given to [ChatPromptTemplate.from_messages]: a
    message template with its role, or a message that is already
    formatted. *)
Inductive message_like (lib : FormatLibrary) : Type :=
  | MessagePromptTemplate (r : role) (prompt : PromptTemplate.t lib)
  | BaseMessage (m : message).
Arguments MessagePromptTemplate {lib} r prompt.
Arguments BaseMessage {lib} m.

Module SystemMessagePromptTemplate.
Definition from_template (lib : FormatLibrary) (template : string)
  : outcome (message_like lib) :=
  prompt ← PromptTemplate.from_template lib template;
  mret (MessagePromptTemplate System prompt).
End SystemMessagePromptTemplate.

Module HumanMessagePromptTemplate.
Definition from_template (lib : FormatLibrary) (template : string)
  : outcome (message_like lib) :=
  prompt ← PromptTemplate.from_template lib template;
  mret (MessagePromptTemplate Human prompt).
End HumanMessagePromptTemplate.

Module AIMessagePromptTemplate.
Definition from_template (lib : FormatLibrary) (template : string)
  : outcome (message_like lib) :=
  prompt ← PromptTemplate.from_template lib template;
  mret (MessagePromptTemplate AI prompt).
End AIMessagePromptTemplate.

Module ChatPromptTemplate.
(** [ChatPromptTemplate.from_messages(messages).format_messages(...)]:
    the templates are filled in order, the formatted messages are kept as
    they are. *)
Definition format_messages {lib : FormatLibrary}
    (messages : list (message_like lib)) (kwargs : list (string * pyval))
  : outcome (list message) :=
  for_each (λ m,
              match m with
              | MessagePromptTemplate r prompt =>
                  text ← PromptTemplate.format prompt kwargs;
                  mret (Message r text)
              | BaseMessage m => mret m
              end)
           messages.
End ChatPromptTemplate.

(** A pydantic model with a single list-of-strings field, as every structured
    output class of the pipeline is.  [min_length] and [max_length] are the
    bounds declared on the field, when there are any. *)
Record Schema : Type :=
  { schema_name : string;
    field_name : string;
    description : string;
    min_length : option Z;
    max_length : option Z }.

Inductive port_call : Type :=
  | LlmInvoke (messages : list message)
  | StructuredInvoke (schema : Schema) (messages : list message)
  | IndexQuery (query : string) (k : Z).

(** Everything asked of the external services so far, oldest first. *)
Abbreviation trace := (list port_call).

(** The chat model ([self.llm]).  Both entry points see the history of calls,
    so successive answers to one prompt may differ. *)
Record ChatModel : Type :=
  { chat_invoke : trace → list message → outcome AIMessage;
    chat_structured : Schema → trace → list message → outcome (list string) }.

(** A list that meets the length bounds declared by a schema. *)
Definition meets_bounds (s : Schema) (l : list string) : Prop :=
  (∀ n, min_length s = Some n → (n ≤ len l)%Z) ∧
  (∀ n, max_length s = Some n → (len l ≤ n)%Z).

(** A chat model whose structured answers always meet the declared bounds. *)
Definition validating (llm : ChatModel) : Prop :=
  ∀ s t ms l, chat_structured llm s t ms = Returned l → meets_bounds s l.

Definition is_generation_call (c : port_call) : bool :=
  match c with
  | LlmInvoke _ | StructuredInvoke _ _ => true
  | IndexQuery _ _ => false
  end.

Definition is_llm_invoke (c : port_call) : bool :=
  match c with LlmInvoke _ => true | _ => false end.

Definition is_structured_invoke (c : port_call) : bool :=
  match c with StructuredInvoke _ _ => true | _ => false end.

Definition count_calls (p : port_call → bool) (t : trace) : nat :=
  length (filter (λ c, p c = true) t).

(** ** Computations over the trace *)

Definition M (A : Type) : Type := trace → outcome A * trace.

#[global] Instance M_ret : MRet M := λ A a t, (Returned a, t).
#[global] Instance M_bind : MBind M := λ A B f m t,
  match m t with
  | (Returned a, t') => f a t'
  | (Raised e, t') => (Raised e, t')
  end.

Definition raise {A} (e : exn) : M A := λ t, (Raised e, t).

Definition lift {A} (o : outcome A) : M A := λ t, (o, t).

(** [try: body except Exception as e: handler(e)] *)
Definition try_except {A} (body : M A) (handler : exn → M A) : M A := λ t,
  match body t with
  | (Returned a, t') => (Returned a, t')
  | (Raised e, t') => handler e t'
  end.

(** [llm.invoke(messages)] *)
Definition invoke (llm : ChatModel) (messages : list message) : M AIMessage :=
  λ t, (chat_invoke llm t messages, t ++ [LlmInvoke messages]).

(** [llm.with_structured_output(schema).invoke(messages)] *)
Definition structured_invoke (llm : ChatModel) (schema : Schema)
    (messages : list message) : M (list string) :=
  λ t, (chat_structured llm schema t messages,
        t ++ [StructuredInvoke schema messages]).

(** ** The retry loop shared by the two rerankers

    Both [generate] methods run
<<
    attempts = 0; max_attempts = 3; result = None
    while attempts < max_attempts:
        attempts += 1
        try: ... result = ... ; if <accepted>: break
        except Exception: pass / continue
>>
    The body of the [try] statement is the parameter [attempt]: from the
    current [result] it gives the updated [result] and whether the loop is
    left by [break]. *)

Inductive loop_exit : Type := Break | NextIteration.

Definition max_attempts : nat := 3.

Section RetryLoop.
Context {R : Type}.
Variable attempt : option R → M (loop_exit * option R).

Equations while_attempts (attempts : nat) (result : option R) (t : trace)
  : outcome (option R) * trace by wf (max_attempts - attempts) lt :=
while_attempts attempts result t with decide (attempts < max_attempts) := {
  | right _ => (Returned result, t)
  | left _ with attempt result t := {
    | (Returned (Break, result'), t') => (Returned result', t')
    | (Returned (NextIteration, result'), t') =>
        while_attempts (attempts + 1) result' t'
    | (Raised e, t') => (Raised e, t') } }.
Next Obligation. lia. Qed.
End RetryLoop.

(** ** intra-retrieval: MultiQueryExpansionModule *)

Module MultiQueryExpansionModule.

Record t : Type := { llm : ChatModel; n_items : Z }.

Record ExpandedQueries : Type := { expanded_queries : list string }.

(** The field carries a description only: no length bound is declared. *)
Definition ExpandedQueries_schema (self : t) : Schema :=
  {| schema_name := "ExpandedQueries";
     field_name := "expanded_queries";
     description :=
       pretty (n_items self) +:+ " variations or expanded versions of the user query.";
     min_length := None;
     max_length := None |}.

(** [self.structured_llm.invoke], with the structured model that
    [_initialize_structured_llm] returns to the base constructor. *)
Definition structured_llm_invoke (self : t) (messages : list message)
  : M ExpandedQueries :=
  l ← structured_invoke (llm self) (ExpandedQueries_schema self) messages;
  mret {| expanded_queries := l |}.

Definition _get_system_message (self : t) : string :=
  "You are an expert at converting user questions into " +:+ pretty (n_items self) +:+ " sentence variations that target different keywords and nuanced approaches, with the goal of embedding these queries into a vector database to retrieve relevant financial equations.
Your goal is to craft " +:+ pretty (n_items self) +:+ " nuanced sentence variations that target different aspects of understanding or solving the query.
While keeping the underlying concept of the query, you can generate variations that focus on more abstract concept of the financial conept, or quantitative version.
You can vary the structure, some variations can be more professional and others more casual.
```
**Example 1:**
**Example user question:** " +:+ DQ +:+ "I want to see the discount rate at which the NPV is break even." +:+ DQ +:+ "
**Example 3 sentences variations:**
1. " +:+ DQ +:+ "Calculate the discount rate that results in a net present value (NPV) of zero for a project, effectively finding the internal rate of return (IRR) at which the investment breaks even." +:+ DQ +:+ "
2. " +:+ DQ +:+ "Determine the precise discount rate where the net present value (NPV) of an investment equals zero, indicating the project's break-even point in terms of profitability." +:+ DQ +:+ "
3. " +:+ DQ +:+ "For a project with an initial cost of $5,000 and expected annual cash inflows of $1,200 over five years, compute the discount rate at which the net present value (NPV) becomes zero." +:+ DQ +:+ "
------------------
**Example 2:**
**Example user question:** " +:+ DQ +:+ "Calculate the future value of an investment of $10,000 over 10 years with an annual interest rate of 5% compounded annually." +:+ DQ +:+ "
**Example 3 sentence variations:**
1. " +:+ DQ +:+ "Calculate how much my investment will be in the future: initial $10,000 over 10 years with an annual interest rate of 5% compounded annually." +:+ DQ +:+ "
2. " +:+ DQ +:+ "Determine how much an initial investment will grow over time given a specific interest rate and compounding frequency." +:+ DQ +:+ "
3. " +:+ DQ +:+ "I want to know how much my investment will be worth 7 years from now." +:+ DQ +:+ "
```
Before you start, understand this from a practical standpoint: the user question can be matched to a range of financial tools or solutions within the system, and your crafted variations should optimize for breadth and specificity.
Write out your approach and plan for tackling this, then provide the " +:+ pretty (n_items self) +:+ " sentences you would craft for the user question.
Think through your approach step by step, be intelligent, take a deep breath.
--------
".

Definition _get_human_message (self : t) (user_question : string) : string :=
  "USER QUESTION: " +:+ user_question +:+ "
YOUR APPROACH, REASONING, AND " +:+ pretty (n_items self) +:+ " SENTENCES:".

Section WithLibrary.
Context (lib : FormatLibrary).

Definition _get_expansion_messages (self : t) (user_question : string)
  : outcome (list message) :=
  let system_message := _get_system_message self in
  let human_message := _get_human_message self user_question in
  system ← SystemMessagePromptTemplate.from_template lib system_message;
  human ← HumanMessagePromptTemplate.from_template lib human_message;
  let chat_template := [system; human] in
  ChatPromptTemplate.format_messages chat_template
    [("user_question", PyStr user_question)].

Definition _get_structured_message_after_first_response (self : t)
    (ai_message : AIMessage) (user_question : string) : outcome (list message) :=
  let simplified_multi_query_expansion_prompt :=
    "You are tasked to craft three nuanced sentence variations for user queries, each designed to target different keywords and approaches, with the aim of embedding these queries into a vector database to retrieve the most relevant tools across various industries.
USER QUESTION: `{user_question}`
YOUR APPROACH, REASONING, AND 3 SENTENCES:
" in
  let ai_response_prompt := "{AI_response}" in
  system ←
    SystemMessagePromptTemplate.from_template lib
      simplified_multi_query_expansion_prompt;
  ai ← AIMessagePromptTemplate.from_template lib ai_response_prompt;
  let chat_template :=
    [ system; ai;
      BaseMessage
        (Message Human ("Extract the " +:+ pretty (n_items self) +:+
                        " questions and format them in the structured output.")) ] in
  ChatPromptTemplate.format_messages chat_template
    [("user_question", PyStr user_question); ("AI_response", PyMessage ai_message)].

Definition generate (self : t) (query : string) : M (list string) :=
  messages ← lift (_get_expansion_messages self query);
  ai_message ← invoke (llm self) messages;
  structured_message ←
    lift (_get_structured_message_after_first_response self ai_message query);
  result ← structured_llm_invoke self structured_message;
  mret (expanded_queries result).
End WithLibrary.

End MultiQueryExpansionModule.

(** ** post-retrieval: RerankerMultiQueryExpansionVariations *)

Module RerankerMultiQueryExpansionVariations.

Record t : Type :=
  { llm : ChatModel;
    top_k : Z;
    multi_query_expansion_variation_module : MultiQueryExpansionModule.t }.

Record FinalToolNames : Type := { tool_names : list string }.

Definition FinalToolNames_schema (self : t) : Schema :=
  {| schema_name := "FinalToolNames";
     field_name := "tool_names";
     description :=
       "The list of " +:+ pretty (top_k self) +:+
       " exact final tool names after reranking.";
     min_length := Some (top_k self);
     max_length := Some (top_k self) |}.

Definition structured_llm_invoke (self : t) (messages : list message)
  : M FinalToolNames :=
  l ← structured_invoke (llm self) (FinalToolNames_schema self) messages;
  mret {| tool_names := l |}.

Definition _format_documents (documents : list Document) : string :=
  join LF
    ((λ doc,
        let tool_name := default "Unknown" (metadata doc !! "tool_name") in
        let tool_description := page_content doc in
        "-------" +:+ LF +:+ "TOOL NAME: " +:+ tool_name +:+ LF +:+
        "TOOL DESCRIPTION & USEFUL DETAILS: " +:+ tool_description)
     <$> documents).

Section WithLibrary.
Context (lib : FormatLibrary).

Definition _get_finalized_list_thoughts_messages (self : t)
    (user_question : string) (ai_response : pyval)
    (user_question_results : list Document)
    (sentence_results : list (list Document)) : outcome (list message) :=
  let sentences_section :=
    foldl String.append ""
      (imap (λ i sentence_result,
               "SENTENCE " +:+ pretty (i + 1)%nat +:+
               " EMBEDDED AND RETRIEVED TOOLS:" +:+ LF +:+
               _format_documents sentence_result +:+ LF +:+
               "================" +:+ LF)
            sentence_results) in
  let finalized_list_thoughts :=
    "OK here are the results:" +:+ LF +:+
    "USER QUESTION EMBEDDED AND RETRIEVED TOOLS:" +:+ LF +:+
    _format_documents user_question_results +:+ LF +:+
    sentences_section +:+ LF +:+
    "=========" +:+ LF +:+
    "Based on these results, rank the top " +:+ pretty (top_k self) +:+
    " most relevant tools to solve the user question. Just return the " +:+
    pretty (top_k self) +:+ " TOOL NAMES for each relevant tool." +:+ LF in
  let ai_response_prompt := "{ai_response}" in
  sentence_extraction_messages ←
    MultiQueryExpansionModule._get_expansion_messages lib
      (multi_query_expansion_variation_module self) user_question;
  ai ← AIMessagePromptTemplate.from_template lib ai_response_prompt;
  human ← HumanMessagePromptTemplate.from_template lib finalized_list_thoughts;
  let chat_template :=
    (BaseMessage <$> sentence_extraction_messages) ++ [ai; human] in
  ChatPromptTemplate.format_messages chat_template
    [("ai_response", ai_response)].
End WithLibrary.

(** The body of the [try] statement.  Only the call of the model can raise,
    and it does so before [result] is assigned: the handler then leaves
    [result] as it was. *)
Definition attempt (self : t) (messages : list message)
    (result : option FinalToolNames)
  : M (loop_exit * option FinalToolNames) :=
  try_except
    (r ← structured_llm_invoke self messages;
     if bool_decide (len (tool_names r) = top_k self)
     then mret (Break, Some r)
     else mret (NextIteration, Some r))
    (λ _, mret (NextIteration, result)).

(** The two prompts are composed before the loop, outside any [try]: an
    exception raised there leaves [generate]. *)
Definition generate (lib : FormatLibrary) (self : t) (user_question : string)
    (ai_response : pyval) (user_question_results : list Document)
    (sentence_results : list (list Document)) : M (list string) :=
  expansion_messages ←
    lift (MultiQueryExpansionModule._get_expansion_messages lib
            (multi_query_expansion_variation_module self) user_question);
  messages ←
    lift (_get_finalized_list_thoughts_messages lib self user_question
            ai_response user_question_results sentence_results);
  result ← while_attempts (attempt self messages) 0 None;
  match result with
  | Some r =>
      if bool_decide (len (tool_names r) = top_k self)
      then mret (tool_names r)
      else mret []
  | None => mret []
  end.

End RerankerMultiQueryExpansionVariations.

(** ** post-retrieval: RerankerDecomposedQueries *)

(** [a // b] on Python integers. *)
Definition floordiv (a b : Z) : outcome Z :=
  if bool_decide (b = 0%Z)
  then Raised (Exception ZeroDivisionError "integer division or modulo by zero")
  else Returned (a `div` b)%Z.

Module RerankerDecomposedQueries.

Record t : Type := { llm : ChatModel; final_top_k : Z }.

Record FinalToolNames : Type := { tool_names : list string }.

Definition FinalToolNames_schema (self : t) : Schema :=
  {| schema_name := "FinalToolNames";
     field_name := "tool_names";
     description :=
       "The list of " +:+ pretty (final_top_k self) +:+
       " exact final tool names after reranking.";
     min_length := Some (final_top_k self);
     max_length := Some (final_top_k self) |}.

Definition structured_llm_invoke (self : t) (messages : list message)
  : M FinalToolNames :=
  l ← structured_invoke (llm self) (FinalToolNames_schema self) messages;
  mret {| tool_names := l |}.

(** The [for idx, intent in enumerate(list_of_intents, start=1)] loop that
    extends the human prompt; [list_of_list_of_tools[idx-1]] raises when
    there are fewer shortlists than intents. *)
Fixpoint intent_lines (idx : nat) (list_of_intents : list string)
    (list_of_list_of_tools : list (list string))
    (human_combiner_prompt : string) : outcome string :=
  match list_of_intents with
  | [] => Returned human_combiner_prompt
  | intent :: rest =>
      tools ← getitem list_of_list_of_tools (idx - 1);
      intent_lines (S idx) rest list_of_list_of_tools
        (human_combiner_prompt +:+
         "INTENT " +:+ pretty idx +:+ ": '" +:+ intent +:+ "'" +:+ LF +:+
         "LIST OF TOOLS FOR INTENT " +:+ pretty idx +:+ ": " +:+
         str_list tools +:+ LF)
  end.

Section WithLibrary.
Context (lib : FormatLibrary).

Definition _get_final_combined_thoughts_messages (self : t)
    (user_question : string) (list_of_intents : list string)
    (list_of_list_of_tools : list (list string)) : outcome (list message) :=
  let num_intents := len list_of_intents in
  first_shortlist ← getitem list_of_list_of_tools 0;
  let top_k_per_intent := len first_shortlist in
  share ← floordiv (final_top_k self) num_intents;
  let num_tools_divisible_by_intent := Z.max 1 share in
  let num_tools_divisible_by_intent_text :=
    if bool_decide (1 < num_tools_divisible_by_intent)%Z
    then pretty num_tools_divisible_by_intent +:+ " tools"
    else pretty num_tools_divisible_by_intent +:+ " tool" in
  let final_combined_thoughts :=
    "You are an expert at combining and narrowing down the top tools from each user intent to a single unique list of " +:+ pretty (final_top_k self) +:+ " tools that solve the user question.
You will be given a user query that has been broken down into " +:+ pretty num_intents +:+ " distinct user intents.
You are also given the " +:+ pretty top_k_per_intent +:+ " most relevant tools for each intent that can solve that particular intent, which ARE IN ORDER OF RELEVANCE!
Your task is to combine the top " +:+ pretty top_k_per_intent +:+ " tools from each intent into a single unique list of " +:+ pretty (final_top_k self) +:+ " tools that are most relevant to the user question, which can solve the entire " +:+ pretty num_intents +:+ "-step process.
Your first approach should be to take the top " +:+ num_tools_divisible_by_intent_text +:+ " from each intent and then add the next most relevant tool(s) from the intents until you have a unique list of " +:+ pretty (final_top_k self) +:+ " tools.
However, one important thing to note is that there may be overlap between the tools from each intent, this is because of our retrieval process.
If there are overlapping tools within each top " +:+ num_tools_divisible_by_intent_text +:+ ", first understand which top " +:+ num_tools_divisible_by_intent_text +:+ " are most relevant to their respective intents, and then go to the other intents and add the next most " +:+ pretty num_tools_divisible_by_intent +:+ " relevant tools.

Here is an example with no overlapping tools (with 2 distinct user intents and 3 tools per intent, and a final top k of 3):
---------
USER QUESTION: 'I want to calculate the net present value (NPV) and internal rate of return (IRR) for a project with specific cash flows.'
INTENT 1: 'Calculate the net present value (NPV) for the project.'
LIST OF TOOLS FOR INTENT 1: ['get_net_present_value', 'get_present_value', 'get_future_value']
INTENT 2: 'Calculate the internal rate of return (IRR) for the project.'
LIST OF TOOLS FOR INTENT 2: ['get_internal_rate_of_return', 'get_modified_internal_rate_of_return', 'get_return_on_investment']
THE APPROACH TO TAKE:
First, identify the top 1 tool for intent 1 is 'get_net_present_value' and the top 1 tool for intent 2 is 'get_internal_rate_of_return'. Since there is no overlap, we can directly take these top 1 tool from each intent. So we can choose 1 more tool which is the most releavnt from list. To add up to 3 final tools, we select either 'get_present_value' or 'get_modified_internal_rate_of_return'. We select 'get_modified_internal_rate_of_return'. Now we have successfully built a unique list of 3 tools.
---------

Here is an example with overlapping tools (with 4 distinct user intents and 5 tools per intent, and a final top k of 10):
---------
USER QUESTION: 'I want to get the Return on Equity (ROE), Return on Assets (ROA), debt ratio, and dividend payout ratio of a company.'
INTENT 1: 'Calculate the Return on Equity (ROE) of the company.'
LIST OF TOOLS FOR INTENT 1: ['get_return_on_equity', 'get_net_profit_margin', 'get_operating_profit_margin', 'get_gross_profit_margin', 'get_return_on_investment']
INTENT 2: 'Calculate the Return on Assets (ROA) of the company.'
LIST OF TOOLS FOR INTENT 2: ['get_return_on_assets', 'get_return_on_equity', 'get_net_profit_margin', 'get_operating_profit_margin', 'get_gross_profit_margin']
INTENT 3: 'Calculate the debt ratio of the company.'
LIST OF TOOLS FOR INTENT 3: ['get_debt_ratio', 'get_debt_to_equity_ratio', 'get_total_debt', 'get_total_assets', 'get_current_ratio']
INTENT 4: 'Calculate the dividend payout ratio of the company.'
LIST OF TOOLS FOR INTENT 4: ['get_dividend_payout_ratio', 'get_retention_ratio', 'get_earnings_per_share', 'get_dividend_yield', 'get_price_earnings_ratio']
THE APPROACH TO TAKE:
First, identify the top 2 tools for Intent 1 is 'get_return_on_equity' and 'get_net_profit_margin'. The top 2 tools for Intent 2 are 'get_return_on_assets' and 'get_return_on_equity'. The top 2 tools for Intent 3 are 'get_debt_ratio' and 'get_debt_to_equity_ratio'. The top 2 tools for intent 4 are 'get_dividend_payout_ratio' and 'get_retention_ratio'. Since there is an overlap between Intent 1 and Intent 2 'get_return_on_equity' and 'get_return_on_assets', we need to understand which intent these 2 tools should be counted for. Considering Intent 1 is very much related to return on equity, we can count 'get_return_on_equity' there. Then we go to Intent 2 and add the next 1 tool which is 'get_net_profit_margin'. Since there is no more overlap, this gives us a unique list of 8 tools that are most relevant to the entire user question. So we can choose 2 more tools which is the most relevant from the list. The last two tools we will choose is 'get_total_debt' and 'get_dividend_yield', since they are relevant in the third slot to their respective intents.Now we have successfully built a unique list of 10 tools.

Final unique list of " +:+ pretty (final_top_k self) +:+ " tools: ['get_return_on_equity', 'get_return_on_assets', 'get_debt_ratio', 'get_dividend_payout_ratio', 'get_net_profit_margin'].
---------
YOUR TURN:
" in
  human_combiner_prompt ←
    intent_lines 1 list_of_intents list_of_list_of_tools
      ("USER QUESTION: '" +:+ user_question +:+ "'" +:+ LF);
  let human_combiner_prompt :=
    human_combiner_prompt +:+ "THE APPROACH TO TAKE AND " +:+
    pretty (final_top_k self) +:+ " FINAL UNIQUE TOOLS:" in
  system ← SystemMessagePromptTemplate.from_template lib final_combined_thoughts;
  human ← HumanMessagePromptTemplate.from_template lib human_combiner_prompt;
  let final_thoughts_chat_template := [system; human] in
  ChatPromptTemplate.format_messages final_thoughts_chat_template [].

Definition _get_structured_prompt_after_first_response (self : t)
    (ai_response : string) : list message :=
  let human_structured :=
    "Return ONLY the " +:+ pretty (final_top_k self) +:+
    " final list of unique tools in a structured list format. As an example: ['tool_1', 'tool_2', 'tool_3', 'tool_4', 'tool_5']" +:+ LF +:+
    "Do not include any other information such as your reasoning or context." +:+ LF +:+
    "Just the " +:+ pretty (final_top_k self) +:+ " final combined tools." in
  [ Message AI ai_response; Message Human human_structured ].

(** The body of the [try] statement: steps 1 to 4.  Each step that can
    raise comes before the assignment of [result], so the handler leaves
    [result] as it was. *)
Definition attempt (self : t) (user_question : string)
    (list_of_intents : list string)
    (list_of_list_of_tools : list (list string))
    (result : option FinalToolNames)
  : M (loop_exit * option FinalToolNames) :=
  try_except
    (messages ← lift (_get_final_combined_thoughts_messages self
                        user_question list_of_intents list_of_list_of_tools);
     ai_message ← invoke (llm self) messages;
     let ai_response_content := ai_content ai_message in
     let structured_messages :=
       _get_structured_prompt_after_first_response self ai_response_content in
     r ← structured_llm_invoke self structured_messages;
     if bool_decide (len_set (tool_names r) = final_top_k self)
     then mret (Break, Some r)
     else mret (NextIteration, Some r))
    (λ _, mret (NextIteration, result)).

Definition generate (self : t) (user_question : string)
    (list_of_intents : list string)
    (list_of_list_of_tools : list (list string)) : M (list string) :=
  result ← while_attempts
             (attempt self user_question list_of_intents list_of_list_of_tools)
             0 None;
  match result with
  | Some r =>
      if bool_decide (len_set (tool_names r) = final_top_k self)
      then mret (tool_names r)
      else mret []
  | None => mret []
  end.
End WithLibrary.

End RerankerDecomposedQueries.

(** ** pre-retrieval: the vector store indexer *)

(** The abstract base class: an indexer answers [query(query, k)].  The other
    abstract methods (saving and loading an index) play no part in
    retrieval. *)
Class BaseVectorStoreIndexer (KB : Type) : Type :=
  { query : KB → trace → string → Z → outcome (list Document) }.

(** [toolshed_knowledge_base.query(query, k=top_k)], recorded in the trace. *)
Definition index_query `{BaseVectorStoreIndexer KB} (kb : KB) (q : string)
    (k : Z) : M (list Document) :=
  λ t, (query kb t q k, t ++ [IndexQuery q k]).

Definition AttributeError (message : string) : exn :=
  Exception (OtherException "AttributeError") message.

Definition TypeError (message : string) : exn :=
  Exception (OtherException "TypeError") message.

Module FAISSVectorStoreIndexer.

(** The FAISS store built from the documents, seen through its search. *)
Record FAISS : Type :=
  { similarity_search : trace → string → Z → outcome (list Document) }.

(** The embedding model, seen through the store that
    [FAISS.from_documents(documents, embedding_model)] builds with it, or the
    exception that embedding the documents raises. *)
Record EmbeddingModel : Type :=
  { from_documents : list Document → outcome FAISS }.

(** [self.embedding_model] is only set when a model was given; [self.index]
    is [None] until documents are indexed or an index is loaded. *)
Record t : Type :=
  { embedding_model : option EmbeddingModel; index : option FAISS }.

Definition __init__ (embedding_model : option EmbeddingModel) : t :=
  {| embedding_model := embedding_model; index := None |}.

(** The indexer after [self.index_documents(documents)]; when the call
    raises, the indexer is as it was. *)
Definition index_documents (self : t) (documents : list Document) : outcome t :=
  match embedding_model self with
  | None =>
      Raised (AttributeError
        "'FAISSVectorStoreIndexer' object has no attribute 'embedding_model'")
  | Some model =>
      store ← from_documents model documents;
      mret {| embedding_model := embedding_model self; index := Some store |}
  end.

Definition query (self : t) (tr : trace) (q : string) (k : Z)
  : outcome (list Document) :=
  match index self with
  | Some ix => similarity_search ix tr q k
  | None =>
      Raised (Exception ValueError
        "Index has not been created yet. Call 'index_documents' or 'load_index' first.")
  end.

End FAISSVectorStoreIndexer.

#[global] Instance FAISS_indexer : BaseVectorStoreIndexer FAISSVectorStoreIndexer.t :=
  {| query := FAISSVectorStoreIndexer.query |}.

(** ** intra-retrieval: InitialToolRetrievalModule *)

Module InitialToolRetrievalModule.
Section WithIndexer.
Context {KB : Type} `{BaseVectorStoreIndexer KB}.

Record t : Type := { toolshed_knowledge_base : KB }.

(** [InitialToolRetrievalModule(toolshed_knowledge_base=..., ...)]: the
    constructor takes the knowledge base and nothing else.  [other_keywords]
    are the names of the other keyword arguments of the call, in the order
    in which they are written; Python refuses the first of them. *)
Definition __init__ (other_keywords : list string) (toolshed_knowledge_base : KB)
  : outcome t :=
  match other_keywords with
  | [] => Returned {| toolshed_knowledge_base := toolshed_knowledge_base |}
  | keyword :: _ =>
      Raised (TypeError
        ("InitialToolRetrievalModule.__init__() got an unexpected keyword argument '"
         +:+ keyword +:+ "'"))
  end.

Definition generate (self : t) (q : string) (top_k : Z)
  : M (list Document) :=
  try_except
    (docs ← index_query (toolshed_knowledge_base self) q top_k;
     mret docs)
    (λ e, raise (Exception ValueError
                   ("Error retrieving tools: " +:+ str e))).
End WithIndexer.
Arguments t : clear implicits.
End InitialToolRetrievalModule.

(** ** Supersteps

    LangGraph runs the nodes that are due at the same time, and the branches
    created by [Send], as the tasks of one superstep.  They are started
    together, and the program does not fix the order in which they reach the
    external services.  When all of them return, what they wrote is merged in
    the order of the tasks.  When one raises, the tasks that have not started
    are cancelled, those that are running go on, and one of the exceptions
    raised so far leaves the graph.

    The scheduler stands for what the program does not fix: which of the
    pending tasks runs next, whether the pending tasks are cancelled once a
    task has raised, and which of the exceptions is the one that leaves.  A
    task that was picked runs to its end before the next one is picked; the
    calls of two branches that run at the same time can also alternate, which
    changes the history that each call sees and nothing else. *)

Record Scheduler : Type :=
  { next_task : trace → nat → nat;
    cancels_pending : trace → bool;
    reported_failure : trace → nat → nat }.

(** One of the pending tasks, and the others. *)
Definition pick {A} (sched : Scheduler) (t : trace) (pending : list A)
  : option (A * list A) :=
  let i := (next_task sched t (length pending) `mod` length pending)%nat in
  match pending !! i with
  | Some x => Some (x, delete i pending)
  | None => None
  end.

(** The tasks run one after the other as the scheduler picks them.  Each
    carries its position in the superstep; [written] holds what the tasks
    that returned have written, [failures] the exceptions raised so far. *)
Fixpoint run_tasks {A} (sched : Scheduler) (fuel : nat)
    (pending : list (nat * M A)) (written : gmap nat A) (failures : list exn)
    (t : trace) : gmap nat A * list exn * trace :=
  match fuel with
  | O => (written, failures, t)
  | S fuel' =>
      if bool_decide (failures ≠ []) && cancels_pending sched t
      then (written, failures, t)
      else
        match pick sched t pending with
        | None => (written, failures, t)
        | Some ((i, task), rest) =>
            match task t with
            | (Returned a, t') =>
                run_tasks sched fuel' rest (<[i := a]> written) failures t'
            | (Raised e, t') =>
                run_tasks sched fuel' rest written (failures ++ [e]) t'
            end
        end
  end.

(** A superstep with the given tasks: what they wrote, in the order of the
    tasks, or one of the exceptions. *)
Definition superstep {A} (sched : Scheduler) (tasks : list (M A)) : M (list A) :=
  λ t,
    let '(written, failures, t') :=
      run_tasks sched (length tasks) (imap pair tasks) ∅ [] t in
    match failures with
    | [] => (Returned (omap (λ i, written !! i) (seq 0 (length tasks))), t')
    | first :: _ =>
        let i := (reported_failure sched t' (length failures)
                    `mod` length failures)%nat in
        (Raised (default first (failures !! i)), t')
    end.

(** ** end-to-end: the LangGraph workflow

    A node reads the state and returns the keys it writes; the graph merges
    them into the state, replacing a plain key and concatenating
    ([operator.add]) an annotated one.  Each node below returns the value of
    the single key it writes. *)

Module Workflow.

Record expanded_query_dict : Type :=
  { expanded_query : string; retrieved_tools : list Document }.

Record decomposed_query_dict : Type :=
  { dq_decomposed_query : string;
    dq_expanded_query_dicts : list expanded_query_dict;
    dq_decomposed_query_tools : list Document;
    dq_final_top_k_tools : list string }.

(** A key that no node has written yet is absent from a [TypedDict] state;
    for the list-valued keys that is rendered by the empty list, and for
    [final_top_k_tools] by [None]. *)
Record ToolshedState : Type :=
  { user_query : string;
    conversation_history : list string;
    rewritten_query : string;
    decomposed_queries : list string;
    list_of_intents : list string;
    ts_retrieved_tools : list (list string);
    decomposed_query_dicts : list decomposed_query_dict;
    final_top_k_tools : option (list string) }.

Record DecomposedQueryState : Type :=
  { decomposed_query : string;
    expanded_queries : list string;
    decomposed_query_tools : list Document;
    expanded_query_dicts : list expanded_query_dict;
    dqs_decomposed_query_dicts : list decomposed_query_dict }.

Record ExpandedQueryState : Type :=
  { eqs_expanded_query : string;
    eqs_retrieved_tools : list (list string) }.

(** What a task of the retrieval superstep writes: the node
    retrieve_tools_for_each_expanded_query writes [expanded_query_dicts], the
    node retrieve_tools_for_decomposed_query writes
    [decomposed_query_tools]. *)
Inductive retrieval_write : Type :=
  | ExpandedQueryDicts (dicts : list expanded_query_dict)
  | DecomposedQueryTools (tools : list Document).

Definition apply_write (state : DecomposedQueryState) (w : retrieval_write)
  : DecomposedQueryState :=
  match w with
  | ExpandedQueryDicts dicts =>
      {| decomposed_query := decomposed_query state;
         expanded_queries := expanded_queries state;
         decomposed_query_tools := decomposed_query_tools state;
         expanded_query_dicts := expanded_query_dicts state ++ dicts;
         dqs_decomposed_query_dicts := dqs_decomposed_query_dicts state |}
  | DecomposedQueryTools tools =>
      {| decomposed_query := decomposed_query state;
         expanded_queries := expanded_queries state;
         decomposed_query_tools := tools;
         expanded_query_dicts := expanded_query_dicts state;
         dqs_decomposed_query_dicts := dqs_decomposed_query_dicts state |}
  end.

(** The queries of the retrieval superstep, in the order of its tasks. *)
Definition retrieval_queries (state : DecomposedQueryState) : list string :=
  expanded_queries state ++ [decomposed_query state].

(** What the task at position [i] writes when the index answers [docs] to
    the query [q]. *)
Definition retrieval_write_at (state : DecomposedQueryState) (i : nat)
    (q : string) (docs : list Document) : retrieval_write :=
  if decide (i < length (expanded_queries state))
  then ExpandedQueryDicts [ {| expanded_query := q; retrieved_tools := docs |} ]
  else DecomposedQueryTools docs.

(** Line 14 of the source builds the retriever with a keyword argument,
    [embedder], that its constructor does not take: as written, the
    assignment raises TypeError and [initial_tool_retrieval_module] is never
    bound. *)
Definition initial_tool_retrieval_module_as_written {KB : Type} `{BaseVectorStoreIndexer KB} (faiss_indexer : KB)
  : outcome (InitialToolRetrievalModule.t KB) :=
  InitialToolRetrievalModule.__init__ ["embedder"] faiss_indexer.

(** The objects that the module builds before the nodes are defined.  The
    nodes are modelled for whatever retriever [initial_tool_retrieval_module]
    is bound to, as they run once line 14 passes the knowledge base alone. *)
Section Modules.
Context (lib : FormatLibrary) (sched : Scheduler) (llm : ChatModel).
Context {KB : Type} `{BaseVectorStoreIndexer KB}.
Context (initial_tool_retrieval_module : InitialToolRetrievalModule.t KB).

Definition multi_query_expansion_variation_module
  : MultiQueryExpansionModule.t :=
  {| MultiQueryExpansionModule.llm := llm;
     MultiQueryExpansionModule.n_items := 2 |}.

Definition individual_top_k : Z := 5.

Definition reranker_multi_query_expansion_variations
  : RerankerMultiQueryExpansionVariations.t :=
  {| RerankerMultiQueryExpansionVariations.llm := llm;
     RerankerMultiQueryExpansionVariations.top_k := individual_top_k;
     RerankerMultiQueryExpansionVariations.multi_query_expansion_variation_module :=
       multi_query_expansion_variation_module |}.

Definition final_top_k : Z := 5.

Definition reranker_query_decomposition : RerankerDecomposedQueries.t :=
  {| RerankerDecomposedQueries.llm := llm;
     RerankerDecomposedQueries.final_top_k := final_top_k |}.

Definition continue_to_process_decomposed_queries (state : ToolshedState)
  : list string :=
  (λ dq, dq) <$> decomposed_queries state.

(** *** The subgraph run for each decomposed query *)

Definition expand_query (state : DecomposedQueryState) : M (list string) :=
  expanded_queries ←
    MultiQueryExpansionModule.generate lib
      multi_query_expansion_variation_module (decomposed_query state);
  mret expanded_queries.

Definition continue_to_retrieve_tools_for_each_expanded_queries
    (state : DecomposedQueryState) : list ExpandedQueryState :=
  (λ eq, {| eqs_expanded_query := eq; eqs_retrieved_tools := [] |})
    <$> expanded_queries state.

Definition retrieve_tools_for_query (state : DecomposedQueryState)
  : M (list Document) :=
  retrieved_tools ←
    InitialToolRetrievalModule.generate initial_tool_retrieval_module
      (decomposed_query state) individual_top_k;
  mret retrieved_tools.

Definition retrieve_tools_for_expanded_query (state : ExpandedQueryState)
  : M (list expanded_query_dict) :=
  retrieved_tools ←
    InitialToolRetrievalModule.generate initial_tool_retrieval_module
      (eqs_expanded_query state) individual_top_k;
  mret [ {| expanded_query := eqs_expanded_query state;
            retrieved_tools := retrieved_tools |} ].

Definition rerank_expanded_queries (state : DecomposedQueryState)
  : M (list decomposed_query_dict) :=
  let expanded_query_dicts := expanded_query_dicts state in
  let expanded_queries_list := expanded_query <$> expanded_query_dicts in
  let expanded_queries_tools_list :=
    retrieved_tools <$> expanded_query_dicts in
  top_tools ←
    RerankerMultiQueryExpansionVariations.generate lib
      reranker_multi_query_expansion_variations
      (decomposed_query state)
      (PyList expanded_queries_list)
      (decomposed_query_tools state)
      expanded_queries_tools_list;
  mret [ {| dq_decomposed_query := decomposed_query state;
            dq_expanded_query_dicts := expanded_query_dicts;
            dq_decomposed_query_tools := decomposed_query_tools state;
            dq_final_top_k_tools := top_tools |} ].

(** The tasks of the superstep that follows expand_query: one
    retrieve_tools_for_each_expanded_query per [Send], and
    retrieve_tools_for_decomposed_query. *)
Definition retrieval_tasks (state : DecomposedQueryState)
  : list (M retrieval_write) :=
  ((λ send, dicts ← retrieve_tools_for_expanded_query send;
            mret (ExpandedQueryDicts dicts))
     <$> continue_to_retrieve_tools_for_each_expanded_queries state) ++
  [ tools ← retrieve_tools_for_query state; mret (DecomposedQueryTools tools) ].

(** The state of a branch once the expansion and the retrievals have run:
    the edges START, expand_query, then the retrieval superstep. *)
Definition retrieved_branch (dq : string) : M DecomposedQueryState :=
  let state0 :=
    {| decomposed_query := dq; expanded_queries := [];
       decomposed_query_tools := []; expanded_query_dicts := [];
       dqs_decomposed_query_dicts := [] |} in
  expanded ← expand_query state0;
  let state1 :=
    {| decomposed_query := dq; expanded_queries := expanded;
       decomposed_query_tools := []; expanded_query_dicts := [];
       dqs_decomposed_query_dicts := [] |} in
  writes ← superstep sched (retrieval_tasks state1);
  mret (foldl apply_write state1 writes).

(** The compiled subgraph: its last node is rerank_expanded_queries, and
    what the branch hands to the parent graph is the key they share,
    [decomposed_query_dicts]. *)
Definition process_decomposed_query (dq : string)
  : M (list decomposed_query_dict) :=
  state ← retrieved_branch dq;
  out ← rerank_expanded_queries state;
  mret (dqs_decomposed_query_dicts state ++ out).

(** *** The main graph, from the decomposed state on *)

Definition rerank_decomposed_queries (state : ToolshedState)
  : M (list string) :=
  let decomposed_query_dicts := decomposed_query_dicts state in
  let decomposed_queries_list :=
    dq_decomposed_query <$> decomposed_query_dicts in
  if bool_decide (len decomposed_queries_list = 1%Z)
  then
    only ← lift (getitem decomposed_query_dicts 0);
    mret (dq_final_top_k_tools only)
  else
    let decomposed_queries_final_tools_list :=
      dq_final_top_k_tools <$> decomposed_query_dicts in
    top_tools ←
      RerankerDecomposedQueries.generate lib reranker_query_decomposition
        (rewritten_query state)
        decomposed_queries_list
        decomposed_queries_final_tools_list;
    mret top_tools.

(** The edges after decompose_user_query: one process_decomposed_query
    branch per decomposed query, in one superstep, then
    rerank_decomposed_queries.  That node is only reached through a branch:
    without any decomposed query the run ends with [final_top_k_tools]
    unset. *)
Definition fuse_decomposed (state : ToolshedState) : M ToolshedState :=
  match continue_to_process_decomposed_queries state with
  | [] => mret state
  | sends =>
      written ← superstep sched (process_decomposed_query <$> sends);
      let dicts := decomposed_query_dicts state ++ mjoin written in
      let state' :=
        {| user_query := user_query state;
           conversation_history := conversation_history state;
           rewritten_query := rewritten_query state;
           decomposed_queries := decomposed_queries state;
           list_of_intents := list_of_intents state;
           ts_retrieved_tools := ts_retrieved_tools state;
           decomposed_query_dicts := dicts;
           final_top_k_tools := final_top_k_tools state |} in
      top_tools ← rerank_decomposed_queries state';
      mret {| user_query := user_query state;
              conversation_history := conversation_history state;
              rewritten_query := rewritten_query state;
              decomposed_queries := decomposed_queries state;
              list_of_intents := list_of_intents state;
              ts_retrieved_tools := ts_retrieved_tools state;
              decomposed_query_dicts := dicts;
              final_top_k_tools := Some top_tools |}
  end.
End Modules.

End Workflow.
(** ** Scripted services, for running the model on concrete inputs *)

Definition no_answer {A} : outcome A :=
  Raised (Exception (OtherException "APIConnectionError") "Connection error.").

(** The n-th call of each entry point gets the n-th scripted answer, and
    fails once the script is used up. *)
Definition scripted (texts : list (outcome AIMessage))
    (lists : list (outcome (list string))) : ChatModel :=
  {| chat_invoke := λ t _, default no_answer (texts !! count_calls is_llm_invoke t);
     chat_structured := λ _ t _,
       default no_answer (lists !! count_calls is_structured_invoke t) |}.

Definition says (text : string) : outcome AIMessage :=
  Returned {| ai_content := text; ai_str := "content=" +:+ repr_str text |}.

Definition tool (name text : string) : Document :=
  {| page_content := text; metadata := {[ "tool_name" := name ]} |}.

(** A store that answers every query with its first [k] documents, and an
    embedding model with which [FAISS.from_documents] builds such a store. *)
Definition first_k (docs : list Document) : FAISSVectorStoreIndexer.FAISS :=
  {| FAISSVectorStoreIndexer.similarity_search := λ _ _ k,
       Returned (take (Z.to_nat k) docs) |}.

Definition embedder : FAISSVectorStoreIndexer.EmbeddingModel :=
  {| FAISSVectorStoreIndexer.from_documents := λ docs, Returned (first_k docs) |}.

(** An indexer whose index has been populated with [docs]. *)
Definition populated (docs : list Document) : FAISSVectorStoreIndexer.t :=
  {| FAISSVectorStoreIndexer.embedding_model := Some embedder;
     FAISSVectorStoreIndexer.index := Some (first_k docs) |}.

Definition retriever_of {KB : Type} (kb : KB) : InitialToolRetrievalModule.t KB :=
  {| InitialToolRetrievalModule.toolshed_knowledge_base := kb |}.

(** A library for the examples, none of which has a field outside the
    modelled syntax: such a template is refused. *)
Definition plain_fields_only : FormatLibrary :=
  {| other_template := unit;
     other_from_template := λ _,
       Raised (Exception ValueError "field outside the modelled syntax");
     other_format := λ _ _,
       Raised (Exception ValueError "field outside the modelled syntax") |}.

(** Two schedulers: the tasks in their order, the pending ones cancelled
    after a failure; and the last pending task first, nothing cancelled. *)
Definition in_order : Scheduler :=
  {| next_task := λ _ _, 0%nat;
     cancels_pending := λ _, true;
     reported_failure := λ _ _, 0%nat |}.

Definition last_first : Scheduler :=
  {| next_task := λ _ n, (n - 1)%nat;
     cancels_pending := λ _, false;
     reported_failure := λ _ n, (n - 1)%nat |}.

(** A model that gives the same two answers whatever it is asked. *)
Definition constant_model (text : string) (answer : list string) : ChatModel :=
  {| chat_invoke := λ _ _, says text;
     chat_structured := λ _ _ _, Returned answer |}.

(** The validation that comes with a structured output: an answer that does
    not meet the length bounds declared by the schema is refused. *)
Definition within_bounds (s : Schema) (l : list string) : bool :=
  match min_length s with Some n => bool_decide (n ≤ len l)%Z | None => true end &&
  match max_length s with Some n => bool_decide (len l ≤ n)%Z | None => true end.

Definition enforcing_bounds (llm : ChatModel) : ChatModel :=
  {| chat_invoke := chat_invoke llm;
     chat_structured := λ s t ms,
       l ← chat_structured llm s t ms;
       if within_bounds s l then Returned l
       else Raised (Exception (OtherException "ValidationError")
                      "the list does not meet the declared length") |}.

Definition expander_of (llm : ChatModel) (n : Z) : MultiQueryExpansionModule.t :=
  {| MultiQueryExpansionModule.llm := llm;
     MultiQueryExpansionModule.n_items := n |}.

Definition intent_reranker_of (llm : ChatModel) (k : Z)
  : RerankerMultiQueryExpansionVariations.t :=
  {| RerankerMultiQueryExpansionVariations.llm := llm;
     RerankerMultiQueryExpansionVariations.top_k := k;
     RerankerMultiQueryExpansionVariations.multi_query_expansion_variation_module :=
       expander_of llm 2 |}.

Definition combiner_of (llm : ChatModel) (k : Z) : RerankerDecomposedQueries.t :=
  {| RerankerDecomposedQueries.llm := llm;
     RerankerDecomposedQueries.final_top_k := k |}.

(** The contents of the AI turns of a prompt sent to the model. *)
Definition ai_turns (c : port_call) : list string :=
  match c with
  | LlmInvoke ms | StructuredInvoke _ ms =>
      content <$> filter (λ m, role_of m = AI) ms
  | IndexQuery _ _ => []
  end.

(** Unfolding of the operations of [M]. *)
Ltac run_M :=
  unfold mbind, M_bind, mret, M_ret, try_except, raise, lift, invoke,
    structured_invoke in *.

(** ** pre-retrieval: the document builder *)

(** The characters of a snake_case identifier, as the names of the catalogue
    are: small letters, digits and underscores. *)
Definition snake_case_char (c : Ascii.ascii) : bool :=
  is_lower c || is_digit c || Ascii.eqb c UNDERSCORE.

(** Reading a formatted name back: spaces become underscores again and
    letters are lowered. *)
Fixpoint unformat (s : string) : string :=
  match s with
  | EmptyString => EmptyString
  | String c s' =>
      String (if Ascii.eqb c SPACE then UNDERSCORE else to_lower c) (unformat s')
  end.

Module DocumentBuilder.

(** What the builder reads of a tool object: its [description], and the
    [properties] of [args_schema.schema()] as the list of their items, each
    value a dict.  [None] stands for a tool object on which
    [args_schema.schema()] raises AttributeError. *)
Record ToolObject : Type :=
  { description : string;
    args_schema : option (list (string * gmap string string)) }.

(** [toolshed_dict]: tool name to a dict with the key ['tool_object']. *)
Record t : Type :=
  { toolshed_dict : list (string * gmap string ToolObject) }.

Definition _get_args_schema (self : t) (tool_name : string) : outcome string :=
  entry ← dict_getitem (toolshed_dict self) tool_name;
  tool_object ← map_getitem entry "tool_object";
  match args_schema tool_object with
  | Some properties =>
      parameters ←
        for_each (λ item : string * gmap string string,
                    title ← map_getitem item.2 "title";
                    text ← map_getitem item.2 "description";
                    mret (title +:+ ": " +:+ text))
                 properties;
      mret (join " " parameters)
  | None => Returned ""
  end.

Definition _get_hypothetical_questions (tool_name : string)
    (hypothetical_questions_dict : gmap string (list string)) : string :=
  let questions := default [] (hypothetical_questions_dict !! tool_name) in
  join " " questions.

Definition _get_key_topics (tool_name : string)
    (key_topics_dict : gmap string (list string)) : string :=
  let topics := default [] (key_topics_dict !! tool_name) in
  join " " topics.

(** [tool_name.replace('_', ' ')] *)
Fixpoint replace_underscores (s : string) : string :=
  match s with
  | EmptyString => EmptyString
  | String c s' =>
      String (if Ascii.eqb c UNDERSCORE then SPACE else c) (replace_underscores s')
  end.

(** [re.sub(r'(?<!^)(?=[A-Z])', ' ', s)]: a space goes in front of every
    capital letter that is not the first character. *)
Fixpoint spaces_before_capitals (at_start : bool) (s : string) : string :=
  match s with
  | EmptyString => EmptyString
  | String c s' =>
      if is_upper c && negb at_start
      then String SPACE (String c (spaces_before_capitals false s'))
      else String c (spaces_before_capitals false s')
  end.

(** [s.title()] on ASCII text: a letter that follows a letter is lowered,
    any other letter is raised.  Bytes from 128 up are left as they are,
    where Python also cases the letters outside ASCII; the names of the
    catalogue are ASCII identifiers. *)
Fixpoint title (after_letter : bool) (s : string) : string :=
  match s with
  | EmptyString => EmptyString
  | String c s' =>
      if is_upper c || is_lower c
      then String (if after_letter then to_lower c else to_upper c) (title true s')
      else String c (title false s')
  end.

Definition _format_tool_name_for_embedding (tool_name : string) : string :=
  let name_with_spaces := replace_underscores tool_name in
  let name_with_spaces := spaces_before_capitals true name_with_spaces in
  let tool_name_for_embedding := title false name_with_spaces in
  tool_name_for_embedding.

Definition build_document (self : t) (tool_name : string)
    (include_name include_description include_args_schema
     include_hypothetical_questions include_key_topics : bool)
    (hypothetical_questions_dict key_topics_dict : option (gmap string (list string)))
  : outcome Document :=
  let content_parts : list string := [] in
  tool_data_dict ← dict_getitem (toolshed_dict self) tool_name;
  tool_object ← map_getitem tool_data_dict "tool_object";
  let tool_description := description tool_object in
  let content_parts :=
    if include_name
    then content_parts ++ [_format_tool_name_for_embedding tool_name]
    else content_parts in
  let content_parts :=
    if include_description then content_parts ++ [tool_description]
    else content_parts in
  content_parts ←
    (if include_args_schema
     then args_schema ← _get_args_schema self tool_name;
          mret (if bool_decide (args_schema ≠ "")
                then content_parts ++ [args_schema] else content_parts)
     else mret content_parts);
  content_parts ←
    (if include_hypothetical_questions
     then match hypothetical_questions_dict with
          | None =>
              Raised (Exception ValueError
                "hypothetical_questions_dict must be provided when include_hypothetical_questions is True")
          | Some questions_dict =>
              let questions_text :=
                _get_hypothetical_questions tool_name questions_dict in
              mret (if bool_decide (questions_text ≠ "")
                    then content_parts ++ [questions_text] else content_parts)
          end
     else mret content_parts);
  content_parts ←
    (if include_key_topics
     then match key_topics_dict with
          | None =>
              Raised (Exception ValueError
                "key_topics_dict must be provided when include_key_topics is True")
          | Some topics_dict =>
              let key_topics_text := _get_key_topics tool_name topics_dict in
              mret (if bool_decide (key_topics_text ≠ "")
                    then content_parts ++ [key_topics_text] else content_parts)
          end
     else mret content_parts);
  let page_content := join " - " content_parts in
  let metadata : gmap string string :=
    {[ "tool_name" := tool_name; "tool_hash" := "Not implemented yet" ]} in
  mret {| page_content := page_content; metadata := metadata |}.

End DocumentBuilder.

Module ToolshedKnowledgeBaseBuilder.

Record t : Type :=
  { toolshed_dict : list (string * gmap string DocumentBuilder.ToolObject);
    document_builder : DocumentBuilder.t }.

Definition __init__
    (toolshed_dict : list (string * gmap string DocumentBuilder.ToolObject)) : t :=
  {| toolshed_dict := toolshed_dict;
     document_builder := {| DocumentBuilder.toolshed_dict := toolshed_dict |} |}.

(** [tool_names] is [None] by default; [not tool_names] also holds for the
    empty list. *)
Definition build_documents (self : t) (tool_names : option (list string))
    (include_name include_description include_args_schema
     include_hypothetical_questions include_key_topics : bool)
    (hypothetical_questions_dict key_topics_dict : option (gmap string (list string)))
  : outcome (list Document) :=
  let tool_names :=
    match tool_names with
    | None | Some [] => (toolshed_dict self).*1
    | Some names => names
    end in
  for_each (λ tool_name,
              DocumentBuilder.build_document (document_builder self) tool_name
                include_name include_description include_args_schema
                include_hypothetical_questions include_key_topics
                hypothetical_questions_dict key_topics_dict)
           tool_names.

End ToolshedKnowledgeBaseBuilder.

(** ** Notions used to state how the retry loops run *)

(** A [result] that the test after the Intent-Level Reranker's loop turns
    down: nothing yet, or an answer whose length is not [top_k]. *)
Definition rejected_result (self : RerankerMultiQueryExpansionVariations.t)
    (res : option RerankerMultiQueryExpansionVariations.FinalToolNames) : Prop :=
  ∀ x, res = Some x →
       len (RerankerMultiQueryExpansionVariations.tool_names x)
       ≠ RerankerMultiQueryExpansionVariations.top_k self.

(** The calls [ext] made by the Cross-Intent Combiner from the trace [t] on
    follow the two passes: each call is the free-form call with the prompt
    [ms], or a structured call that comes right after a free-form call that
    returned, and carries the text of that answer. *)
Definition two_pass (self : RerankerDecomposedQueries.t) (ms : list message)
    (t ext : trace) : Prop :=
  ∀ i c, ext !! i = Some c →
    c = LlmInvoke ms ∨
    ∃ j ai,
      i = S j ∧ ext !! j = Some (LlmInvoke ms) ∧
      chat_invoke (RerankerDecomposedQueries.llm self) (t ++ take j ext) ms
        = Returned ai ∧
      c = StructuredInvoke
            (RerankerDecomposedQueries.FinalToolNames_schema self)
            (RerankerDecomposedQueries._get_structured_prompt_after_first_response
               self (ai_content ai)).

(** A text without braces: a template without fields. *)
Definition brace_free (s : string) : bool :=
  all_chars (λ c, negb (Ascii.eqb c LBRACE || Ascii.eqb c RBRACE)) s.

(** A document whose two rendered parts, the tool name and the content,
    hold no brace. *)
Definition plain_document (doc : Document) : bool :=
  brace_free (default "Unknown" (metadata doc !! "tool_name")) &&
  brace_free (page_content doc).

(** The tasks of a superstep run in a given order, each to its end. *)
Fixpoint run_in_order {A} (tasks : list (M A)) (order : list nat)
    (written : gmap nat A) (failures : list exn) (t : trace)
  : gmap nat A * list exn * trace :=
  match order with
  | [] => (written, failures, t)
  | i :: order' =>
      match @lookup _ (M A) _ _ i tasks with
      | None => run_in_order tasks order' written failures t
      | Some task =>
          match task t with
          | (Returned a, t') =>
              run_in_order tasks order' (<[i := a]> written) failures t'
          | (Raised e, t') =>
              run_in_order tasks order' written (failures ++ [e]) t'
          end
      end
  end.

(** ** intra-retrieval: LLMQueryRewritingModule and QueryDecompositionModule *)

(** The same chat model asked for a structured output whose single field is
    a string, as the rewriter's [RewrittenQuery] is. *)
Record TextModel : Type :=
  { chat_structured_text : Schema → trace → list message → outcome string }.

(** [llm.with_structured_output(schema).invoke(messages)] for such a schema. *)
Definition structured_text_invoke (llm : TextModel) (schema : Schema)
    (messages : list message) : M string :=
  λ t, (chat_structured_text llm schema t messages,
        t ++ [StructuredInvoke schema messages]).

Module LLMQueryRewritingModule.

Record t : Type := { llm : TextModel }.

Record RewrittenQuery : Type := { rewritten_query : string }.

Definition RewrittenQuery_schema : Schema :=
  {| schema_name := "RewrittenQuery";
     field_name := "rewritten_query";
     description := "The rewritten query.";
     min_length := None;
     max_length := None |}.

Definition structured_llm_invoke (self : t) (messages : list message)
  : M RewrittenQuery :=
  s ← structured_text_invoke (llm self) RewrittenQuery_schema messages;
  mret {| rewritten_query := s |}.

Definition _get_system_message : string :=
  "You are an intelligent assistant designed to rewrite user queries for better understanding and clarity.
Your task is to analyze the user's input, identify ambiguities, and use the previous chat history for context. Correct grammar, clarify terms, and rewrite the query concisely for better understanding.

Example 1:
-----------
Previous Chat History: [" +:+ DQ +:+ "User: status of project?" +:+ DQ +:+ ", " +:+ DQ +:+ "Assistant: The project is 80% complete." +:+ DQ +:+ "]
User Input: " +:+ DQ +:+ "timeline?" +:+ DQ +:+ "
Rewritten Query: " +:+ DQ +:+ "What is the project timeline?" +:+ DQ +:+ "

Example 2:
-----------
Previous Chat History: [" +:+ DQ +:+ "User: How's the product launch going?" +:+ DQ +:+ ", " +:+ DQ +:+ "Assistant: The launch is on schedule." +:+ DQ +:+ "]
User Input: " +:+ DQ +:+ "what about it?" +:+ DQ +:+ "
Rewritten Query: " +:+ DQ +:+ "Can you give me more details about the product launch?" +:+ DQ +:+ "

Example 3 (Multi-hop Query):
-----------
Previous Chat History: []
User Input: " +:+ DQ +:+ "current value of inv of 5k, yearly flows 3k for 3 yrs @ R 3.5, also IRR for another one 7k cost, 4k flows for 8 yrs, 2.75%" +:+ DQ +:+ "
Rewritten Query: " +:+ DQ +:+ "What is the NPV of an initial investment of $5,000 with yearly cash flows of $3,000 for 3 years at a 3.5% rate? Also, calculate the internal rate of return (IRR) for another investment with an initial cost of $7,000 and yearly cash flows of $4,000 for 8 years." +:+ DQ +:+ "
-----------
".

Definition _get_human_message (user_question : string)
    (conversation_history : list string) : string :=
  "Previous Chat History: " +:+ str_list conversation_history +:+ "
User Input: '" +:+ user_question +:+ "'
Rewritten Query:".

Definition _get_rewrite_messages (lib : FormatLibrary) (user_question : string)
    (conversation_history : list string) : outcome (list message) :=
  let system_message := _get_system_message in
  let human_message := _get_human_message user_question conversation_history in
  system ← SystemMessagePromptTemplate.from_template lib system_message;
  human ← HumanMessagePromptTemplate.from_template lib human_message;
  let chat_template := [system; human] in
  ChatPromptTemplate.format_messages chat_template
    [ ("conversation_history", PyList conversation_history);
      ("user_question", PyStr user_question) ].

Definition generate (lib : FormatLibrary) (self : t) (query : string)
    (conversation_history : list string) : M string :=
  messages ← lift (_get_rewrite_messages lib query conversation_history);
  result ← structured_llm_invoke self messages;
  mret (rewritten_query result).

End LLMQueryRewritingModule.

Module QueryDecompositionModule.

Record t : Type := { llm : ChatModel }.

Record DecomposedQuery : Type := { decomposed_steps : list string }.

Definition DecomposedQuery_schema : Schema :=
  {| schema_name := "DecomposedQuery";
     field_name := "decomposed_steps";
     description := "The decomposed steps of the query.";
     min_length := None;
     max_length := None |}.

Definition structured_llm_invoke (self : t) (messages : list message)
  : M DecomposedQuery :=
  l ← structured_invoke (llm self) DecomposedQuery_schema messages;
  mret {| decomposed_steps := l |}.

Definition _get_system_message : string :=
  "You are an expert at breaking down user questions into clearly defined step(s).
You will be given a user question that can be answered by a single action or multiple actions (multi-hop queries).
For some questions, the user may be asking for a single action, which is typically just a single topic and query, which can be broken down into one step.
For other questions, the user may be asking for multiple things (usually denoted by the use of 'and' or 'additionally'), which can be broken down into multiple steps.
Your job is to:
1. Break down the question into clearly defined steps.
2. Always be as clear as possible, including the technical details.
3. For multi-step questions, break them down into 2-4 reasoning steps, depending on the complexity of the request.

Example of single-step questions:
-----------
EX. QUESTION:
What is the NPV of my project?
EX. STEP(S):
['What is the NPV of my project?']
-----------

Example of multi-step questions (2+ steps):
-----------
EX. QUESTION:
What's the net present value (NPV) and internal rate of return (IRR) for a project with an initial investment of $5,000, projected annual cash inflows of $1,200 for 7 years, and a 6% discount rate?
EX. STEP(S):
['Calculate the net present value (NPV) for the project with an initial investment of $5,000, projected annual cash inflows of $1,200 for 7 years, and a 6% discount rate.', 'Calculate the internal rate of return (IRR) for the project with the same initial investment of $5,000 and projected annual cash inflows of $1,200 over 7 years.']
-----------
".

Definition _get_human_message (user_question : string) : string :=
  "USER QUESTION: " +:+ user_question +:+ "
STEPS FOR THAT QUERY:".

Definition _get_decomposition_messages (lib : FormatLibrary)
    (user_question : string) : outcome (list message) :=
  let system_message := _get_system_message in
  let human_message := _get_human_message user_question in
  system ← SystemMessagePromptTemplate.from_template lib system_message;
  human ← HumanMessagePromptTemplate.from_template lib human_message;
  let chat_template := [system; human] in
  ChatPromptTemplate.format_messages chat_template
    [("user_question", PyStr user_question)].

Definition generate (lib : FormatLibrary) (self : t) (query : string)
    : M (list string) :=
  messages ← lift (_get_decomposition_messages lib query);
  result ← structured_llm_invoke self messages;
  mret (decomposed_steps result).

End QueryDecompositionModule.

(** ** end-to-end: the whole graph and the agent on top of it *)

Module FusionGraph.

Section Modules.
Context (lib : FormatLibrary) (sched : Scheduler).
Context (llm : ChatModel) (llm_text : TextModel).
Context {KB : Type} `{BaseVectorStoreIndexer KB}.
Context (initial_tool_retrieval_module : InitialToolRetrievalModule.t KB).

Definition query_rewriter : LLMQueryRewritingModule.t :=
  {| LLMQueryRewritingModule.llm := llm_text |}.

Definition query_decomposition_module : QueryDecompositionModule.t :=
  {| QueryDecompositionModule.llm := llm |}.

(** The first two nodes; [state.get("conversation_history", [])] is the
    history when the key is there and the empty list otherwise. *)
Definition rewrite_user_query (user_query : string)
    (conversation_history : option (list string)) : M string :=
  rewritten_query ←
    LLMQueryRewritingModule.generate lib query_rewriter user_query
      (default [] conversation_history);
  mret rewritten_query.

Definition decompose_user_query (rewritten_query : string) : M (list string) :=
  decomposed_queries ←
    QueryDecompositionModule.generate lib query_decomposition_module rewritten_query;
  mret decomposed_queries.

(** [advanced_rag_tool_fusion.invoke(input)]: the edges START,
    rewrite_user_query, decompose_user_query, then the fan-out and the last
    node. *)
Definition advanced_rag_tool_fusion (user_query : string)
    (conversation_history : option (list string)) : M Workflow.ToolshedState :=
  rewritten_query ← rewrite_user_query user_query conversation_history;
  decomposed_queries ← decompose_user_query rewritten_query;
  Workflow.fuse_decomposed lib sched llm initial_tool_retrieval_module
    {| Workflow.user_query := user_query;
       Workflow.conversation_history := default [] conversation_history;
       Workflow.rewritten_query := rewritten_query;
       Workflow.decomposed_queries := decomposed_queries;
       Workflow.list_of_intents := [];
       Workflow.ts_retrieved_tools := [];
       Workflow.decomposed_query_dicts := [];
       Workflow.final_top_k_tools := None |}.

End Modules.

End FusionGraph.

(** [d[k] = v]: the value of a key that is there is replaced in place, a new
    key goes to the end. *)
Fixpoint dict_setitem {V} (d : list (string * V)) (k : string) (v : V)
  : list (string * V) :=
  match d with
  | [] => [(k, v)]
  | (k', v') :: d' =>
      if decide (k' = k) then (k, v) :: d' else (k', v') :: dict_setitem d' k v
  end.

Module Agent.

(** A tool of [tool_list]: its [name] and what the rest of the code reads of
    it. *)
Record Tool : Type :=
  { name : string; tool_fields : DocumentBuilder.ToolObject }.

(** [llm.bind_tools(selected_tools).invoke(messages)] *)
Record ToolCallingModel : Type :=
  { chat_invoke_with_tools :
      list Tool → trace → list message → outcome AIMessage }.

Definition invoke_with_tools (llm : ToolCallingModel) (selected_tools : list Tool)
    (messages : list message) : M AIMessage :=
  λ t, (chat_invoke_with_tools llm selected_tools t messages,
        t ++ [LlmInvoke messages]).

(** [{tool.name: {"tool_object": tool} for tool in tool_list}] *)
Definition toolshed_dict (tool_list : list Tool)
  : list (string * gmap string Tool) :=
  foldl (λ d tool, dict_setitem d (name tool) {[ "tool_object" := tool ]})
        [] tool_list.

Record AdvancedRAGToolFusionAgent : Type :=
  { user_query : string;
    conversation_history : option (list string);
    retrieved_tool_name_from_toolshed : list string;
    messages : list message }.

Section Nodes.
Context (lib : FormatLibrary) (sched : Scheduler).
Context (llm : ChatModel) (llm_text : TextModel) (llm_tools : ToolCallingModel).
Context {KB : Type} `{BaseVectorStoreIndexer KB}.
Context (initial_tool_retrieval_module : InitialToolRetrievalModule.t KB).
Context (tool_list : list Tool).

Definition retrieve_tools_from_toolshed (state : AdvancedRAGToolFusionAgent)
  : M (list string) :=
  result ←
    FusionGraph.advanced_rag_tool_fusion lib sched llm llm_text
      initial_tool_retrieval_module
      (user_query state) (Some (default [] (conversation_history state)));
  match Workflow.final_top_k_tools result with
  | Some final_top_k_tools => mret final_top_k_tools
  | None => raise (KeyError "final_top_k_tools")
  end.

Definition agent_node (state : AdvancedRAGToolFusionAgent) : M (list AIMessage) :=
  selected_tools ←
    lift (for_each
            (λ tool_name,
               entry ← dict_getitem (toolshed_dict tool_list) tool_name;
               map_getitem entry "tool_object")
            (retrieved_tool_name_from_toolshed state));
  answer ← invoke_with_tools llm_tools selected_tools (messages state);
  mret [answer].

End Nodes.

End Agent.

(** A small catalogue: one tool with a described argument, one without
    argument schema. *)
Definition sample_catalogue
  : list (string * gmap string DocumentBuilder.ToolObject) :=
  [ ("get_net_present_value",
     {[ "tool_object" :=
          {| DocumentBuilder.description := "Computes the net present value.";
             DocumentBuilder.args_schema :=
               Some [ ("rate", {[ "title" := "Rate";
                                  "description" := "Discount rate." ]}) ] |} ]});
    ("get_irr",
     {[ "tool_object" :=
          {| DocumentBuilder.description := "Computes the internal rate of return.";
             DocumentBuilder.args_schema := None |} ]}) ].

(** Fixtures for the whole graph: a rewriter that always gives the same
    text, and two tools. *)
Definition rewrites_to (text : string) : TextModel :=
  {| chat_structured_text := λ _ _ _, Returned text |}.

Definition sample_tools : list Agent.Tool :=
  [ {| Agent.name := "get_npv";
       Agent.tool_fields :=
         {| DocumentBuilder.description := "Computes the net present value.";
            DocumentBuilder.args_schema := None |} |};
    {| Agent.name := "get_irr";
       Agent.tool_fields :=
         {| DocumentBuilder.description := "Computes the internal rate of return.";
            DocumentBuilder.args_schema := None |} |} ].

Definition answers_with_tools (text : string) : Agent.ToolCallingModel :=
  {| Agent.chat_invoke_with_tools := λ _ _ _, says text |}.

(** * Properties *)

(** ** Sets of identifiers *)

Lemma size_list_to_set_le (l : list string) :
  size (list_to_set l : gset string) ≤ length l.
Proof.
  induction l as [|x l IH].
  - by rewrite list_to_set_nil, size_empty.
  - rewrite list_to_set_cons. cbn [length].
    destruct (decide (x ∈ (list_to_set l : gset string))) as [Hin|Hnin].
    + rewrite (subseteq_union_1_L (C:=gset string) {[x]})
        by (by apply singleton_subseteq_l).
      lia.
    + rewrite size_union by (by apply disjoint_singleton_l).
      rewrite size_singleton. lia.
Qed.

(** The set built from a list is as large as the list exactly when the list
    has no repetition. *)
Lemma len_set_NoDup (l : list string) : len_set l = len l ↔ NoDup l.
Proof.
  unfold len_set, len. split.
  - intros Heq. apply Nat2Z.inj in Heq.
    induction l as [|x l IH]; [constructor|].
    rewrite list_to_set_cons in Heq. cbn [length] in Heq.
    pose proof (size_list_to_set_le l) as Hle.
    destruct (decide (x ∈ l)) as [Hin|Hnin].
    + rewrite (subseteq_union_1_L (C:=gset string) {[x]}) in Heq
        by (by apply singleton_subseteq_l, elem_of_list_to_set).
      lia.
    + rewrite size_union in Heq
        by (by apply disjoint_singleton_l; rewrite elem_of_list_to_set).
      rewrite size_singleton in Heq.
      constructor; [done|]. apply IH. lia.
  - intros Hnd. f_equal. by apply size_list_to_set.
Qed.

(** ** The retry loop *)

Section RetryLoopFacts.
Context {R : Type} (attempt : option R → M (loop_exit * option R)).

(** An invariant indexed by the attempt counter: when every execution of
    the [try] statement ends normally and carries the invariant to the next
    counter, the loop ends normally, with the invariant at a counter that
    has not passed [max_attempts]. *)
Lemma while_attempts_rule (Inv : nat → option R → trace → Prop) :
  (∀ n r t, n < max_attempts → Inv n r t →
     ∃ x r' t', attempt r t = (Returned (x, r'), t') ∧ Inv (S n) r' t') →
  ∀ n r t, Inv n r t →
    ∃ m r' t', while_attempts attempt n r t = (Returned r', t') ∧
               Inv m r' t' ∧ m ≤ n `max` max_attempts.
Proof.
  intros Hstep n r t.
  funelim (while_attempts attempt n r t); intros HInv;
    try match goal with
        | Hlt : _ < max_attempts |- _ =>
            destruct (Hstep _ _ _ Hlt HInv) as (x & r1 & t1 & Hatt & HInv')
        end.
  - exists attempts, result, t. split; [done|]. split; [done|]. lia.
  - rewrite Heq in Hatt. injection Hatt as <- <- <-.
    exists (S attempts), result', t'. split; [done|]. split; [done|]. lia.
  - rewrite Heq in Hatt. injection Hatt as <- <- <-.
    rewrite Nat.add_1_r in *.
    destruct (H Inv Hstep HInv') as (m & r2 & t2 & Hrun & HI & Hm).
    exists m, r2, t2. split; [done|]. split; [done|]. lia.
  - rewrite Heq in Hatt. discriminate Hatt.
Qed.
End RetryLoopFacts.

(** ** Counting calls in a trace *)

Lemma count_calls_app (p : port_call → bool) (t1 t2 : trace) :
  count_calls p (t1 ++ t2) = count_calls p t1 + count_calls p t2.
Proof. unfold count_calls. by rewrite filter_app, length_app. Qed.


Lemma count_calls_le_length (p : port_call → bool) (t : trace) :
  count_calls p t ≤ length t.
Proof. unfold count_calls. apply length_filter. Qed.

Lemma generation_calls_split (t : trace) :
  count_calls is_generation_call t =
  count_calls is_llm_invoke t + count_calls is_structured_invoke t.
Proof.
  unfold count_calls. induction t as [|c t IH]; [done|].
  rewrite !filter_cons.
  destruct c; simpl; repeat case_decide; simpl; try done; lia.
Qed.

(** ** Prompt templates *)

Lemma append_empty_r (s : string) : s +:+ "" = s.
Proof.
  induction s as [|c s IH]; [done|].
  change (String c (s +:+ "") = String c s). by rewrite IH.
Qed.

Lemma for_each_inv {A B} (body : A → outcome B) l ys :
  for_each body l = Returned ys → Forall2 (λ x y, body x = Returned y) l ys.
Proof.
  revert ys. induction l as [|x l IH]; intros ys; simpl.
  - intros [= <-]. constructor.
  - destruct (body x) as [y|e] eqn:Hx; [|done]. cbn [mbind outcome_bind].
    destruct (for_each body l) as [ys'|e]; [|done]. cbn.
    intros [= <-]. constructor; eauto.
Qed.

Lemma for_each_total {A B} (body : A → outcome B) l :
  Forall (λ x, ∃ y, body x = Returned y) l →
  ∃ ys, for_each body l = Returned ys ∧ length ys = length l.
Proof.
  induction 1 as [|x l [y Hy] _ (ys & Hys & Hlen)]; simpl.
  - by exists [].
  - rewrite Hy. cbn [mbind outcome_bind]. rewrite Hys. cbn.
    exists (y :: ys). simpl. by rewrite Hlen.
Qed.

(** A text without braces is accepted, and formatting gives the text back
    whatever the arguments are. *)
Lemma brace_free_app (a b : string) :
  brace_free (a +:+ b) = brace_free a && brace_free b.
Proof.
  unfold brace_free. induction a as [|c a IH]; [done|].
  change (String c a +:+ b) with (String c (a +:+ b)).
  cbn [all_chars]. rewrite IH. by rewrite andb_assoc.
Qed.

Lemma scan_text_brace_free (s : string) :
  brace_free s = true → scan_text s = Scanned [Literal s].
Proof.
  unfold brace_free. induction s as [|c s IH]; [done|].
  cbn [all_chars]. intros [Hc Hs]%andb_prop.
  apply negb_true_iff, orb_false_elim in Hc as [Hl Hr].
  cbn [scan_text]. rewrite Hl, Hr, IH by done. done.
Qed.

Lemma from_template_brace_free lib (s : string) :
  brace_free s = true →
  PromptTemplate.from_template lib s = Returned (PromptTemplate.Plain [Literal s]).
Proof.
  intros Hs. unfold PromptTemplate.from_template.
  by rewrite scan_text_brace_free.
Qed.

Lemma format_literal lib (s : string) kwargs :
  PromptTemplate.format (PromptTemplate.Plain (lib:=lib) [Literal s]) kwargs
  = Returned s.
Proof. cbn. by rewrite append_empty_r. Qed.

(** The two-message prompts: a system text and a human text, both handed to
    [from_template].  With brace-free texts the messages hold the texts as
    they are. *)
Lemma system_human_brace_free lib (system_text human_text : string) kwargs :
  brace_free system_text = true → brace_free human_text = true →
  (system ← SystemMessagePromptTemplate.from_template lib system_text;
   human ← HumanMessagePromptTemplate.from_template lib human_text;
   ChatPromptTemplate.format_messages [system; human] kwargs)
  = Returned [Message System system_text; Message Human human_text].
Proof.
  intros Hs Hh.
  unfold SystemMessagePromptTemplate.from_template,
    HumanMessagePromptTemplate.from_template.
  rewrite !from_template_brace_free by done.
  cbn. by rewrite !append_empty_r.
Qed.

(** Whatever the texts are, a two-message prompt that composes has a system
    turn and a human turn. *)
Lemma system_human_roles lib (system_text human_text : string) kwargs ms :
  (system ← SystemMessagePromptTemplate.from_template lib system_text;
   human ← HumanMessagePromptTemplate.from_template lib human_text;
   ChatPromptTemplate.format_messages [system; human] kwargs)
  = Returned ms →
  role_of <$> ms = [System; Human].
Proof.
  unfold SystemMessagePromptTemplate.from_template,
    HumanMessagePromptTemplate.from_template.
  destruct (PromptTemplate.from_template lib system_text) as [s|e]; [|done].
  destruct (PromptTemplate.from_template lib human_text) as [h|e]; [|done].
  cbn.
  destruct (PromptTemplate.format s kwargs) as [s'|e]; [|done].
  destruct (PromptTemplate.format h kwargs) as [h'|e]; [|done].
  cbn. by intros [= <-].
Qed.

Lemma for_each_app {A B} (body : A → outcome B) (l1 l2 : list A) :
  for_each body (l1 ++ l2)
  = (xs ← for_each body l1; ys ← for_each body l2; mret (xs ++ ys)).
Proof.
  induction l1 as [|x l1 IH]; cbn [app for_each].
  - cbn. by destruct (for_each body l2).
  - destruct (body x) as [y|e]; [|done]. cbn [mbind outcome_bind].
    rewrite IH. destruct (for_each body l1) as [xs|e]; [|done].
    cbn [mbind outcome_bind]. by destruct (for_each body l2).
Qed.

(** Messages that are already formatted go through [format_messages] as
    they are. *)
Lemma format_messages_base lib (ms : list message) kwargs :
  ChatPromptTemplate.format_messages (lib:=lib) (BaseMessage <$> ms) kwargs
  = Returned ms.
Proof.
  unfold ChatPromptTemplate.format_messages.
  induction ms as [|m ms IH]; [done|].
  cbn [fmap list_fmap for_each]. cbn [mbind outcome_bind mret outcome_ret].
  change (list_fmap _ _ BaseMessage ms) with (BaseMessage (lib:=lib) <$> ms).
  by rewrite IH.
Qed.

(** The template that holds one field and nothing else gives [str] of the
    value given for that field. *)
Lemma format_single_field lib (r : role) (name : string) (value : pyval) kwargs :
  scan_text ("{" +:+ name +:+ "}") = Scanned [Literal ""; Field name; Literal ""] →
  dict_get kwargs name = Some value →
  (prompt ← PromptTemplate.from_template lib ("{" +:+ name +:+ "}");
   PromptTemplate.format prompt kwargs)
  = Returned (py_str value).
Proof.
  intros Hscan Hget. unfold PromptTemplate.from_template. rewrite Hscan.
  cbn. rewrite Hget. cbn. by rewrite append_empty_r.
Qed.

(** ** Texts without braces *)

Lemma brace_free_String c s :
  brace_free (String c s)
  = negb (Ascii.eqb c LBRACE || Ascii.eqb c RBRACE) && brace_free s.
Proof. done. Qed.

Lemma brace_free_app_true (a b : string) :
  brace_free a = true → brace_free b = true → brace_free (a +:+ b) = true.
Proof. intros Ha Hb. by rewrite brace_free_app, Ha, Hb. Qed.

Lemma brace_free_pretty_N_go (x : N) (s : string) :
  brace_free s = true → brace_free (pretty_N_go x s) = true.
Proof.
  revert s. induction (N.lt_wf_0 x) as [x _ IH]; intros s Hs.
  assert (x = 0 ∨ 0 < x)%N as [->|Hpos] by lia.
  - by rewrite pretty_N_go_0.
  - rewrite pretty_N_go_step by done. apply IH.
    { by apply N.div_lt. }
    rewrite brace_free_String, Hs.
    unfold pretty_N_char. by repeat case_match.
Qed.

Lemma brace_free_pretty_N (x : N) : brace_free (pretty x) = true.
Proof.
  unfold pretty, pretty_N. case_decide; [done|].
  by apply brace_free_pretty_N_go.
Qed.

Lemma brace_free_pretty_nat (n : nat) : brace_free (pretty n) = true.
Proof. apply brace_free_pretty_N. Qed.

Lemma brace_free_pretty_Z (z : Z) : brace_free (pretty z) = true.
Proof.
  destruct z as [|p|p]; [done| |].
  - apply (brace_free_pretty_N (N.pos p)).
  - change (pretty (Z.neg p)) with ("-" +:+ pretty (N.pos p)).
    apply brace_free_app_true; [done|apply brace_free_pretty_N].
Qed.

Lemma brace_free_repr_char (quote c : Ascii.ascii) :
  quote = Ascii.ascii_of_nat 39 ∨ quote = Ascii.ascii_of_nat 34 →
  negb (Ascii.eqb c LBRACE || Ascii.eqb c RBRACE) = true →
  brace_free (repr_char quote c) = true.
Proof.
  intros [->| ->] Hc;
    destruct c as [[] [] [] [] [] [] [] []]; vm_compute in Hc |- *;
    done.
Qed.

Lemma brace_free_repr_chars (quote : Ascii.ascii) (s : string) :
  quote = Ascii.ascii_of_nat 39 ∨ quote = Ascii.ascii_of_nat 34 →
  brace_free s = true → brace_free (repr_chars quote s) = true.
Proof.
  intros Hq. induction s as [|c s IH]; [done|].
  rewrite brace_free_String. intros [Hc Hs]%andb_prop.
  cbn [repr_chars]. apply brace_free_app_true; [|by apply IH].
  by apply brace_free_repr_char.
Qed.

Lemma brace_free_repr_str (s : string) :
  brace_free s = true → brace_free (repr_str s) = true.
Proof.
  intros Hs. unfold repr_str.
  destruct (contains_char _ s && negb (contains_char _ s));
    (apply brace_free_app_true; [done|]);
    (apply brace_free_app_true; [|done]);
    apply brace_free_repr_chars; auto.
Qed.

Lemma brace_free_join (sep : string) (parts : list string) :
  brace_free sep = true → Forall (λ p, brace_free p = true) parts →
  brace_free (join sep parts) = true.
Proof.
  intros Hsep. induction 1 as [|p parts Hp Hparts IH]; [done|].
  destruct parts as [|q parts]; [done|].
  change (join sep (p :: q :: parts)) with (p +:+ sep +:+ join sep (q :: parts)).
  by repeat apply brace_free_app_true.
Qed.

Lemma brace_free_str_list (l : list string) :
  Forall (λ p, brace_free p = true) l → brace_free (str_list l) = true.
Proof.
  intros Hl. unfold str_list.
  apply brace_free_app_true; [done|].
  apply brace_free_app_true; [|done].
  apply brace_free_join; [done|].
  apply Forall_fmap. eapply Forall_impl; [exact Hl|].
  intros p Hp. by apply brace_free_repr_str.
Qed.

(** Proves that a text put together with [+:+] has no brace, from the same
    fact for its variable parts. *)
Ltac brace_free_text :=
  repeat match goal with
  | |- brace_free _ = true => assumption
  | |- brace_free (@pretty Z _ _) = true => apply brace_free_pretty_Z
  | |- brace_free (@pretty nat _ _) = true => apply brace_free_pretty_nat
  | |- brace_free (@pretty N _ _) = true => apply brace_free_pretty_N
  | |- brace_free (_ +:+ _) = true => apply brace_free_app_true
  | |- brace_free _ = true => by (vm_compute; reflexivity)
  end.

(** ** Supersteps *)

Section SuperstepFacts.
Context {A : Type} (sched : Scheduler).
Implicit Types (tasks : list (M A)) (order : list nat) (written : gmap nat A).

Lemma pick_Some {B} (t : trace) (pending : list B) :
  pending ≠ [] →
  ∃ x rest, pick sched t pending = Some (x, rest) ∧ pending ≡ₚ x :: rest.
Proof.
  intros Hne. unfold pick.
  set (i := (next_task sched t (length pending) `mod` length pending)%nat).
  assert (i < length pending) as Hi.
  { apply Nat.mod_upper_bound. by destruct pending. }
  destruct (lookup_lt_is_Some_2 pending i Hi) as [x Hx].
  rewrite Hx. exists x, (delete i pending). split; [done|].
  by apply delete_Permutation.
Qed.

Lemma run_in_order_cons tasks i order written failures t :
  run_in_order tasks (i :: order) written failures t
  = match @lookup _ (M A) _ _ i tasks with
    | None => run_in_order tasks order written failures t
    | Some task =>
        match task t with
        | (Returned a, t') =>
            run_in_order tasks order (<[i := a]> written) failures t'
        | (Raised e, t') =>
            run_in_order tasks order written (failures ++ [e]) t'
        end
    end.
Proof. reflexivity. Qed.

(** Whatever the scheduler does, the tasks that ran did so one after the
    other in some order; when none raised, all of them ran. *)
Lemma run_tasks_in_order tasks fuel : ∀ pending written failures t,
  (∀ i task, (i, task) ∈ pending → tasks !! i = Some task) →
  fuel = length pending →
  ∃ order,
    order ⊆+ pending.*1 ∧
    run_tasks sched fuel pending written failures t
    = run_in_order tasks order written failures t ∧
    ((run_in_order tasks order written failures t).1.2 = [] →
     order ≡ₚ pending.*1).
Proof.
  induction fuel as [|fuel IH]; intros pending written failures t Htasks Hfuel.
  - destruct pending; [|done]. exists []. by split.
  - cbn [run_tasks].
    destruct (bool_decide (failures ≠ []) && cancels_pending sched t) eqn:Hstop.
    { exists []. split; [apply submseteq_nil_l|]. split; [done|].
      cbn. intros ->. apply andb_prop in Hstop as [Hf _].
      by apply bool_decide_eq_true in Hf. }
    destruct (pick_Some t pending) as ([i task] & rest & -> & Hperm).
    { by destruct pending. }
    assert (tasks !! i = Some task) as Hi.
    { apply Htasks. rewrite Hperm. by left. }
    assert (fuel = length rest) as Hrest.
    { apply Permutation_length in Hperm. simpl in Hperm. lia. }
    assert (∀ j task', (j, task') ∈ rest → tasks !! j = Some task') as Htasks'.
    { intros j task' Hin. apply Htasks. rewrite Hperm. by right. }
    assert (pending.*1 ≡ₚ i :: rest.*1) as Hperm1.
    { by rewrite Hperm. }
    destruct (task t) as [[a|e] t1] eqn:Hrun.
    + destruct (IH rest (<[i:=a]> written) failures t1 Htasks' Hrest)
        as (order & Hsub & Heq & Hall).
      exists (i :: order). split; [rewrite Hperm1; by apply submseteq_skip|].
      rewrite run_in_order_cons, Hi, Hrun. split; [done|].
      intros Hnil. rewrite Hperm1. by rewrite Hall.
    + destruct (IH rest written (failures ++ [e]) t1 Htasks' Hrest)
        as (order & Hsub & Heq & Hall).
      exists (i :: order). split; [rewrite Hperm1; by apply submseteq_skip|].
      rewrite run_in_order_cons, Hi, Hrun. split; [done|].
      intros Hnil. rewrite Hperm1. by rewrite Hall.
Qed.

Lemma run_in_order_keeps tasks j order : ∀ written failures t written' failures' t',
  run_in_order tasks order written failures t = (written', failures', t') →
  j ∉ order → is_Some (written !! j) → is_Some (written' !! j).
Proof.
  induction order as [|k order IH]; intros w f tr w' f' tr';
    [cbn [run_in_order]|rewrite run_in_order_cons].
  - by intros [= <- _ _].
  - intros Hrun [Hne Hnin]%not_elem_of_cons Hsome.
    destruct (tasks !! k) as [task|]; [|by eapply IH].
    destruct (task tr) as [[a|e] tr1]; [|by eapply IH].
    eapply IH; [done|done|]. by rewrite lookup_insert_ne.
Qed.

(** What a run in a given order leaves: the exceptions are those of the
    tasks that raised, what is written was returned by the task at that
    position, and without any exception each task of the order has
    written. *)
Lemma run_in_order_inv tasks order : ∀ written failures t written' failures' t',
  run_in_order tasks order written failures t = (written', failures', t') →
  ∃ more,
    failures' = failures ++ more ∧
    (∀ e, e ∈ more →
       ∃ i (task : M A) t1 t2,
         tasks !! i = Some task ∧ task t1 = (Raised e, t2)) ∧
    (∀ i a, written' !! i = Some a →
       written !! i = Some a ∨
       ∃ (task : M A) t1 t2,
         tasks !! i = Some task ∧ task t1 = (Returned a, t2)) ∧
    (more = [] → ∀ i, i ∈ order → i < length tasks → is_Some (written' !! i)).
Proof.
  induction order as [|i order IH];
    intros written failures t written' failures' t';
    [cbn [run_in_order]|rewrite run_in_order_cons].
  - intros [= <- <- <-]. exists []. rewrite app_nil_r.
    split; [done|]. split; [by intros e Hin%elem_of_nil|].
    split; [by left|]. by intros _ i Hin%elem_of_nil.
  - destruct (tasks !! i) as [task|] eqn:Hi.
    2: { intros Hrun. destruct (IH _ _ _ _ _ _ Hrun) as (more & -> & He & Hw & Hall).
         exists more. split; [done|]. split; [done|]. split; [done|].
         intros Hnil j [->|Hin]%elem_of_cons Hj; [|by apply Hall].
         apply lookup_ge_None in Hi. lia. }
    destruct (task t) as [[a|e] t1] eqn:Htask; intros Hrun;
      destruct (IH _ _ _ _ _ _ Hrun) as (more & -> & He & Hw & Hall).
    + exists more. split; [done|]. split; [done|]. split.
      * intros j b Hb. destruct (Hw j b Hb) as [Hins|?]; [|by right].
        apply lookup_insert_Some in Hins as [[<- <-]|[_ ?]]; [|by left].
        right. by exists task, t, t1.
      * intros Hnil j [Hji|Hin]%elem_of_cons Hj; [subst j|by apply Hall].
        destruct (decide (i ∈ order)) as [Hin|Hnin]; [by apply Hall|].
        eapply run_in_order_keeps; [done|done|]. by rewrite lookup_insert_eq.
    + exists (e :: more). split; [by rewrite <- app_assoc|]. split.
      * intros e' [->|Hin]%elem_of_cons; [by exists i, task, t, t1|by apply He].
      * split; [done|]. done.
Qed.

(** With every position written, reading the positions in order gives one
    value per position. *)
Lemma omap_lookup_seq written n :
  (∀ i, i < n → is_Some (written !! i)) →
  ∀ i, i < n →
    omap (λ i, written !! i) (seq 0 n) !! i = written !! i.
Proof.
  intros Hall.
  assert (∀ k m, (∀ i, k ≤ i < k + m → is_Some (written !! i)) →
            ∀ i, i < m →
              omap (λ i, written !! i) (seq k m) !! i = written !! (k + i))
    as Hgen.
  { intros k m. revert k. induction m as [|m IH]; intros k Hk i Hi; [lia|].
    cbn [seq omap list_omap]. destruct (Hk k) as [a Ha]; [lia|]. rewrite Ha.
    destruct i as [|i]; cbn.
    - by rewrite Nat.add_0_r.
    - rewrite IH by (try lia; intros j Hj; apply Hk; lia).
      f_equal. lia. }
  intros i Hi. rewrite Hgen by (try done; intros j Hj; apply Hall; lia). done.
Qed.

Lemma omap_length_seq written n :
  (∀ i, i < n → is_Some (written !! i)) →
  length (omap (λ i, written !! i) (seq 0 n)) = n.
Proof.
  intros Hall.
  assert (∀ k m, (∀ i, k ≤ i < k + m → is_Some (written !! i)) →
            length (omap (λ i, written !! i) (seq k m)) = m) as Hgen.
  { intros k m. revert k. induction m as [|m IH]; intros k Hk; [done|].
    cbn [seq omap list_omap]. destruct (Hk k) as [a Ha]; [lia|]. rewrite Ha.
    cbn. rewrite IH; [done|]. intros j Hj. apply Hk. lia. }
  apply Hgen. intros j Hj. apply Hall. lia.
Qed.

Lemma imap_pair_fst {B} (l : list B) : (imap pair l).*1 = seq 0 (length l).
Proof.
  assert (∀ k, (imap (λ i, pair (k + i)) l).*1 = seq k (length l)) as Hgen.
  { induction l as [|x l IH]; intros k; [done|].
    cbn. rewrite Nat.add_0_r. f_equal.
    rewrite <- (IH (S k)). f_equal. apply imap_ext. intros i y _. simpl.
    f_equal. lia. }
  apply (Hgen 0).
Qed.

Lemma imap_pair_elem_of {B} (l : list B) i x :
  (i, x) ∈ imap pair l → l !! i = Some x.
Proof.
  intros Hin. apply elem_of_lookup_imap_1 in Hin as (j & y & [= -> ->] & Hj).
  done.
Qed.

(** A superstep is a run of its tasks in some order. *)
Lemma superstep_run tasks t :
  ∃ order written failures t',
    order ⊆+ seq 0 (length tasks) ∧
    run_in_order tasks order ∅ [] t = (written, failures, t') ∧
    (failures = [] → order ≡ₚ seq 0 (length tasks)) ∧
    superstep sched tasks t
    = (match failures with
       | [] => Returned (omap (λ i, written !! i) (seq 0 (length tasks)))
       | first :: _ =>
           Raised (default first
                     (failures !! (reported_failure sched t' (length failures)
                                     `mod` length failures)%nat))
       end, t').
Proof.
  destruct (run_tasks_in_order tasks (length tasks) (imap pair tasks) ∅ [] t)
    as (order & Hsub & Heq & Hall).
  { intros i task. apply imap_pair_elem_of. }
  { by rewrite length_imap. }
  rewrite imap_pair_fst in Hsub, Hall.
  destruct (run_in_order tasks order ∅ [] t) as [[written failures] t'] eqn:Hrun.
  exists order, written, failures, t'.
  split; [done|]. split; [done|]. split; [done|].
  unfold superstep. rewrite Heq. by destruct failures.
Qed.

(** When a superstep returns, every task has run and returned, and what
    comes back lines up with the tasks. *)
Lemma superstep_returned tasks t results t' :
  superstep sched tasks t = (Returned results, t') →
  Forall2 (λ (task : M A) a, ∃ t1 t2, task t1 = (Returned a, t2)) tasks results.
Proof.
  destruct (superstep_run tasks t)
    as (order & written & failures & t1 & Hsub & Hrun & Hall & ->).
  destruct failures as [|first others]; [|done].
  intros [= <- <-].
  destruct (run_in_order_inv _ _ _ _ _ _ _ _ Hrun)
    as (more & Hmore & _ & Hw & Hwritten).
  destruct more; [|done]. specialize (Hall eq_refl).
  assert (∀ i, i < length tasks → is_Some (written !! i)) as Hsome.
  { intros i Hi. apply Hwritten; [done| |done].
    rewrite Hall. apply elem_of_seq. lia. }
  apply Forall2_same_length_lookup_2.
  - by rewrite omap_length_seq.
  - intros i task a Htask Ha.
    rewrite omap_lookup_seq in Ha by (try done; by eapply lookup_lt_Some).
    destruct (Hw i a Ha) as [Hempty|(task' & t2 & t3 & Htask' & Hret)].
    + by rewrite lookup_empty in Hempty.
    + rewrite Htask in Htask'. injection Htask' as <-. eauto.
Qed.

(** When a superstep raises, the exception is that of one of its tasks. *)
Lemma superstep_raised tasks t e t' :
  superstep sched tasks t = (Raised e, t') →
  ∃ (task : M A) t1 t2, task ∈ tasks ∧ task t1 = (Raised e, t2).
Proof.
  destruct (superstep_run tasks t)
    as (order & written & failures & t1 & Hsub & Hrun & Hall & ->).
  destruct (run_in_order_inv _ _ _ _ _ _ _ _ Hrun)
    as (more & Hmore & He & _ & _).
  simpl in Hmore. subst more.
  destruct failures as [|first others] eqn:Hf; [done|].
  assert (∀ i, default first ((first :: others) !! i) ∈ first :: others) as Hin.
  { intros i. destruct ((first :: others) !! i) as [e'|] eqn:Hi; simpl.
    - by eapply list_elem_of_lookup_2.
    - by left. }
  intros [= <- <-].
  match goal with
  | |- context [default first ((first :: others) !! ?i)] =>
      destruct (He _ (Hin i)) as (j & task & t2 & t3 & Htask & Hraise)
  end.
  exists task, t2, t3. split; [by eapply list_elem_of_lookup_2|done].
Qed.

(** A superstep with a single task is that task. *)
Lemma superstep_single (task : M A) t :
  superstep sched [task] t
  = match task t with
    | (Returned a, t') => (Returned [a], t')
    | (Raised e, t') => (Raised e, t')
    end.
Proof.
  unfold superstep. cbn [length imap run_tasks].
  rewrite bool_decide_eq_false_2 by (by intros []). cbn [andb].
  unfold pick. cbn [length]. rewrite Nat.mod_1_r. cbn -[Nat.modulo].
  destruct (task t) as [[a|e] t1]; cbn -[Nat.modulo].
  - by rewrite lookup_insert_eq.
  - by rewrite Nat.mod_1_r.
Qed.

(** The calls of a superstep whose tasks each make the same calls whatever
    the history: those of the tasks that ran, in the order in which they
    ran. *)
Lemma run_in_order_trace tasks (calls : nat → trace) order :
  ∀ written failures t,
  (∀ i (task : M A) tr, tasks !! i = Some task → (task tr).2 = tr ++ calls i) →
  Forall (λ i, i < length tasks) order →
  (run_in_order tasks order written failures t).2 = t ++ mjoin (calls <$> order).
Proof.
  induction order as [|i order IH]; intros written failures t Hcalls Hvalid;
    [cbn [run_in_order]|rewrite run_in_order_cons].
  - by rewrite app_nil_r.
  - apply Forall_cons in Hvalid as [Hi Hvalid].
    destruct (lookup_lt_is_Some_2 tasks i Hi) as [task Htask]. rewrite Htask.
    pose proof (Hcalls i task t Htask) as Hstep.
    destruct (task t) as [[a|e] t1]; simpl in Hstep; subst t1;
      rewrite IH by done; cbn; by rewrite <- app_assoc.
Qed.

Lemma superstep_trace tasks (calls : nat → trace) t :
  (∀ i (task : M A) tr, tasks !! i = Some task → (task tr).2 = tr ++ calls i) →
  ∃ order,
    order ⊆+ seq 0 (length tasks) ∧
    (superstep sched tasks t).2 = t ++ mjoin (calls <$> order) ∧
    (∀ results, (superstep sched tasks t).1 = Returned results →
                order ≡ₚ seq 0 (length tasks)) ∧
    (∀ e, (superstep sched tasks t).1 = Raised e → order ≠ []).
Proof.
  intros Hcalls.
  destruct (superstep_run tasks t)
    as (order & written & failures & t1 & Hsub & Hrun & Hall & ->).
  exists order. split; [done|].
  pose proof (run_in_order_trace tasks calls order ∅ [] t Hcalls) as Htrace.
  rewrite Hrun in Htrace. cbn in Htrace.
  split.
  - destruct failures; cbn; apply Htrace;
      apply Forall_forall; intros i Hin;
      eapply elem_of_submseteq in Hin; [|done| |done];
      by apply elem_of_seq in Hin as [_ ?].
  - split.
    + intros results. destruct failures; [|done]. intros _. by apply Hall.
    + intros e He ->. cbn [run_in_order] in Hrun.
      injection Hrun as _ <- _. done.
Qed.

End SuperstepFacts.

(** ** The Intent-Level Reranker *)

Module RerankerFacts.
Import RerankerMultiQueryExpansionVariations.

(** The prompt is composed first; [generate] raises what composing it
    raises, without any call, and otherwise enters the loop with it. *)
Lemma intent_generate_composed lib self uq ai uqr sr ms t :
  _get_finalized_list_thoughts_messages lib self uq ai uqr sr = Returned ms →
  generate lib self uq ai uqr sr t
  = ((result ← while_attempts (attempt self ms) 0 None;
      match result with
      | Some r =>
          if bool_decide (len (tool_names r) = top_k self)
          then mret (tool_names r)
          else mret []
      | None => mret []
      end) : M (list string)) t.
Proof.
  intros Hms. unfold generate. rewrite Hms.
  unfold _get_finalized_list_thoughts_messages in Hms.
  destruct (MultiQueryExpansionModule._get_expansion_messages lib _ uq)
    as [em|e]; [done|discriminate Hms].
Qed.

Lemma intent_generate_not_composed lib self uq ai uqr sr e t :
  _get_finalized_list_thoughts_messages lib self uq ai uqr sr = Raised e →
  generate lib self uq ai uqr sr t = (Raised e, t).
Proof.
  intros Hms. unfold generate. rewrite Hms.
  unfold _get_finalized_list_thoughts_messages in Hms.
  destruct (MultiQueryExpansionModule._get_expansion_messages lib _ uq)
    as [em|e']; [done|].
  by injection Hms as ->.
Qed.

(** One execution of the [try] statement: exactly one structured call, no
    exception left, and [result] is either kept or is what the model just
    answered. *)
Lemma intent_attempt_run self ms result t :
  ∃ x r',
    attempt self ms result t =
      (Returned (x, r'), t ++ [StructuredInvoke (FinalToolNames_schema self) ms]) ∧
    (r' = result ∨
     ∃ l, r' = Some {| tool_names := l |} ∧
          chat_structured (llm self) (FinalToolNames_schema self) t ms = Returned l).
Proof.
  unfold attempt, structured_llm_invoke. run_M.
  destruct (chat_structured (llm self) (FinalToolNames_schema self) t ms)
    as [l|e] eqn:Hport.
  - case_bool_decide; eauto 10.
  - eauto 10.
Qed.

(** A whole call with a composed prompt: it ends normally, after at most
    [max_attempts] calls of the structured model, all with that prompt; what
    it returns is empty or is the answer of length [top_k] that the model
    gave to one of these calls. *)
Lemma intent_generate_run lib self uq ai uqr sr ms t :
  _get_finalized_list_thoughts_messages lib self uq ai uqr sr = Returned ms →
  ∃ r ext,
    generate lib self uq ai uqr sr t = (Returned r, t ++ ext) ∧
    length ext ≤ max_attempts ∧
    Forall (λ c, c = StructuredInvoke (FinalToolNames_schema self) ms) ext ∧
    (r = [] ∨
     (len r = top_k self ∧
      ∃ pre post,
        ext = pre ++ StructuredInvoke (FinalToolNames_schema self) ms :: post ∧
        chat_structured (llm self) (FinalToolNames_schema self)
          (t ++ pre) ms = Returned r)).
Proof.
  intros Hms. rewrite (intent_generate_composed _ _ _ _ _ _ ms) by done.
  set (call := StructuredInvoke (FinalToolNames_schema self) ms).
  pose (Inv := λ (n : nat) (res : option FinalToolNames) (tr : trace),
    ∃ ext, tr = t ++ ext ∧ length ext ≤ n ∧
      Forall (λ c, c = call) ext ∧
      (res = None ∨
       ∃ l pre post, res = Some {| tool_names := l |} ∧
         ext = pre ++ call :: post ∧
         chat_structured (llm self) (FinalToolNames_schema self)
           (t ++ pre) ms = Returned l)).
  destruct (while_attempts_rule (attempt self ms) Inv)
    with (n := 0) (r := @None FinalToolNames) (t := t)
    as (m & res & t' & Hrun & (ext & -> & Hlen & Hall & Hres) & Hm).
  - intros n r tr _ (ext & -> & Hlen & Hall & Hres).
    destruct (intent_attempt_run self ms r (t ++ ext)) as (x & r' & Hatt & Hr').
    exists x, r', ((t ++ ext) ++ [call]).
    split; [done|]. exists (ext ++ [call]).
    split; [by rewrite <- app_assoc|]. split; [rewrite length_app; simpl; lia|].
    split; [apply Forall_app; split; [done|by constructor]|].
    destruct Hr' as [->|(l & -> & Hport)].
    + destruct Hres as [->|(l & pre & post & -> & -> & Hport)]; [by left|].
      right. exists l, pre, (post ++ [call]). split; [done|].
      split; [by rewrite <- app_assoc|done].
    + right. exists l, ext, []. eauto.
  - exists []. split; [by rewrite app_nil_r|]. split; [simpl; lia|].
    split; [constructor|by left].
  - assert (length ext ≤ max_attempts) by lia.
    unfold mbind, M_bind. rewrite Hrun.
    destruct Hres as [->|(l & pre & post & -> & -> & Hport)].
    + exists [], (ext). unfold mret, M_ret. eauto.
    + simpl. case_bool_decide; unfold mret, M_ret.
      * exists l, (pre ++ call :: post). repeat (split; [done|]). right. eauto.
      * exists [], (pre ++ call :: post). eauto.
Qed.
End RerankerFacts.

(** ** The Cross-Intent Combiner *)

Module CombinerFacts.
Import RerankerDecomposedQueries.

(** One execution of the [try] statement: no exception is left, whichever
    step raised; at most one call of the model and one of the structured
    model are made, and [result] is either kept or is what the structured
    model just answered. *)
Lemma combiner_attempt_run lib self uq intents lol result t :
  ∃ x r' ext,
    attempt lib self uq intents lol result t = (Returned (x, r'), t ++ ext) ∧
    count_calls is_llm_invoke ext ≤ 1 ∧
    count_calls is_structured_invoke ext ≤ 1 ∧
    (r' = result ∨
     ∃ l pre sms, r' = Some {| tool_names := l |} ∧
       ext = pre ++ [StructuredInvoke (FinalToolNames_schema self) sms] ∧
       chat_structured (llm self) (FinalToolNames_schema self) (t ++ pre) sms
         = Returned l).
Proof.
  unfold attempt, structured_llm_invoke. run_M.
  destruct (_get_final_combined_thoughts_messages lib self uq intents lol)
    as [ms|e].
  2: { exists NextIteration, result, []. rewrite app_nil_r.
       repeat (split; [done || (vm_compute; lia)|]). by left. }
  destruct (chat_invoke (llm self) t ms) as [ai|e].
  2: { exists NextIteration, result, [LlmInvoke ms].
       repeat (split; [done || (vm_compute; lia)|]). by left. }
  set (sms := _get_structured_prompt_after_first_response self (ai_content ai)).
  destruct (chat_structured (llm self) (FinalToolNames_schema self)
              (t ++ [LlmInvoke ms]) sms) as [l|e] eqn:Hport.
  2: { exists NextIteration, result,
         [LlmInvoke ms; StructuredInvoke (FinalToolNames_schema self) sms].
       rewrite <- app_assoc. simpl.
       repeat (split; [done || (vm_compute; lia)|]). by left. }
  exists (if bool_decide (len_set l = final_top_k self) then Break else NextIteration),
    (Some {| tool_names := l |}),
    [LlmInvoke ms; StructuredInvoke (FinalToolNames_schema self) sms].
  rewrite <- app_assoc. simpl.
  split; [by case_bool_decide|].
  repeat (split; [done || (vm_compute; lia)|]). right.
  exists l, [LlmInvoke ms], sms. eauto.
Qed.

(** A whole call: it ends normally whatever the inputs and the model do,
    after at most [max_attempts] calls of each entry point of the model;
    what it returns is empty or is the answer with [final_top_k] distinct
    members that the structured model gave to one of the calls. *)
Lemma combiner_generate_run lib self uq intents lol t :
  ∃ r ext,
    generate lib self uq intents lol t = (Returned r, t ++ ext) ∧
    count_calls is_llm_invoke ext ≤ max_attempts ∧
    count_calls is_structured_invoke ext ≤ max_attempts ∧
    (r = [] ∨
     (len_set r = final_top_k self ∧
      ∃ pre post sms,
        ext = pre ++ StructuredInvoke (FinalToolNames_schema self) sms :: post ∧
        chat_structured (llm self) (FinalToolNames_schema self)
          (t ++ pre) sms = Returned r)).
Proof.
  pose (Inv := λ (n : nat) (res : option FinalToolNames) (tr : trace),
    ∃ ext, tr = t ++ ext ∧
      count_calls is_llm_invoke ext ≤ n ∧
      count_calls is_structured_invoke ext ≤ n ∧
      (res = None ∨
       ∃ l pre post sms, res = Some {| tool_names := l |} ∧
         ext = pre ++ StructuredInvoke (FinalToolNames_schema self) sms :: post ∧
         chat_structured (llm self) (FinalToolNames_schema self)
           (t ++ pre) sms = Returned l)).
  destruct (while_attempts_rule (attempt lib self uq intents lol) Inv)
    with (n := 0) (r := @None FinalToolNames) (t := t)
    as (m & res & t' & Hrun & (ext & -> & Hllm & Hstr & Hres) & Hm).
  - intros n r tr _ (ext & -> & Hllm & Hstr & Hres).
    destruct (combiner_attempt_run lib self uq intents lol r (t ++ ext))
      as (x & r' & ext' & Hatt & Hllm' & Hstr' & Hr').
    exists x, r', ((t ++ ext) ++ ext'). split; [done|].
    exists (ext ++ ext'). split; [by rewrite <- app_assoc|].
    rewrite !count_calls_app. split; [lia|]. split; [lia|].
    destruct Hr' as [->|(l & pre & sms & -> & -> & Hport)].
    + destruct Hres as [->|(l & pre & post & sms & -> & -> & Hport)]; [by left|].
      right. exists l, pre, (post ++ ext'), sms. split; [done|].
      split; [by rewrite <- app_assoc|done].
    + right. exists l, (ext ++ pre), [], sms. split; [done|].
      split; [by rewrite <- app_assoc|by rewrite app_assoc].
  - exists []. split; [by rewrite app_nil_r|].
    repeat (split; [vm_compute; lia|]). by left.
  - assert (m ≤ max_attempts) by lia.
    unfold generate. unfold mbind, M_bind. rewrite Hrun.
    destruct Hres as [->|(l & pre & post & sms & -> & -> & Hport)].
    + exists [], ext. unfold mret, M_ret. split; [done|].
      split; [lia|]. split; [lia|]. by left.
    + simpl. case_bool_decide; unfold mret, M_ret.
      * eexists l, _. split; [done|]. split; [lia|]. split; [lia|].
        right. eauto 10.
      * eexists [], _. split; [done|]. split; [lia|]. split; [lia|].
        by left.
Qed.
End CombinerFacts.

(** ** Claims about the two rerankers *)

(** C6. Whatever the model does during the attempts (any mix of exceptions
    and of lists of any length), a value returned by the Intent-Level
    Reranker is a list of length exactly [top_k] or the empty list: a list of
    the wrong length kept in [result] from an earlier attempt is rejected by
    the test after the loop.  Once the prompt is composed the reranker does
    return, after at most three calls; it raises only what composing the
    prompt raises, before the loop and without any call. *)
Theorem intent_reranker_top_k_or_empty
    (lib : FormatLibrary)
    (self : RerankerMultiQueryExpansionVariations.t) (uq : string)
    (ai : pyval) (uqr : list Document) (sr : list (list Document)) (t : trace) :
  (∀ r t',
     RerankerMultiQueryExpansionVariations.generate lib self uq ai uqr sr t
       = (Returned r, t') →
     len r = RerankerMultiQueryExpansionVariations.top_k self ∨ r = []) ∧
  match RerankerMultiQueryExpansionVariations._get_finalized_list_thoughts_messages
          lib self uq ai uqr sr with
  | Returned ms =>
      ∃ r ext,
        RerankerMultiQueryExpansionVariations.generate lib self uq ai uqr sr t
          = (Returned r, t ++ ext) ∧
        (len r = RerankerMultiQueryExpansionVariations.top_k self ∨ r = []) ∧
        length ext ≤ 3 ∧
        Forall (λ c, c = StructuredInvoke
                           (RerankerMultiQueryExpansionVariations.FinalToolNames_schema self)
                           ms) ext
  | Raised e =>
      RerankerMultiQueryExpansionVariations.generate lib self uq ai uqr sr t
        = (Raised e, t)
  end.
Proof.
  destruct (RerankerMultiQueryExpansionVariations._get_finalized_list_thoughts_messages
              lib self uq ai uqr sr) as [ms|e] eqn:Hms.
  - destruct (RerankerFacts.intent_generate_run lib self uq ai uqr sr ms t Hms)
      as (r & ext & Hgen & Hlen & Hall & Hr).
    assert (len r = RerankerMultiQueryExpansionVariations.top_k self ∨ r = [])
      as Hshape by (destruct Hr as [->|[? _]]; eauto).
    split.
    + intros r' t'. rewrite Hgen. by intros [= <- _].
    + exists r, ext. by repeat split.
  - rewrite (RerankerFacts.intent_generate_not_composed _ _ _ _ _ _ e) by done.
    split; [by intros r t'|done].
Qed.

(** A first answer of the wrong length followed by two failures: the kept
    answer is not returned. *)
Example stale_result_is_not_returned :
  fst (RerankerMultiQueryExpansionVariations.generate plain_fields_only
         (intent_reranker_of (scripted [] [Returned ["get_npv"]]) 2)
         "npv?" (PyStr "reasoning") [] [] []) = Returned [].
Proof. vm_compute. reflexivity. Qed.

(** The loop stops at the first accepted answer: one call, although the
    script has more to give. *)
Example first_success_stops_the_loop :
  (RerankerMultiQueryExpansionVariations.generate plain_fields_only
     (intent_reranker_of
        (scripted [] [Returned ["get_npv"; "get_irr"]; Returned ["get_pv"; "get_fv"]]) 2)
     "npv?" (PyStr "reasoning") [] [] []).1 = Returned ["get_npv"; "get_irr"] ∧
  length
    (RerankerMultiQueryExpansionVariations.generate plain_fields_only
       (intent_reranker_of
          (scripted [] [Returned ["get_npv"; "get_irr"]; Returned ["get_pv"; "get_fv"]]) 2)
       "npv?" (PyStr "reasoning") [] [] []).2 = 1.
Proof. split; vm_compute; reflexivity. Qed.

(** An exception, then a list of the wrong length, then an accepted list:
    the third attempt is the one returned. *)
Example third_attempt_succeeds :
  fst (RerankerMultiQueryExpansionVariations.generate plain_fields_only
         (intent_reranker_of
            (scripted [] [no_answer; Returned ["get_npv"];
                          Returned ["get_npv"; "get_irr"]]) 2)
         "npv?" (PyStr "reasoning") [] [] [])
  = Returned ["get_npv"; "get_irr"].
Proof. vm_compute. reflexivity. Qed.

(** A question with a brace pair: the text that the f-string rendered is
    parsed as a template, the name in the braces is looked up among the
    arguments, and the reranker raises KeyError before any call. *)
Example braces_in_the_question_raise :
  RerankerMultiQueryExpansionVariations.generate plain_fields_only
    (intent_reranker_of (constant_model "reasoning" ["get_npv"; "get_irr"]) 2)
    "what is {x}?" (PyStr "reasoning") [] [] []
  = (Raised (KeyError "x"), []).
Proof. vm_compute. reflexivity. Qed.




(** The validation of structured outputs makes a model validating. *)
Lemma enforcing_bounds_validating (llm : ChatModel) :
  validating (enforcing_bounds llm).
Proof.
  intros s t ms l. cbn.
  destruct (chat_structured llm s t ms) as [l0|e]; [|done]. cbn.
  destruct (within_bounds s l0) eqn:Hb; [|done]. intros [= <-].
  apply andb_prop in Hb as [Hlo Hhi].
  split; intros n Hn; rewrite Hn in *; by eapply bool_decide_eq_true.
Qed.

(** C1, as amended. A call of the Cross-Intent Combiner that returns a
    non-empty list returns the answer that the structured model gave to one
    of the calls of that run, and that answer has exactly [final_top_k]
    distinct identifiers; it has length exactly [final_top_k] precisely when
    it has no duplicate, and both hold when the model enforces the length
    bounds declared by the schema.  Nothing is said about where the
    identifiers come from. *)
Theorem combiner_success_distinct
    (lib : FormatLibrary)
    (self : RerankerDecomposedQueries.t) (uq : string)
    (intents : list string) (lol : list (list string))
    (t t' : trace) (r : list string) :
  RerankerDecomposedQueries.generate lib self uq intents lol t = (Returned r, t') →
  r ≠ [] →
  len_set r = RerankerDecomposedQueries.final_top_k self ∧
  (∃ pre post sms,
     t' = t ++ pre ++
          StructuredInvoke (RerankerDecomposedQueries.FinalToolNames_schema self) sms
            :: post ∧
     chat_structured (RerankerDecomposedQueries.llm self)
       (RerankerDecomposedQueries.FinalToolNames_schema self) (t ++ pre) sms
     = Returned r) ∧
  (len r = RerankerDecomposedQueries.final_top_k self ↔ NoDup r) ∧
  (validating (RerankerDecomposedQueries.llm self) →
   len r = RerankerDecomposedQueries.final_top_k self ∧ NoDup r).
Proof.
  intros Hgen Hne.
  destruct (CombinerFacts.combiner_generate_run lib self uq intents lol t)
    as (r0 & ext & Hgen' & _ & _ & Hr).
  rewrite Hgen in Hgen'. injection Hgen' as <- ->.
  destruct Hr as [->|[Hset (pre & post & sms & -> & Hport)]]; [done|].
  split; [done|]. split; [eauto|]. split.
  - rewrite <- Hset. rewrite <- len_set_NoDup. split; congruence.
  - intros Hval. destruct (Hval _ _ _ _ Hport) as [Hmin Hmax].
    specialize (Hmin _ eq_refl). specialize (Hmax _ eq_refl).
    assert (len r = RerankerDecomposedQueries.final_top_k self) as Hlen by lia.
    split; [done|]. apply len_set_NoDup. congruence.
Qed.

(** The model validates its structured answers; the answer has two distinct
    names, so all four conclusions hold of it. *)
Lemma combiner_success_distinct_witness :
  len_set ["get_npv"; "get_irr"] = 2%Z ∧
  (∃ pre post sms,
     snd (RerankerDecomposedQueries.generate plain_fields_only
            (combiner_of
               (enforcing_bounds (constant_model "reasoning" ["get_npv"; "get_irr"])) 2)
            "npv and irr?" ["npv?"; "irr?"]
            [["get_npv"; "get_pv"]; ["get_irr"; "get_roi"]] [])
     = [] ++ pre ++
       StructuredInvoke
         (RerankerDecomposedQueries.FinalToolNames_schema
            (combiner_of
               (enforcing_bounds (constant_model "reasoning" ["get_npv"; "get_irr"])) 2))
         sms :: post ∧
     chat_structured
       (enforcing_bounds (constant_model "reasoning" ["get_npv"; "get_irr"]))
       (RerankerDecomposedQueries.FinalToolNames_schema
          (combiner_of
             (enforcing_bounds (constant_model "reasoning" ["get_npv"; "get_irr"])) 2))
       ([] ++ pre) sms
     = Returned ["get_npv"; "get_irr"]) ∧
  len ["get_npv"; "get_irr"] = 2%Z ∧ NoDup ["get_npv"; "get_irr"].
Proof.
  destruct (combiner_success_distinct plain_fields_only
              (combiner_of
                 (enforcing_bounds (constant_model "reasoning" ["get_npv"; "get_irr"])) 2)
              "npv and irr?" ["npv?"; "irr?"]
              [["get_npv"; "get_pv"]; ["get_irr"; "get_roi"]] []
              (snd (RerankerDecomposedQueries.generate plain_fields_only
                      (combiner_of
                         (enforcing_bounds
                            (constant_model "reasoning" ["get_npv"; "get_irr"])) 2)
                      "npv and irr?" ["npv?"; "irr?"]
                      [["get_npv"; "get_pv"]; ["get_irr"; "get_roi"]] []))
              ["get_npv"; "get_irr"])
    as (Hset & Hcall & _ & Hval).
  - vm_compute. reflexivity.
  - discriminate.
  - split; [exact Hset|]. split; [exact Hcall|].
    apply Hval, enforcing_bounds_validating.
Defined.

(** C1 as stated fails: the model answers two identifiers that are in
    neither shortlist; they are distinct and as many as [final_top_k], so the
    list is accepted and returned. *)
Lemma combiner_returns_identifier_outside_shortlists :
  fst (RerankerDecomposedQueries.generate plain_fields_only
         (combiner_of (scripted [says "reasoning"]
                                [Returned ["get_beta"; "get_alpha"]]) 2)
         "npv and irr?" ["npv?"; "irr?"]
         [["get_npv"; "get_pv"]; ["get_irr"; "get_roi"]] [])
    = Returned ["get_beta"; "get_alpha"] ∧
  ["get_beta"; "get_alpha"] ≠ @nil string ∧
  ¬ (len ["get_beta"; "get_alpha"] = 2%Z ∧
     NoDup ["get_beta"; "get_alpha"] ∧
     ∀ id, id ∈ ["get_beta"; "get_alpha"] →
           id ∈ mjoin [["get_npv"; "get_pv"]; ["get_irr"; "get_roi"]]).
Proof.
  split; [vm_compute; reflexivity|]. split; [discriminate|].
  intros (_ & _ & Hin).
  specialize (Hin "get_beta" ltac:(by left)).
  simpl in Hin. rewrite !elem_of_cons in Hin. rewrite elem_of_nil in Hin.
  intuition discriminate.
Qed.

(** C3, as amended. One call of the Intent-Level Reranker calls the model at
    most 3 times.  One call of the Cross-Intent Combiner makes at most 3
    attempts, each with at most one free-form call and one structured call:
    at most 3 calls of each kind, at most 6 in all. *)
Theorem generation_port_call_bounds
    (lib : FormatLibrary)
    (rr : RerankerMultiQueryExpansionVariations.t) (uq : string)
    (ai : pyval) (uqr : list Document) (sr : list (list Document))
    (cc : RerankerDecomposedQueries.t) (cuq : string)
    (intents : list string) (lol : list (list string)) (t : trace) :
  (∃ ext,
     snd (RerankerMultiQueryExpansionVariations.generate lib rr uq ai uqr sr t)
       = t ++ ext ∧
     count_calls is_generation_call ext ≤ 3) ∧
  (∃ ext,
     snd (RerankerDecomposedQueries.generate lib cc cuq intents lol t) = t ++ ext ∧
     count_calls is_llm_invoke ext ≤ 3 ∧
     count_calls is_structured_invoke ext ≤ 3 ∧
     count_calls is_generation_call ext ≤ 6).
Proof.
  split.
  - destruct (RerankerMultiQueryExpansionVariations._get_finalized_list_thoughts_messages
                lib rr uq ai uqr sr) as [ms|e] eqn:Hms.
    + destruct (RerankerFacts.intent_generate_run lib rr uq ai uqr sr ms t Hms)
        as (r & ext & -> & Hlen & _ & _).
      exists ext. split; [done|].
      pose proof (count_calls_le_length is_generation_call ext).
      unfold max_attempts in Hlen. lia.
    + rewrite (RerankerFacts.intent_generate_not_composed _ _ _ _ _ _ e) by done.
      exists []. split; [by rewrite app_nil_r|]. vm_compute. lia.
  - destruct (CombinerFacts.combiner_generate_run lib cc cuq intents lol t)
      as (r & ext & -> & Hllm & Hstr & _).
    exists ext. split; [done|].
    rewrite generation_calls_split. unfold max_attempts in *. lia.
Qed.

(** C3 as stated fails for the combiner: the structured answer has the
    declared length but names one tool twice, so it is rejected three times,
    and by then the model has been called six times. *)
Lemma combiner_calls_model_six_times :
  ¬ (count_calls is_generation_call
       (snd (RerankerDecomposedQueries.generate plain_fields_only
               (combiner_of (constant_model "reasoning" ["get_npv"; "get_npv"]) 2)
               "npv and irr?" ["npv?"; "irr?"]
               [["get_npv"; "get_pv"]; ["get_irr"; "get_roi"]] []))
     ≤ 3).
Proof.
  assert (count_calls is_generation_call
            (snd (RerankerDecomposedQueries.generate plain_fields_only
                    (combiner_of (constant_model "reasoning" ["get_npv"; "get_npv"]) 2)
                    "npv and irr?" ["npv?"; "irr?"]
                    [["get_npv"; "get_pv"]; ["get_irr"; "get_roi"]] [])) = 6)
    as -> by (vm_compute; reflexivity).
  lia.
Qed.




(** Composing the combiner's prompt fails when there is no shortlist, when
    there is no intent, and when an intent has no shortlist. *)
Lemma combiner_prompt_raises_without_shortlists lib self uq intents :
  RerankerDecomposedQueries._get_final_combined_thoughts_messages
    lib self uq intents []
  = Raised (Exception IndexError "list index out of range").
Proof. reflexivity. Qed.

Lemma combiner_prompt_raises_without_intents lib self uq lol :
  lol ≠ [] →
  RerankerDecomposedQueries._get_final_combined_thoughts_messages
    lib self uq [] lol
  = Raised (Exception ZeroDivisionError "integer division or modulo by zero").
Proof. destruct lol; [done|]. reflexivity. Qed.

(** An attempt whose prompt cannot be composed leaves everything as it was
    and asks for the next iteration. *)
Lemma combiner_attempt_swallows_prompt_error lib self uq intents lol e result t :
  RerankerDecomposedQueries._get_final_combined_thoughts_messages
    lib self uq intents lol = Raised e →
  RerankerDecomposedQueries.attempt lib self uq intents lol result t
  = (Returned (NextIteration, result), t).
Proof.
  intros Hraise. unfold RerankerDecomposedQueries.attempt. run_M.
  by rewrite Hraise.
Qed.

Lemma combiner_swallows_prompt_error lib self uq intents lol e t :
  RerankerDecomposedQueries._get_final_combined_thoughts_messages
    lib self uq intents lol = Raised e →
  RerankerDecomposedQueries.generate lib self uq intents lol t = (Returned [], t).
Proof.
  intros Hraise.
  destruct (while_attempts_rule
              (RerankerDecomposedQueries.attempt lib self uq intents lol)
              (λ _ res tr, res = None ∧ tr = t))
    with (n := 0) (r := @None RerankerDecomposedQueries.FinalToolNames) (t := t)
    as (m & res & t' & Hrun & [-> ->] & _).
  - intros n r tr _ [-> ->].
    exists NextIteration, None, t. split; [|done].
    by eapply combiner_attempt_swallows_prompt_error.
  - done.
  - unfold RerankerDecomposedQueries.generate. run_M. by rewrite Hrun.
Qed.

(** C10. The Cross-Intent Combiner never raises, whatever its inputs and
    whatever the model does.  An exception raised while the prompt is
    composed is swallowed like any other: the three attempts fail without a
    call of the model and the empty list is returned.  That is what happens
    with an empty list of shortlists (IndexError) and with an empty list of
    intents (ZeroDivisionError). *)
Theorem combiner_never_raises
    (lib : FormatLibrary)
    (self : RerankerDecomposedQueries.t) (uq : string)
    (intents : list string) (lol : list (list string)) (t : trace) :
  (∃ r t',
     RerankerDecomposedQueries.generate lib self uq intents lol t
       = (Returned r, t')) ∧
  (∀ e,
     RerankerDecomposedQueries._get_final_combined_thoughts_messages
       lib self uq intents lol = Raised e →
     RerankerDecomposedQueries.generate lib self uq intents lol t
       = (Returned [], t)) ∧
  (lol = [] ∨ intents = [] →
   RerankerDecomposedQueries.generate lib self uq intents lol t = (Returned [], t)).
Proof.
  split; [|split].
  - destruct (CombinerFacts.combiner_generate_run lib self uq intents lol t)
      as (r & ext & Hgen & _); eauto.
  - intros e. apply combiner_swallows_prompt_error.
  - intros [->| ->].
    + eapply combiner_swallows_prompt_error,
        combiner_prompt_raises_without_shortlists.
    + destruct lol as [|s lol].
      * eapply combiner_swallows_prompt_error,
          combiner_prompt_raises_without_shortlists.
      * eapply combiner_swallows_prompt_error.
        by apply combiner_prompt_raises_without_intents.
Qed.

Lemma combiner_never_raises_witness :
  RerankerDecomposedQueries.generate plain_fields_only
    (combiner_of (constant_model "reasoning" ["get_npv"; "get_irr"]) 2)
    "npv and irr?" [] [] []
  = (Returned [], []).
Proof.
  apply (combiner_never_raises plain_fields_only
           (combiner_of (constant_model "reasoning" ["get_npv"; "get_irr"]) 2)
           "npv and irr?" [] [] []).
  left. reflexivity.
Defined.

(** ** Claims about the expander and the retriever *)

(** C7, as amended. When the Query Expander returns, it returns the list
    that the extraction pass gave, in order and unchanged, after exactly one
    free-form call and one structured call.  The schema sent with the
    extraction request declares no length bound, so every list meets it: the
    result has [n_items] entries only when the model's answer has. *)
Theorem expander_returns_extraction_unchanged
    (lib : FormatLibrary)
    (self : MultiQueryExpansionModule.t) (q : string) (t t' : trace)
    (l : list string) :
  MultiQueryExpansionModule.generate lib self q t = (Returned l, t') →
  (∃ ms ai_message sm,
     MultiQueryExpansionModule._get_expansion_messages lib self q = Returned ms ∧
     chat_invoke (MultiQueryExpansionModule.llm self) t ms = Returned ai_message ∧
     MultiQueryExpansionModule._get_structured_message_after_first_response
       lib self ai_message q = Returned sm ∧
     chat_structured (MultiQueryExpansionModule.llm self)
       (MultiQueryExpansionModule.ExpandedQueries_schema self)
       (t ++ [LlmInvoke ms]) sm
     = Returned l ∧
     t' = t ++ [ LlmInvoke ms;
                 StructuredInvoke
                   (MultiQueryExpansionModule.ExpandedQueries_schema self) sm ]) ∧
  (∀ l', meets_bounds (MultiQueryExpansionModule.ExpandedQueries_schema self) l').
Proof.
  intros Hgen. split.
  - unfold MultiQueryExpansionModule.generate,
      MultiQueryExpansionModule.structured_llm_invoke in Hgen.
    run_M.
    destruct (MultiQueryExpansionModule._get_expansion_messages lib self q)
      as [ms|e] eqn:Hms; [|done].
    destruct (chat_invoke _ t ms) as [ai_message|e] eqn:Hfree; [|done].
    destruct (MultiQueryExpansionModule._get_structured_message_after_first_response
                lib self ai_message q) as [sm|e] eqn:Hsm; [|done].
    destruct (chat_structured _ _ _ sm) as [l0|e] eqn:Hextract; [|done].
    injection Hgen as <- <-.
    exists ms, ai_message, sm. repeat (split; [done|]).
    by rewrite <- app_assoc.
  - intros l'. split; intros n Hn; discriminate Hn.
Qed.

Lemma expander_returns_extraction_unchanged_witness :
  (∃ ms ai_message sm,
     MultiQueryExpansionModule._get_expansion_messages plain_fields_only
       (expander_of (constant_model "reasoning" ["what is npv"; "compute npv"]) 2)
       "npv?" = Returned ms ∧
     chat_invoke (constant_model "reasoning" ["what is npv"; "compute npv"]) [] ms
     = Returned ai_message ∧
     MultiQueryExpansionModule._get_structured_message_after_first_response
       plain_fields_only
       (expander_of (constant_model "reasoning" ["what is npv"; "compute npv"]) 2)
       ai_message "npv?" = Returned sm ∧
     chat_structured (constant_model "reasoning" ["what is npv"; "compute npv"])
       (MultiQueryExpansionModule.ExpandedQueries_schema
          (expander_of (constant_model "reasoning" ["what is npv"; "compute npv"]) 2))
       ([] ++ [LlmInvoke ms]) sm
     = Returned ["what is npv"; "compute npv"] ∧
     snd (MultiQueryExpansionModule.generate plain_fields_only
            (expander_of (constant_model "reasoning" ["what is npv"; "compute npv"]) 2)
            "npv?" [])
     = [] ++ [ LlmInvoke ms;
               StructuredInvoke
                 (MultiQueryExpansionModule.ExpandedQueries_schema
                    (expander_of
                       (constant_model "reasoning" ["what is npv"; "compute npv"]) 2))
                 sm ]) ∧
  (∀ l',
     meets_bounds
       (MultiQueryExpansionModule.ExpandedQueries_schema
          (expander_of (constant_model "reasoning" ["what is npv"; "compute npv"]) 2))
       l').
Proof.
  apply (expander_returns_extraction_unchanged plain_fields_only
           (expander_of (constant_model "reasoning" ["what is npv"; "compute npv"]) 2)
           "npv?" []).
  vm_compute. reflexivity.
Defined.

(** C7 as stated fails: with [n_items = 2] the model extracts three
    sentences; the expander returns all three. *)
Lemma expander_returns_three_for_two :
  fst (MultiQueryExpansionModule.generate plain_fields_only
         (expander_of (scripted [says "reasoning"]
                         [Returned ["what is npv"; "compute npv"; "npv of a project"]])
                      2)
         "npv?" [])
    = Returned ["what is npv"; "compute npv"; "npv of a project"] ∧
  ¬ (len ["what is npv"; "compute npv"; "npv of a project"] = 2%Z).
Proof. split; [vm_compute; reflexivity | vm_compute; discriminate]. Qed.

(** C8. The Candidate Retriever asks the index exactly once.  A result is
    handed back unchanged.  Any error of the index becomes a ValueError whose
    message is the fixed prefix followed by the original message, and that
    includes the error of a FAISS indexer whose index was never populated. *)
Theorem candidate_retriever_wraps_errors
    {KB : Type} `{BaseVectorStoreIndexer KB}
    (self : InitialToolRetrievalModule.t KB) (q : string) (k : Z) (t : trace) :
  snd (InitialToolRetrievalModule.generate self q k t) = t ++ [IndexQuery q k] ∧
  (∀ docs,
     query (InitialToolRetrievalModule.toolshed_knowledge_base self) t q k
       = Returned docs →
     fst (InitialToolRetrievalModule.generate self q k t) = Returned docs) ∧
  (∀ e,
     query (InitialToolRetrievalModule.toolshed_knowledge_base self) t q k
       = Raised e →
     fst (InitialToolRetrievalModule.generate self q k t)
       = Raised (Exception ValueError ("Error retrieving tools: " +:+ str e))) ∧
  (∀ unpopulated : FAISSVectorStoreIndexer.t,
     FAISSVectorStoreIndexer.index unpopulated = None →
     InitialToolRetrievalModule.generate
       {| InitialToolRetrievalModule.toolshed_knowledge_base := unpopulated |}
       q k t
     = (Raised (Exception ValueError
          "Error retrieving tools: Index has not been created yet. Call 'index_documents' or 'load_index' first."),
        t ++ [IndexQuery q k])).
Proof.
  unfold InitialToolRetrievalModule.generate, index_query. run_M.
  repeat split.
  - by destruct (query _ t q k).
  - by intros docs ->.
  - by intros e ->.
  - intros unpopulated Hnone. simpl.
    unfold FAISSVectorStoreIndexer.query. by rewrite Hnone.
Qed.

Lemma candidate_retriever_wraps_errors_witness :
  InitialToolRetrievalModule.generate
    {| InitialToolRetrievalModule.toolshed_knowledge_base :=
         FAISSVectorStoreIndexer.__init__ None |}
    "npv?" 5 []
  = (Raised (Exception ValueError
       "Error retrieving tools: Index has not been created yet. Call 'index_documents' or 'load_index' first."),
     [] ++ [IndexQuery "npv?" 5]).
Proof.
  apply (candidate_retriever_wraps_errors
           {| InitialToolRetrievalModule.toolshed_knowledge_base :=
                FAISSVectorStoreIndexer.__init__ None |} "npv?" 5 []).
  reflexivity.
Defined.

(** ** The prompt of the Intent-Level Reranker *)

(** When the prompt of the Intent-Level Reranker composes, it is made of the
    expansion prompt, an AI turn that holds [str] of what was passed as
    [ai_response], and a human turn. *)
Lemma finalized_messages_shape lib self uq ai uqr sr ms :
  RerankerMultiQueryExpansionVariations._get_finalized_list_thoughts_messages
    lib self uq ai uqr sr = Returned ms →
  ∃ em results,
    MultiQueryExpansionModule._get_expansion_messages lib
      (RerankerMultiQueryExpansionVariations.multi_query_expansion_variation_module
         self) uq = Returned em ∧
    role_of <$> em = [System; Human] ∧
    ms = em ++ [Message AI (py_str ai); Message Human results].
Proof.
  unfold RerankerMultiQueryExpansionVariations._get_finalized_list_thoughts_messages.
  destruct (MultiQueryExpansionModule._get_expansion_messages lib _ uq)
    as [em|e] eqn:Hem; [|done].
  cbn [mbind outcome_bind].
  unfold AIMessagePromptTemplate.from_template,
    HumanMessagePromptTemplate.from_template.
  change (PromptTemplate.from_template lib "{ai_response}")
    with (Returned (PromptTemplate.Plain (lib:=lib)
                      [Literal ""; Field "ai_response"; Literal ""])).
  cbn [mbind outcome_bind mret outcome_ret].
  destruct (PromptTemplate.from_template lib _) as [human|e]; [|done].
  cbn [mbind outcome_bind mret outcome_ret].
  unfold ChatPromptTemplate.format_messages. rewrite for_each_app.
  pose proof (format_messages_base lib em [("ai_response", ai)]) as Hbase.
  unfold ChatPromptTemplate.format_messages in Hbase. rewrite Hbase.
  cbn [mbind outcome_bind mret outcome_ret for_each].
  cbn [PromptTemplate.format fill dict_get].
  rewrite decide_True by done. cbn [mbind outcome_bind mret outcome_ret].
  rewrite append_empty_r.
  destruct (PromptTemplate.format human _) as [results|e]; [|done].
  cbn. intros [= <-]. exists em, results. split; [done|]. split; [|done].
  unfold MultiQueryExpansionModule._get_expansion_messages in Hem.
  by eapply system_human_roles.
Qed.

(** ** Claims about the workflow *)

Section WorkflowFacts.
Import Workflow.
Context (lib : FormatLibrary) (sched : Scheduler) (llm : ChatModel).
Context {KB : Type} `{BaseVectorStoreIndexer KB}.
Context (initial_tool_retrieval_module : InitialToolRetrievalModule.t KB).

(** With a single Intent Result the final node hands its shortlist on and
    touches nothing else. *)
Lemma rerank_decomposed_queries_single state d t :
  decomposed_query_dicts state = [d] →
  rerank_decomposed_queries lib llm state t
  = (Returned (dq_final_top_k_tools d), t).
Proof.
  intros Hd. unfold rerank_decomposed_queries. rewrite Hd. reflexivity.
Qed.

Lemma apply_writes_fields (writes : list retrieval_write) : ∀ state,
  decomposed_query (foldl apply_write state writes) = decomposed_query state ∧
  expanded_queries (foldl apply_write state writes) = expanded_queries state ∧
  dqs_decomposed_query_dicts (foldl apply_write state writes)
  = dqs_decomposed_query_dicts state.
Proof.
  induction writes as [|w writes IH]; intros state; [done|].
  cbn [foldl]. destruct (IH (apply_write state w)) as (-> & -> & ->).
  by destruct w.
Qed.

Lemma retrieved_branch_fields dq t branch t1 :
  retrieved_branch lib sched llm initial_tool_retrieval_module dq t
  = (Returned branch, t1) →
  decomposed_query branch = dq ∧ dqs_decomposed_query_dicts branch = [].
Proof.
  unfold retrieved_branch. run_M.
  destruct (expand_query _ _ _ _) as [[expanded|e] t0]; [|done].
  destruct (superstep _ _ _) as [[writes|e] t0']; [|done].
  intros [= <- <-].
  match goal with
  | |- context [foldl apply_write ?s writes] =>
      destruct (apply_writes_fields writes s) as (-> & _ & ->)
  end.
  done.
Qed.

(** Every prompt that rerank_expanded_queries has the Intent-Level Reranker
    send carries one AI turn: the rendering of the list of paraphrases. *)
Lemma rerank_expanded_queries_ai_turn state t :
  Forall (λ c, ai_turns c =
               [str_list (expanded_query <$> expanded_query_dicts state)])
         (drop (length t) (rerank_expanded_queries lib llm state t).2).
Proof.
  unfold rerank_expanded_queries.
  set (rr := reranker_multi_query_expansion_variations llm).
  set (ai := PyList (expanded_query <$> expanded_query_dicts state)).
  destruct (RerankerMultiQueryExpansionVariations._get_finalized_list_thoughts_messages
              lib rr (decomposed_query state) ai (decomposed_query_tools state)
              (retrieved_tools <$> expanded_query_dicts state)) as [ms|e] eqn:Hms.
  - destruct (RerankerFacts.intent_generate_run lib rr _ _ _ _ ms t Hms)
      as (r & ext & Hgen & _ & Hall & _).
    unfold mbind, M_bind. rewrite Hgen. unfold mret, M_ret. cbn [snd].
    rewrite drop_app_length.
    destruct (finalized_messages_shape _ _ _ _ _ _ _ Hms)
      as (em & results & _ & Hroles & ->).
    eapply Forall_impl; [exact Hall|]. intros c ->. cbn [ai_turns].
    rewrite filter_app.
    assert (filter (λ m, role_of m = AI) em = []) as ->.
    { destruct em as [|m1 [|m2 [|m3 em]]]; try done.
      injection Hroles as H1 H2.
      rewrite !filter_cons, H1, H2. by repeat case_decide. }
    rewrite !filter_cons. cbn. by repeat case_decide.
  - unfold mbind, M_bind.
    rewrite (RerankerFacts.intent_generate_not_composed _ _ _ _ _ _ e) by done.
    cbn [snd]. by rewrite drop_all.
Qed.
End WorkflowFacts.

(** C5. When the decomposition gives exactly one intent, the run ends with
    [final_top_k_tools] equal to what the Intent-Level Reranker returned for
    that intent, and in the trace that the reranker left: the Cross-Intent
    Combiner, which would have called the model, is not run. *)
Theorem single_intent_shortcut
    (lib : FormatLibrary) (sched : Scheduler)
    (llm : ChatModel) {KB : Type} `{BaseVectorStoreIndexer KB}
    (initial_tool_retrieval_module : InitialToolRetrievalModule.t KB)
    (state : Workflow.ToolshedState) (dq : string)
    (t t1 t2 : trace) (branch : Workflow.DecomposedQueryState)
    (top_tools : list string) :
  Workflow.decomposed_queries state = [dq] →
  Workflow.decomposed_query_dicts state = [] →
  Workflow.retrieved_branch lib sched llm initial_tool_retrieval_module dq t
    = (Returned branch, t1) →
  RerankerMultiQueryExpansionVariations.generate lib
    (Workflow.reranker_multi_query_expansion_variations llm)
    (Workflow.decomposed_query branch)
    (PyList (Workflow.expanded_query <$> Workflow.expanded_query_dicts branch))
    (Workflow.decomposed_query_tools branch)
    (Workflow.retrieved_tools <$> Workflow.expanded_query_dicts branch) t1
  = (Returned top_tools, t2) →
  ∃ state',
    Workflow.fuse_decomposed lib sched llm initial_tool_retrieval_module state t
      = (Returned state', t2) ∧
    Workflow.final_top_k_tools state' = Some top_tools ∧
    Workflow.dq_final_top_k_tools <$> Workflow.decomposed_query_dicts state'
      = [top_tools].
Proof.
  intros Hone Hnil Hbranch Hrerank.
  destruct (retrieved_branch_fields _ _ _ _ _ _ _ _ Hbranch) as [Hdq Hdicts].
  unfold Workflow.fuse_decomposed, Workflow.continue_to_process_decomposed_queries.
  rewrite Hone, Hnil. cbn [fmap list_fmap].
  unfold mbind at 1, M_bind at 1. rewrite superstep_single.
  unfold Workflow.process_decomposed_query, Workflow.rerank_expanded_queries.
  run_M. rewrite Hbranch, Hrerank, Hdicts. simpl.
  eexists. split; [reflexivity|]. by split.
Qed.

Lemma single_intent_shortcut_witness :
  ∃ state' t2,
    Workflow.fuse_decomposed plain_fields_only in_order
      (scripted [says "Plan: two paraphrases."]
         [ Returned ["what is npv"; "compute npv"];
           Returned ["get_npv"; "get_pv"; "get_fv"; "get_irr"; "get_roi"] ])
      (retriever_of (populated [tool "get_npv" "Net present value."]))
      {| Workflow.user_query := "npv?";
         Workflow.conversation_history := [];
         Workflow.rewritten_query := "What is the NPV?";
         Workflow.decomposed_queries := ["What is the NPV?"];
         Workflow.list_of_intents := [];
         Workflow.ts_retrieved_tools := [];
         Workflow.decomposed_query_dicts := [];
         Workflow.final_top_k_tools := None |} []
    = (Returned state', t2) ∧
    Workflow.final_top_k_tools state'
    = Some ["get_npv"; "get_pv"; "get_fv"; "get_irr"; "get_roi"].
Proof.
  edestruct (single_intent_shortcut plain_fields_only in_order
               (scripted [says "Plan: two paraphrases."]
                  [ Returned ["what is npv"; "compute npv"];
                    Returned ["get_npv"; "get_pv"; "get_fv"; "get_irr"; "get_roi"] ])
               (retriever_of (populated [tool "get_npv" "Net present value."]))
               {| Workflow.user_query := "npv?";
                  Workflow.conversation_history := [];
                  Workflow.rewritten_query := "What is the NPV?";
                  Workflow.decomposed_queries := ["What is the NPV?"];
                  Workflow.list_of_intents := [];
                  Workflow.ts_retrieved_tools := [];
                  Workflow.decomposed_query_dicts := [];
                  Workflow.final_top_k_tools := None |}
               "What is the NPV?" [])
    as (state' & Hrun & Hfinal & _).
  - reflexivity.
  - reflexivity.
  - vm_compute. reflexivity.
  - vm_compute. reflexivity.
  - eexists _, _. split; [exact Hrun | exact Hfinal].
Defined.

(** C9, evaluated on one branch.  The first pass of the expansion answers a
    plan, the extraction pass two paraphrases.  The prompt that the
    Intent-Level Reranker then sends has one AI turn, and it is the rendering
    of the list of the two paraphrases, not the plan. *)
Theorem rerank_expanded_queries_grounding_is_paraphrase_list :
  let llm :=
    scripted [says "Plan: two paraphrases."]
      [ Returned ["what is npv"; "compute npv"];
        Returned ["get_npv"; "get_pv"; "get_fv"; "get_irr"; "get_roi"] ] in
  let run :=
    Workflow.process_decomposed_query plain_fields_only in_order llm
      (retriever_of (populated [tool "get_npv" "Net present value."]))
      "What is the NPV?" [] in
  (∃ ms,
     MultiQueryExpansionModule._get_expansion_messages plain_fields_only
       (Workflow.multi_query_expansion_variation_module llm) "What is the NPV?"
     = Returned ms ∧
     head (snd run) = Some (LlmInvoke ms) ∧
     chat_invoke llm [] ms = says "Plan: two paraphrases.") ∧
  ai_turns <$> last (snd run) = Some ["['what is npv', 'compute npv']"] ∧
  "['what is npv', 'compute npv']" ≠ "Plan: two paraphrases.".
Proof.
  split; [|split; [vm_compute; reflexivity | discriminate]].
  eexists. split; [vm_compute; reflexivity|].
  split; [vm_compute; reflexivity|reflexivity].
Qed.

(** * Further properties of the code *)

(** ** The retry loop, attempt by attempt *)

Section RetryLoopUnfold.
Context {R : Type} (attempt : option R → M (loop_exit * option R)).

(** One turn of the loop. *)
Lemma while_attempts_turn n r t :
  while_attempts attempt n r t =
  if decide (n < max_attempts) then
    match attempt r t with
    | (Returned (Break, r'), t') => (Returned r', t')
    | (Returned (NextIteration, r'), t') => while_attempts attempt (n + 1) r' t'
    | (Raised e, t') => (Raised e, t')
    end
  else (Returned r, t).
Proof.
  funelim (while_attempts attempt n r t).
  all: rewrite ?Heq0, ?Heq; try rewrite Heq; reflexivity.
Qed.
End RetryLoopUnfold.

Section IntentRerankerAttempts.
Import RerankerMultiQueryExpansionVariations.
Context (self : t) (ms : list message) (t0 : trace).
Let call := StructuredInvoke (FinalToolNames_schema self) ms.
Let answer (tr : trace) :=
  chat_structured (llm self) (FinalToolNames_schema self) tr ms.

Lemma intent_attempt_rejected res tr :
  rejected_result self res →
  (∀ l, answer tr = Returned l → len l ≠ top_k self) →
  ∃ res', attempt self ms res tr = (Returned (NextIteration, res'), tr ++ [call]) ∧
          rejected_result self res'.
Proof.
  intros Hstale Hrej. unfold attempt, structured_llm_invoke. run_M.
  fold (answer tr). destruct (answer tr) as [l|e] eqn:Hans.
  - rewrite bool_decide_eq_false_2 by eauto.
    eexists. split; [done|]. intros x [= <-]. eauto.
  - eauto.
Qed.

Lemma intent_attempt_accepted res tr l :
  answer tr = Returned l → len l = top_k self →
  attempt self ms res tr
  = (Returned (Break, Some {| tool_names := l |}), tr ++ [call]).
Proof.
  intros Hans Hlen. unfold attempt, structured_llm_invoke. run_M.
  fold (answer tr). rewrite Hans. simpl. by rewrite bool_decide_eq_true_2.
Qed.

Lemma intent_loop_reaches_accepted n l :
  n < max_attempts →
  (∀ i l', i < n → answer (t0 ++ replicate i call) = Returned l' →
           len l' ≠ top_k self) →
  answer (t0 ++ replicate n call) = Returned l →
  len l = top_k self →
  ∀ d k res, n = k + d → rejected_result self res →
    while_attempts (attempt self ms) k res (t0 ++ replicate k call)
    = (Returned (Some {| tool_names := l |}), t0 ++ replicate (S n) call).
Proof.
  intros Hn Hrej Hans Hlen. induction d as [|d IH]; intros k res Hk Hstale.
  - assert (k = n) as -> by lia.
    rewrite while_attempts_turn. rewrite decide_True by done.
    rewrite (intent_attempt_accepted _ _ l) by done.
    by rewrite replicate_S_end, app_assoc.
  - rewrite while_attempts_turn. rewrite decide_True by lia.
    destruct (intent_attempt_rejected res (t0 ++ replicate k call) Hstale)
      as (res' & -> & Hstale').
    { intros l'. apply Hrej. lia. }
    rewrite Nat.add_1_r. rewrite <- app_assoc, <- replicate_S_end.
    apply IH; [lia|done].
Qed.

Lemma intent_loop_exhausted :
  (∀ i l', i < max_attempts → answer (t0 ++ replicate i call) = Returned l' →
           len l' ≠ top_k self) →
  ∀ d k res, max_attempts = k + d → rejected_result self res →
    ∃ res', while_attempts (attempt self ms) k res (t0 ++ replicate k call)
            = (Returned res', t0 ++ replicate max_attempts call) ∧
            rejected_result self res'.
Proof.
  intros Hrej. induction d as [|d IH]; intros k res Hk Hstale.
  - assert (k = max_attempts) as -> by lia.
    rewrite while_attempts_turn. rewrite decide_False by lia. eauto.
  - rewrite while_attempts_turn. rewrite decide_True by lia.
    destruct (intent_attempt_rejected res (t0 ++ replicate k call) Hstale)
      as (res' & -> & Hstale').
    { intros l'. apply Hrej. lia. }
    rewrite Nat.add_1_r. rewrite <- app_assoc, <- replicate_S_end.
    apply IH; [lia|done].
Qed.
End IntentRerankerAttempts.

(** X1. Once its prompt is composed, the Intent-Level Reranker returns the
    first answer that has length [top_k]: when the answers to the first [n]
    attempts are exceptions or lists of another length and the next answer
    has length [top_k], that answer is returned after exactly [n + 1] calls,
    every one of them the structured call with the composed prompt. *)
Theorem intent_reranker_returns_first_accepted
    (lib : FormatLibrary)
    (self : RerankerMultiQueryExpansionVariations.t) (uq : string)
    (ai : pyval) (uqr : list Document) (sr : list (list Document))
    (ms : list message) (t : trace) (n : nat) (l : list string) :
  RerankerMultiQueryExpansionVariations._get_finalized_list_thoughts_messages
    lib self uq ai uqr sr = Returned ms →
  n < max_attempts →
  (∀ i l', i < n →
     chat_structured (RerankerMultiQueryExpansionVariations.llm self)
       (RerankerMultiQueryExpansionVariations.FinalToolNames_schema self)
       (t ++ replicate i
               (StructuredInvoke
                  (RerankerMultiQueryExpansionVariations.FinalToolNames_schema self)
                  ms))
       ms
     = Returned l' →
     len l' ≠ RerankerMultiQueryExpansionVariations.top_k self) →
  chat_structured (RerankerMultiQueryExpansionVariations.llm self)
    (RerankerMultiQueryExpansionVariations.FinalToolNames_schema self)
    (t ++ replicate n
            (StructuredInvoke
               (RerankerMultiQueryExpansionVariations.FinalToolNames_schema self)
               ms))
    ms
  = Returned l →
  len l = RerankerMultiQueryExpansionVariations.top_k self →
  RerankerMultiQueryExpansionVariations.generate lib self uq ai uqr sr t
  = (Returned l,
     t ++ replicate (S n)
            (StructuredInvoke
               (RerankerMultiQueryExpansionVariations.FinalToolNames_schema self)
               ms)).
Proof.
  intros Hms Hn Hrej Hans Hlen.
  rewrite (RerankerFacts.intent_generate_composed _ _ _ _ _ _ ms) by done.
  unfold mbind, M_bind.
  pose proof (intent_loop_reaches_accepted self ms t n l Hn Hrej Hans Hlen n 0 None)
    as Hrun.
  simpl in Hrun. rewrite app_nil_r in Hrun. rewrite Hrun by (done || by intros x).
  simpl. by rewrite bool_decide_eq_true_2.
Qed.

Lemma intent_reranker_returns_first_accepted_witness :
  ∃ ms,
    RerankerMultiQueryExpansionVariations.generate plain_fields_only
      (intent_reranker_of
         (scripted [] [no_answer; Returned ["get_npv"];
                       Returned ["get_npv"; "get_irr"]]) 2)
      "npv?" (PyStr "reasoning") [] [] []
    = (Returned ["get_npv"; "get_irr"],
       [] ++ replicate 3
               (StructuredInvoke
                  (RerankerMultiQueryExpansionVariations.FinalToolNames_schema
                     (intent_reranker_of
                        (scripted [] [no_answer; Returned ["get_npv"];
                                      Returned ["get_npv"; "get_irr"]]) 2))
                  ms)).
Proof.
  eexists.
  apply (intent_reranker_returns_first_accepted plain_fields_only
           (intent_reranker_of
              (scripted [] [no_answer; Returned ["get_npv"];
                            Returned ["get_npv"; "get_irr"]]) 2)
           "npv?" (PyStr "reasoning") [] [] _ [] 2 ["get_npv"; "get_irr"]).
  - vm_compute. reflexivity.
  - unfold max_attempts. lia.
  - intros i l' Hi. destruct i as [|[|i]]; [| |lia].
    + vm_compute. discriminate.
    + vm_compute. intros [= <-]. discriminate.
  - vm_compute. reflexivity.
  - vm_compute. reflexivity.
Defined.

(** X2. Once its prompt is composed, the Intent-Level Reranker gives up only
    after the whole budget: when the answers to the three attempts are
    exceptions or lists whose length is not [top_k], it returns the empty
    list after exactly three structured calls with the composed prompt. *)
Theorem intent_reranker_gives_up_after_three_calls
    (lib : FormatLibrary)
    (self : RerankerMultiQueryExpansionVariations.t) (uq : string)
    (ai : pyval) (uqr : list Document) (sr : list (list Document))
    (ms : list message) (t : trace) :
  RerankerMultiQueryExpansionVariations._get_finalized_list_thoughts_messages
    lib self uq ai uqr sr = Returned ms →
  (∀ i l', i < max_attempts →
     chat_structured (RerankerMultiQueryExpansionVariations.llm self)
       (RerankerMultiQueryExpansionVariations.FinalToolNames_schema self)
       (t ++ replicate i
               (StructuredInvoke
                  (RerankerMultiQueryExpansionVariations.FinalToolNames_schema self)
                  ms))
       ms
     = Returned l' →
     len l' ≠ RerankerMultiQueryExpansionVariations.top_k self) →
  RerankerMultiQueryExpansionVariations.generate lib self uq ai uqr sr t
  = (Returned [],
     t ++ replicate max_attempts
            (StructuredInvoke
               (RerankerMultiQueryExpansionVariations.FinalToolNames_schema self)
               ms)).
Proof.
  intros Hms Hrej.
  rewrite (RerankerFacts.intent_generate_composed _ _ _ _ _ _ ms) by done.
  unfold mbind, M_bind.
  destruct (intent_loop_exhausted self ms t Hrej max_attempts 0 None)
    as (res & Hrun & Hstale); [done|by intros x|].
  simpl in Hrun. rewrite app_nil_r in Hrun. rewrite Hrun.
  destruct res as [x|]; [|done].
  by rewrite bool_decide_eq_false_2 by (by apply Hstale).
Qed.

Lemma intent_reranker_gives_up_after_three_calls_witness :
  ∃ ms,
    RerankerMultiQueryExpansionVariations.generate plain_fields_only
      (intent_reranker_of
         (scripted [] [ Returned ["get_npv"]; no_answer; Returned [];
                        Returned ["get_npv"; "get_irr"] ]) 2)
      "npv?" (PyStr "reasoning") [] [] []
    = (Returned [],
       [] ++ replicate max_attempts
               (StructuredInvoke
                  (RerankerMultiQueryExpansionVariations.FinalToolNames_schema
                     (intent_reranker_of
                        (scripted [] [ Returned ["get_npv"]; no_answer; Returned [];
                                       Returned ["get_npv"; "get_irr"] ]) 2))
                  ms)).
Proof.
  eexists.
  apply (intent_reranker_gives_up_after_three_calls plain_fields_only
           (intent_reranker_of
              (scripted [] [ Returned ["get_npv"]; no_answer; Returned [];
                             Returned ["get_npv"; "get_irr"] ]) 2)
           "npv?" (PyStr "reasoning") [] []).
  - vm_compute. reflexivity.
  - intros i l' Hi. destruct i as [|[|[|i]]]; [| | |unfold max_attempts in Hi; lia].
    + vm_compute. intros [= <-]. discriminate.
    + vm_compute. discriminate.
    + vm_compute. intros [= <-]. discriminate.
Defined.

(** ** The Cross-Intent Combiner: composing the prompt *)

Section CombinerPrompt.
Import RerankerDecomposedQueries.
Context (lib : FormatLibrary).
Context (self : t) (uq : string) (intents : list string) (lol : list (list string)).

Lemma intent_lines_returns idx rest acc :
  (idx - 1) + length rest ≤ length lol → 0 < idx →
  ∃ s, intent_lines idx rest lol acc = Returned s.
Proof.
  revert idx acc.
  induction rest as [|intent rest IH]; intros idx acc Hle Hidx; simpl.
  - eauto.
  - unfold getitem. destruct (lol !! (idx - 1)) as [tools|] eqn:Hlook.
    + simpl. apply IH; simpl in *; lia.
    + apply lookup_ge_None in Hlook. simpl in Hle. lia.
Qed.

Lemma intent_lines_raises idx rest acc :
  length lol < (idx - 1) + length rest → idx - 1 ≤ length lol → 0 < idx →
  intent_lines idx rest lol acc
  = Raised (Exception IndexError "list index out of range").
Proof.
  revert idx acc.
  induction rest as [|intent rest IH]; intros idx acc Hlt Hpre Hidx; simpl.
  - simpl in Hlt. lia.
  - unfold getitem. destruct (lol !! (idx - 1)) as [tools|] eqn:Hlook.
    + apply lookup_lt_Some in Hlook. simpl. apply IH; simpl in *; lia.
    + reflexivity.
Qed.


Lemma intent_lines_brace_free idx rest acc s :
  0 < idx →
  brace_free acc = true →
  Forall (λ intent, brace_free intent = true) rest →
  Forall (Forall (λ name, brace_free name = true))
    (take (length rest) (drop (idx - 1) lol)) →
  intent_lines idx rest lol acc = Returned s →
  brace_free s = true.
Proof.
  revert idx acc.
  induction rest as [|intent rest IH]; intros idx acc Hidx Hacc Hrest Hlol; simpl.
  - by intros [= <-].
  - unfold getitem. destruct (lol !! (idx - 1)) as [tools|] eqn:Hlook; [|done].
    cbn [mbind outcome_bind].
    apply Forall_cons in Hrest as [Hintent Hrest].
    rewrite (drop_S _ _ _ Hlook) in Hlol. cbn [length take] in Hlol.
    apply Forall_cons in Hlol as [Htools Hlol].
    apply IH; [lia| |done|].
    + pose proof (brace_free_str_list tools Htools) as Hstr.
      pose proof (brace_free_pretty_nat idx) as Hidx'.
      brace_free_text.
    + by replace (S idx - 1) with (S (idx - 1)) by lia.
Qed.

(** Without an intent, or with fewer shortlists than intents, composing
    raises before any text is parsed. *)
Lemma combiner_prompt_counts :
  ¬ (0 < length intents ≤ length lol) →
  ∃ e, _get_final_combined_thoughts_messages lib self uq intents lol = Raised e ∧
       class_of e = (if decide (lol ≠ [] ∧ intents = []) then ZeroDivisionError
                     else IndexError).
Proof.
  intros Hcounts. unfold _get_final_combined_thoughts_messages.
  destruct (decide (lol = [])) as [->|Hlol].
  { cbn. eexists; split; [done|]. by case_decide as Hc; [destruct Hc|]. }
  destruct lol as [|first rest] eqn:Heq; [done|]. rewrite <- Heq in *.
  assert (getitem lol 0 = Returned first) as -> by (by subst).
  cbn [mbind outcome_bind]. unfold floordiv.
  destruct (decide (intents = [])) as [->|Hint].
  { cbn. eexists; split; [done|]. by case_decide as Hc; [|destruct Hc]. }
  assert (0 < length intents) by (destruct intents; [done|simpl; lia]).
  rewrite bool_decide_eq_false_2 by (unfold len; lia).
  cbn [mbind outcome_bind].
  rewrite intent_lines_raises by (simpl; lia). cbn.
  eexists; split; [done|]. case_decide as Hc; [by destruct Hc|done].
Qed.

(** A prompt that composes has the two turns. *)
Lemma combiner_prompt_returned ms :
  _get_final_combined_thoughts_messages lib self uq intents lol = Returned ms →
  0 < length intents ≤ length lol ∧ role_of <$> ms = [System; Human].
Proof.
  intros Hms. split.
  - destruct (decide (0 < length intents ≤ length lol)) as [|Hn]; [done|].
    destruct (combiner_prompt_counts Hn) as (e & He & _). congruence.
  - revert Hms. unfold _get_final_combined_thoughts_messages.
    destruct (getitem lol 0) as [first|e]; [|done]. cbn [mbind outcome_bind].
    destruct (floordiv _ _) as [share|e]; [|done]. cbn [mbind outcome_bind].
    destruct (intent_lines _ _ _ _) as [human|e]; [|done].
    cbn [mbind outcome_bind]. cbv zeta. apply system_human_roles.
Qed.

(** With enough shortlists and texts without braces the prompt composes. *)
Lemma combiner_prompt_composes :
  0 < length intents ≤ length lol →
  brace_free uq = true →
  Forall (λ intent, brace_free intent = true) intents →
  Forall (Forall (λ name, brace_free name = true)) (take (length intents) lol) →
  ∃ ms, _get_final_combined_thoughts_messages lib self uq intents lol = Returned ms.
Proof.
  intros Hlen Huq Hintents Hlol.
  unfold _get_final_combined_thoughts_messages.
  destruct lol as [|first rest] eqn:Heq; [simpl in Hlen; lia|].
  rewrite <- Heq in *.
  assert (getitem lol 0 = Returned first) as -> by (by subst).
  cbn [mbind outcome_bind]. unfold floordiv.
  rewrite bool_decide_eq_false_2 by (unfold len; lia).
  cbn [mbind outcome_bind].
  destruct (intent_lines_returns 1 intents
              ("USER QUESTION: '" +:+ uq +:+ "'" +:+ LF)) as [s Hs];
    [simpl; lia|lia|].
  rewrite Hs. cbn [mbind outcome_bind]. cbv zeta.
  assert (brace_free s = true) as Hfree.
  { eapply intent_lines_brace_free; [| | | |exact Hs]; [lia| |done|done].
    brace_free_text. }
  rewrite system_human_brace_free; [by eauto| |].
  - case_bool_decide; brace_free_text.
  - brace_free_text.
Qed.
End CombinerPrompt.

(** X3. Composing the prompt of the Cross-Intent Combiner.  Without an
    intent, or with fewer shortlists than intents, composing raises whatever
    the texts are: ZeroDivisionError when there are shortlists but no intent,
    IndexError when there is no shortlist or fewer shortlists than intents.
    A prompt that composes has a system turn and a human turn, and then there
    is at least one intent and at least as many shortlists as intents.  With
    such counts the prompt composes when the question, the intents and the
    tool names of the shortlists that are rendered hold no brace; the
    rendered text is parsed as a template, so a question such as
    [what is {x}?] makes composing raise KeyError.  Shortlists that are
    empty, or of different lengths, do not matter. *)
Theorem combiner_prompt_composition
    (lib : FormatLibrary)
    (self : RerankerDecomposedQueries.t) (uq : string)
    (intents : list string) (lol : list (list string)) :
  (¬ (0 < length intents ≤ length lol) →
   ∃ e, RerankerDecomposedQueries._get_final_combined_thoughts_messages
          lib self uq intents lol = Raised e ∧
        class_of e = (if decide (lol ≠ [] ∧ intents = []) then ZeroDivisionError
                      else IndexError)) ∧
  (∀ ms,
     RerankerDecomposedQueries._get_final_combined_thoughts_messages
       lib self uq intents lol = Returned ms →
     0 < length intents ≤ length lol ∧ role_of <$> ms = [System; Human]) ∧
  (0 < length intents ≤ length lol →
   brace_free uq = true →
   Forall (λ intent, brace_free intent = true) intents →
   Forall (Forall (λ name, brace_free name = true)) (take (length intents) lol) →
   ∃ ms, RerankerDecomposedQueries._get_final_combined_thoughts_messages
           lib self uq intents lol = Returned ms) ∧
  RerankerDecomposedQueries._get_final_combined_thoughts_messages
    lib (combiner_of (constant_model "reasoning" ["get_npv"]) 2) "what is {x}?" ["npv?"] [["get_npv"]]
  = Raised (KeyError "x").
Proof.
  split; [apply combiner_prompt_counts|].
  split; [apply combiner_prompt_returned|].
  split; [apply combiner_prompt_composes|].
  vm_compute. reflexivity.
Qed.

(** ** The Cross-Intent Combiner: the two passes of an attempt *)

Section CombinerTrace.
Import RerankerDecomposedQueries.
Context (lib : FormatLibrary).
Context (self : t) (uq : string) (intents : list string) (lol : list (list string)).
Context (ms : list message).
Hypothesis Hcompose :
  _get_final_combined_thoughts_messages lib self uq intents lol = Returned ms.

(** The calls of one attempt started at the trace [tr]. *)
Lemma combiner_attempt_block res tr :
  (∃ e, chat_invoke (llm self) tr ms = Raised e ∧
        attempt lib self uq intents lol res tr
        = (Returned (NextIteration, res), tr ++ [LlmInvoke ms])) ∨
  (∃ ai x res',
     chat_invoke (llm self) tr ms = Returned ai ∧
     attempt lib self uq intents lol res tr
     = (Returned (x, res'),
        tr ++ [ LlmInvoke ms;
                StructuredInvoke (FinalToolNames_schema self)
                  (_get_structured_prompt_after_first_response self
                     (ai_content ai)) ])).
Proof.
  unfold attempt, structured_llm_invoke. run_M. rewrite Hcompose.
  destruct (chat_invoke (llm self) tr ms) as [ai|e]; [right|left; eauto].
  exists ai.
  destruct (chat_structured _ _ _ _) as [l|e];
    [case_bool_decide|]; rewrite <- app_assoc; simpl; eauto.
Qed.

Lemma two_pass_app t ext ext' :
  two_pass self ms t ext →
  (ext' = [LlmInvoke ms] ∨
   ∃ ai, chat_invoke (llm self) (t ++ ext) ms = Returned ai ∧
         ext' = [ LlmInvoke ms;
                  StructuredInvoke (FinalToolNames_schema self)
                    (_get_structured_prompt_after_first_response self
                       (ai_content ai)) ]) →
  two_pass self ms t (ext ++ ext').
Proof.
  intros Hext Hblock i c Hi.
  apply lookup_app_Some in Hi as [Hi|[Hge Hi]].
  - destruct (Hext i c Hi) as [->|(j & ai & -> & Hj & Hai & ->)]; [by left|].
    right. exists j, ai. split; [done|].
    split; [by apply lookup_app_l_Some|].
    split; [|done].
    rewrite take_app_le; [done|]. apply lookup_lt_Some in Hj. lia.
  - destruct Hblock as [->|(ai & Hai & ->)].
    + apply list_lookup_singleton_Some in Hi as [_ <-]. by left.
    + destruct (i - length ext) as [|[|k]] eqn:Hk; simpl in Hi.
      * injection Hi as <-. by left.
      * injection Hi as <-. right. exists (length ext), ai.
        split; [lia|]. split; [by rewrite list_lookup_middle|].
        split; [by rewrite take_app_length|done].
      * by rewrite lookup_nil in Hi.
Qed.

Lemma combiner_two_pass_run t :
  ∃ r ext,
    generate lib self uq intents lol t = (Returned r, t ++ ext) ∧
    ext !! 0 = Some (LlmInvoke ms) ∧
    two_pass self ms t ext.
Proof.
  pose (Inv := λ (n : nat) (res : option FinalToolNames) (tr : trace),
    ∃ ext, tr = t ++ ext ∧ ext !! 0 = Some (LlmInvoke ms) ∧
           two_pass self ms t ext).
  assert (∀ n res tr, Inv n res tr →
            ∃ x res' tr',
              attempt lib self uq intents lol res tr = (Returned (x, res'), tr') ∧
              Inv (S n) res' tr') as Hstep.
  { intros n res tr (ext & -> & Hhead & Htwo).
    destruct (combiner_attempt_block res (t ++ ext))
      as [(e & Hai & Hatt)|(ai & x & res' & Hai & Hatt)];
      rewrite Hatt; eexists _, _, _; (split; [done|]);
      eexists (ext ++ _); (split; [by rewrite <- app_assoc|]);
      (split; [by apply lookup_app_l_Some|]);
      apply two_pass_app; eauto. }
  assert (∃ x res1 tr1,
            attempt lib self uq intents lol None t = (Returned (x, res1), tr1) ∧
            Inv 1 res1 tr1)
    as (x & res1 & tr1 & Hatt & HInv1).
  { destruct (combiner_attempt_block None t)
      as [(e & Hai & Hatt)|(ai & x & res' & Hai & Hatt)];
      rewrite Hatt; eexists _, _, _; (split; [done|]);
      eexists; (split; [done|]); (split; [done|]);
      apply (two_pass_app t []); rewrite ?app_nil_r; eauto;
      by intros i c Hi. }
  assert (∃ res tr,
            while_attempts (attempt lib self uq intents lol) 0 None t
              = (Returned res, tr) ∧ Inv 0 res tr)
    as (res & tr & Hrun & (ext & -> & Hhead & Htwo)).
  { rewrite while_attempts_turn.
    rewrite decide_True by (unfold max_attempts; lia).
    rewrite Hatt. destruct x.
    - eauto.
    - destruct (while_attempts_rule (attempt lib self uq intents lol) Inv)
        with (n := 1) (r := res1) (t := tr1)
        as (m & res & tr & Hrun & HInv & _); [by eauto|done|].
      simpl. rewrite Hrun. eauto. }
  unfold generate, mbind, M_bind. rewrite Hrun.
  assert (∃ r, (match res with
                | Some r0 =>
                    if bool_decide (len_set (tool_names r0) = final_top_k self)
                    then mret (tool_names r0)
                    else mret []
                | None => mret []
                end : M (list string)) (t ++ ext) = (Returned r, t ++ ext))
    as [r ->].
  { destruct res as [r0|]; [case_bool_decide|]; eauto. }
  exists r, ext. split; [done|]. split; [done|]. exact Htwo.
Qed.
End CombinerTrace.

(** X4. When its prompt can be composed, the Cross-Intent Combiner starts by
    a free-form call with that prompt, and every call it makes is either that
    same free-form call or a structured call that comes right after a
    free-form call that returned an answer, with the text of that very answer
    as its AI turn.  The structured model is never asked without the
    reasoning of the same attempt, and the index is never queried. *)
Theorem combiner_calls_follow_two_passes
    (lib : FormatLibrary)
    (self : RerankerDecomposedQueries.t) (uq : string)
    (intents : list string) (lol : list (list string)) (t : trace)
    (ms : list message) :
  RerankerDecomposedQueries._get_final_combined_thoughts_messages
    lib self uq intents lol = Returned ms →
  ∃ r ext,
    RerankerDecomposedQueries.generate lib self uq intents lol t
      = (Returned r, t ++ ext) ∧
    ext !! 0 = Some (LlmInvoke ms) ∧
    ∀ i c, ext !! i = Some c →
      c = LlmInvoke ms ∨
      ∃ j ai,
        i = S j ∧ ext !! j = Some (LlmInvoke ms) ∧
        chat_invoke (RerankerDecomposedQueries.llm self) (t ++ take j ext) ms
          = Returned ai ∧
        c = StructuredInvoke
              (RerankerDecomposedQueries.FinalToolNames_schema self)
              (RerankerDecomposedQueries._get_structured_prompt_after_first_response
                 self (ai_content ai)).
Proof.
  intros Hcompose.
  destruct (combiner_two_pass_run lib self uq intents lol ms Hcompose t)
    as (r & ext & Hgen & Hhead & Htwo).
  exists r, ext. split; [done|]. split; [done|]. exact Htwo.
Qed.

Lemma combiner_calls_follow_two_passes_witness :
  ∃ ms r ext,
    RerankerDecomposedQueries._get_final_combined_thoughts_messages
      plain_fields_only
      (combiner_of (scripted [no_answer; says "reasoning"]
                             [Returned ["get_npv"; "get_irr"]]) 2)
      "npv and irr?" ["npv?"; "irr?"]
      [["get_npv"; "get_pv"]; ["get_irr"; "get_roi"]] = Returned ms ∧
    RerankerDecomposedQueries.generate plain_fields_only
      (combiner_of (scripted [no_answer; says "reasoning"]
                             [Returned ["get_npv"; "get_irr"]]) 2)
      "npv and irr?" ["npv?"; "irr?"]
      [["get_npv"; "get_pv"]; ["get_irr"; "get_roi"]] []
    = (Returned r, [] ++ ext) ∧
    ext !! 0 = Some (LlmInvoke ms).
Proof.
  eexists.
  edestruct (combiner_calls_follow_two_passes plain_fields_only
               (combiner_of (scripted [no_answer; says "reasoning"]
                                      [Returned ["get_npv"; "get_irr"]]) 2)
               "npv and irr?" ["npv?"; "irr?"]
               [["get_npv"; "get_pv"]; ["get_irr"; "get_roi"]] [])
    as (r & ext & Hgen & Hhead & _).
  - vm_compute. reflexivity.
  - exists r, ext. split; [reflexivity|]. split; [exact Hgen|exact Hhead].
Defined.

(** X5. The Cross-Intent Combiner stops at the first success: when the prompt
    can be composed, the free-form call returns, and the structured answer
    has [final_top_k] distinct members, that answer is returned after exactly
    these two calls. *)
Theorem combiner_returns_first_accepted
    (lib : FormatLibrary)
    (self : RerankerDecomposedQueries.t) (uq : string)
    (intents : list string) (lol : list (list string)) (t : trace)
    (ms : list message) (ai : AIMessage) (l : list string) :
  RerankerDecomposedQueries._get_final_combined_thoughts_messages
    lib self uq intents lol = Returned ms →
  chat_invoke (RerankerDecomposedQueries.llm self) t ms = Returned ai →
  chat_structured (RerankerDecomposedQueries.llm self)
    (RerankerDecomposedQueries.FinalToolNames_schema self)
    (t ++ [LlmInvoke ms])
    (RerankerDecomposedQueries._get_structured_prompt_after_first_response
       self (ai_content ai))
  = Returned l →
  len_set l = RerankerDecomposedQueries.final_top_k self →
  RerankerDecomposedQueries.generate lib self uq intents lol t
  = (Returned l,
     t ++ [ LlmInvoke ms;
            StructuredInvoke
              (RerankerDecomposedQueries.FinalToolNames_schema self)
              (RerankerDecomposedQueries._get_structured_prompt_after_first_response
                 self (ai_content ai)) ]).
Proof.
  intros Hcompose Hai Hstr Hset.
  unfold RerankerDecomposedQueries.generate, mbind, M_bind.
  rewrite while_attempts_turn. rewrite decide_True by (unfold max_attempts; lia).
  unfold RerankerDecomposedQueries.attempt,
    RerankerDecomposedQueries.structured_llm_invoke.
  run_M. rewrite Hcompose, Hai, Hstr. simpl.
  rewrite !bool_decide_eq_true_2 by done. by rewrite <- app_assoc.
Qed.

Lemma combiner_returns_first_accepted_witness :
  ∃ ms,
    RerankerDecomposedQueries.generate plain_fields_only
      (combiner_of (constant_model "reasoning" ["get_npv"; "get_irr"]) 2)
      "npv and irr?" ["npv?"; "irr?"]
      [["get_npv"; "get_pv"]; ["get_irr"; "get_roi"]] []
    = (Returned ["get_npv"; "get_irr"],
       [] ++ [ LlmInvoke ms;
               StructuredInvoke
                 (RerankerDecomposedQueries.FinalToolNames_schema
                    (combiner_of (constant_model "reasoning" ["get_npv"; "get_irr"]) 2))
                 (RerankerDecomposedQueries._get_structured_prompt_after_first_response
                    (combiner_of (constant_model "reasoning" ["get_npv"; "get_irr"]) 2)
                    "reasoning") ]).
Proof.
  eexists.
  apply (combiner_returns_first_accepted plain_fields_only
           (combiner_of (constant_model "reasoning" ["get_npv"; "get_irr"]) 2)
           "npv and irr?" ["npv?"; "irr?"]
           [["get_npv"; "get_pv"]; ["get_irr"; "get_roi"]] [] _
           {| ai_content := "reasoning";
              ai_str := "content=" +:+ repr_str "reasoning" |}).
  - vm_compute. reflexivity.
  - reflexivity.
  - reflexivity.
  - vm_compute. reflexivity.
Defined.
(** ** The expander and the index *)

(** The extraction prompt of the Query Expander always composes: its two
    templates are constants, and both fields are given. *)
Lemma structured_message_composes lib self (ai_message : AIMessage) (q : string) :
  ∃ system_text,
    MultiQueryExpansionModule._get_structured_message_after_first_response
      lib self ai_message q
    = Returned
        [ Message System system_text;
          Message AI (ai_str ai_message);
          Message Human
            ("Extract the " +:+ pretty (MultiQueryExpansionModule.n_items self) +:+
             " questions and format them in the structured output.") ].
Proof.
  unfold MultiQueryExpansionModule._get_structured_message_after_first_response,
    SystemMessagePromptTemplate.from_template,
    AIMessagePromptTemplate.from_template, PromptTemplate.from_template.
  cbv zeta.
  match goal with
  | |- context [scan_text ?template] =>
      assert (∃ a b, scan_text template
                     = Scanned [Literal a; Field "user_question"; Literal b])
        as (a & b & ->) by (eexists _, _; vm_compute; reflexivity)
  end.
  change (scan_text "{AI_response}")
    with (Scanned [Literal ""; Field "AI_response"; Literal ""]).
  eexists. cbn.
  repeat (case_decide; try done). cbn.
  rewrite !append_empty_r. reflexivity.
Qed.

(** X6. The Query Expander neither retries nor hides a failure.  When
    composing its first prompt raises (the rendered text is parsed as a
    template, so a brace in the question can do it), that exception leaves
    [generate] before any call.  Otherwise an exception of the free-form call
    is raised as it is after that single call, and the structured model is
    not asked; the extraction prompt then always composes, and an exception
    of the extraction call is raised as it is after the two calls. *)
Theorem expander_failure_propagates
    (lib : FormatLibrary)
    (self : MultiQueryExpansionModule.t) (q : string) (t : trace) :
  match MultiQueryExpansionModule._get_expansion_messages lib self q with
  | Raised e =>
      MultiQueryExpansionModule.generate lib self q t = (Raised e, t)
  | Returned ms =>
      (∀ e,
         chat_invoke (MultiQueryExpansionModule.llm self) t ms = Raised e →
         MultiQueryExpansionModule.generate lib self q t
         = (Raised e, t ++ [LlmInvoke ms])) ∧
      (∀ ai_message,
         chat_invoke (MultiQueryExpansionModule.llm self) t ms
           = Returned ai_message →
         ∃ sm,
           MultiQueryExpansionModule._get_structured_message_after_first_response
             lib self ai_message q = Returned sm ∧
           ∀ e,
             chat_structured (MultiQueryExpansionModule.llm self)
               (MultiQueryExpansionModule.ExpandedQueries_schema self)
               (t ++ [LlmInvoke ms]) sm
             = Raised e →
             MultiQueryExpansionModule.generate lib self q t
             = (Raised e,
                t ++ [ LlmInvoke ms;
                       StructuredInvoke
                         (MultiQueryExpansionModule.ExpandedQueries_schema self)
                         sm ]))
  end.
Proof.
  unfold MultiQueryExpansionModule.generate,
    MultiQueryExpansionModule.structured_llm_invoke.
  destruct (MultiQueryExpansionModule._get_expansion_messages lib self q)
    as [ms|e0]; [|done].
  split.
  - intros e He. run_M. by rewrite He.
  - intros ai_message Hai.
    destruct (structured_message_composes lib self ai_message q) as [st Hsm].
    eexists. split; [exact Hsm|].
    intros e He. run_M. rewrite Hai. cbn. rewrite Hsm. cbn.
    rewrite He. cbn. by rewrite <- app_assoc.
Qed.

(** Two runs of the expander: the service that cannot be reached, and the
    question whose braces name a field that is not given. *)
Example expander_raises_what_the_model_raises :
  ∃ ms,
    MultiQueryExpansionModule.generate plain_fields_only
      (expander_of (scripted [] []) 2) "npv?" []
    = (Raised (Exception (OtherException "APIConnectionError") "Connection error."),
       [LlmInvoke ms]).
Proof. eexists. vm_compute. reflexivity. Qed.

Example expander_raises_on_braces :
  MultiQueryExpansionModule.generate plain_fields_only
    (expander_of (constant_model "reasoning" ["a"; "b"]) 2) "what is {x}?" []
  = (Raised (KeyError "x"), []).
Proof. vm_compute. reflexivity. Qed.

(** X7. When [index_documents] returns, whatever index the indexer held
    before, the indexer had an embedding model, that model built a store from
    the documents, and the Candidate Retriever then answers with what the
    search of that store gives for the same query and the same [k], wrapping
    an error of that search; the not-ready error is gone.  When
    [index_documents] raises, either no embedding model was given
    (AttributeError) or the exception is the one raised while the store was
    built. *)
Theorem retrieval_after_index_documents
    (self : FAISSVectorStoreIndexer.t) (documents : list Document)
    (q : string) (k : Z) (t : trace) :
  match FAISSVectorStoreIndexer.index_documents self documents with
  | Returned self' =>
      ∃ model store,
        FAISSVectorStoreIndexer.embedding_model self = Some model ∧
        FAISSVectorStoreIndexer.from_documents model documents = Returned store ∧
        InitialToolRetrievalModule.generate
          {| InitialToolRetrievalModule.toolshed_knowledge_base := self' |} q k t
        = (match FAISSVectorStoreIndexer.similarity_search store t q k with
           | Returned docs => Returned docs
           | Raised e =>
               Raised (Exception ValueError ("Error retrieving tools: " +:+ str e))
           end,
           t ++ [IndexQuery q k])
  | Raised e =>
      (FAISSVectorStoreIndexer.embedding_model self = None ∧
       e = AttributeError
             "'FAISSVectorStoreIndexer' object has no attribute 'embedding_model'") ∨
      (∃ model,
         FAISSVectorStoreIndexer.embedding_model self = Some model ∧
         FAISSVectorStoreIndexer.from_documents model documents = Raised e)
  end.
Proof.
  unfold FAISSVectorStoreIndexer.index_documents.
  destruct (FAISSVectorStoreIndexer.embedding_model self) as [model|] eqn:Hmodel;
    [|by left].
  destruct (FAISSVectorStoreIndexer.from_documents model documents)
    as [store|e] eqn:Hstore; cbn.
  - exists model, store. split; [done|]. split; [done|].
    unfold InitialToolRetrievalModule.generate, index_query. run_M. simpl.
    unfold FAISSVectorStoreIndexer.query. simpl.
    by destruct (FAISSVectorStoreIndexer.similarity_search _ t q k).
  - right. eauto.
Qed.

(** The retriever of the workflow, as line 14 of the source builds it. *)
Example retriever_is_not_built_as_written :
  Workflow.initial_tool_retrieval_module_as_written
    (populated [tool "get_npv" "Net present value."])
  = Raised (TypeError
      "InitialToolRetrievalModule.__init__() got an unexpected keyword argument 'embedder'").
Proof. reflexivity. Qed.

(** ** The branch of one decomposed query *)


Section BranchFacts.
Import Workflow.
Context (lib : FormatLibrary) (sched : Scheduler) (llm : ChatModel).
Context {KB : Type} `{BaseVectorStoreIndexer KB}.
Context (retriever : InitialToolRetrievalModule.t KB).

Lemma retriever_generate_run q k t :
  InitialToolRetrievalModule.generate retriever q k t
  = (match query (InitialToolRetrievalModule.toolshed_knowledge_base retriever) t q k with
     | Returned docs => Returned docs
     | Raised e =>
         Raised (Exception ValueError ("Error retrieving tools: " +:+ str e))
     end,
     t ++ [IndexQuery q k]).
Proof.
  unfold InitialToolRetrievalModule.generate, index_query. run_M. simpl.
  by destruct (query _ t q k).
Qed.

Lemma retrieval_tasks_lookup state i (task : M retrieval_write) :
  retrieval_tasks retriever state !! i = Some task →
  ∃ q, retrieval_queries state !! i = Some q ∧
    ∀ tr, task tr
          = (match query (InitialToolRetrievalModule.toolshed_knowledge_base retriever) tr q individual_top_k with
             | Returned docs => Returned (retrieval_write_at state i q docs)
             | Raised e =>
                 Raised (Exception ValueError
                           ("Error retrieving tools: " +:+ str e))
             end,
             tr ++ [IndexQuery q individual_top_k]).
Proof.
  unfold retrieval_tasks, retrieval_queries, retrieval_write_at,
    continue_to_retrieve_tools_for_each_expanded_queries.
  rewrite <- list_fmap_compose.
  intros [Hi|[Hge Hi]]%lookup_app_Some.
  - rewrite list_lookup_fmap in Hi.
    destruct (expanded_queries state !! i) as [q|] eqn:Hq; [|done].
    injection Hi as <-. exists q.
    split; [by apply lookup_app_l_Some|].
    intros tr. apply lookup_lt_Some in Hq.
    destruct (decide (i < length (expanded_queries state))) as [_|Hn]; [|lia].
    unfold compose, retrieve_tools_for_expanded_query. cbn.
    unfold mbind, M_bind. rewrite retriever_generate_run.
    by destruct (query (InitialToolRetrievalModule.toolshed_knowledge_base retriever) tr q individual_top_k).
  - rewrite length_fmap in Hge, Hi.
    apply list_lookup_singleton_Some in Hi as [Hi <-].
    exists (decomposed_query state). split.
    + rewrite lookup_app_r by done. by rewrite Hi.
    + intros tr.
      destruct (decide (i < length (expanded_queries state))) as [Hn|_]; [lia|].
      unfold retrieve_tools_for_query.
      unfold mbind, M_bind. rewrite retriever_generate_run.
      by destruct (query (InitialToolRetrievalModule.toolshed_knowledge_base retriever) tr (decomposed_query state) individual_top_k).
Qed.

Lemma retrieval_tasks_length state :
  length (retrieval_tasks retriever state) = length (retrieval_queries state).
Proof.
  unfold retrieval_tasks, retrieval_queries,
    continue_to_retrieve_tools_for_each_expanded_queries.
  by rewrite !length_app, !length_fmap.
Qed.

(** The calls of the retrieval superstep: one query of the index for each
    task that ran, in the order in which they ran. *)
Lemma retrieval_superstep_trace state t :
  ∃ order,
    order ⊆+ seq 0 (length (retrieval_queries state)) ∧
    (superstep sched (retrieval_tasks retriever state) t).2
    = t ++ mjoin ((λ i, match retrieval_queries state !! i with
                        | Some q => [IndexQuery q individual_top_k]
                        | None => []
                        end) <$> order) ∧
    (∀ writes,
       (superstep sched (retrieval_tasks retriever state) t).1 = Returned writes →
       order ≡ₚ seq 0 (length (retrieval_queries state))) ∧
    (∀ e, (superstep sched (retrieval_tasks retriever state) t).1 = Raised e →
          order ≠ []).
Proof.
  rewrite <- retrieval_tasks_length.
  apply superstep_trace. intros i task tr Hi.
  destruct (retrieval_tasks_lookup state i task Hi) as (q & -> & Hrun).
  by rewrite Hrun.
Qed.


Lemma expand_query_run state t :
  expand_query lib llm state t
  = MultiQueryExpansionModule.generate lib
      (multi_query_expansion_variation_module llm) (decomposed_query state) t.
Proof.
  unfold expand_query, mbind, M_bind.
  by destruct (MultiQueryExpansionModule.generate lib _ _ t) as [[expanded|e] t0].
Qed.


(** When every query of the index fails with the same exception, so does the
    retrieval superstep, after at least one query. *)
Lemma retrieval_superstep_fails state t e0 :
  (∀ tr q k, query (InitialToolRetrievalModule.toolshed_knowledge_base retriever) tr q k = Raised e0) →
  ∃ calls,
    superstep sched (retrieval_tasks retriever state) t
    = (Raised (Exception ValueError ("Error retrieving tools: " +:+ str e0)),
       t ++ calls) ∧
    calls ≠ [] ∧
    Forall (λ c, ∃ q, c = IndexQuery q individual_top_k ∧
                      q ∈ retrieval_queries state) calls.
Proof.
  intros Hfail.
  destruct (retrieval_superstep_trace state t)
    as (order & Hsub & Htrace & _ & Hne).
  destruct (superstep sched (retrieval_tasks retriever state) t)
    as [[writes|e] t'] eqn:Hstep.
  - apply superstep_returned in Hstep.
    assert (is_Some (retrieval_tasks retriever state
                       !! length (expanded_queries state))) as [task Htask].
    { apply lookup_lt_is_Some_2. rewrite retrieval_tasks_length.
      unfold retrieval_queries. rewrite length_app. cbn. lia. }
    destruct (Forall2_lookup_l _ _ _ _ _ Hstep Htask)
      as (w & _ & t1 & t2 & Hrun).
    destruct (retrieval_tasks_lookup state _ task Htask) as (q & _ & Htaskrun).
    rewrite Htaskrun, Hfail in Hrun. done.
  - cbn [fst snd] in Htrace, Hne. specialize (Hne e eq_refl). subst t'.
    eexists. split; [|split].
    + f_equal. f_equal.
      apply superstep_raised in Hstep as (task & t1 & t2 & Hin & Hrun).
      apply list_elem_of_lookup_1 in Hin as [i Hi].
      destruct (retrieval_tasks_lookup state i task Hi) as (q & _ & Htaskrun).
      rewrite Htaskrun, Hfail in Hrun. by injection Hrun as <- _.
    + destruct order as [|i order]; [done|].
      assert (i ∈ seq 0 (length (retrieval_queries state))) as Hi.
      { eapply elem_of_submseteq; [|exact Hsub]. by left. }
      apply elem_of_seq in Hi as [_ Hi].
      destruct (lookup_lt_is_Some_2 (retrieval_queries state) i) as [q Hq];
        [lia|].
      cbn. by rewrite Hq.
    + apply Forall_forall. intros c Hc.
      apply list_elem_of_join in Hc as (l & Hc & Hl).
      apply list_elem_of_fmap in Hl as (i & -> & _).
      destruct (retrieval_queries state !! i) as [q|] eqn:Hq.
      * apply list_elem_of_singleton in Hc as ->. exists q.
        split; [done|]. by eapply list_elem_of_lookup_2.
      * by apply elem_of_nil in Hc.
Qed.

Lemma rerank_expanded_queries_composed state t ms :
  RerankerMultiQueryExpansionVariations._get_finalized_list_thoughts_messages lib
    (reranker_multi_query_expansion_variations llm)
    (decomposed_query state)
    (PyList (expanded_query <$> expanded_query_dicts state))
    (decomposed_query_tools state)
    (retrieved_tools <$> expanded_query_dicts state) = Returned ms →
  ∃ top_tools ext,
    rerank_expanded_queries lib llm state t
    = (Returned [ {| dq_decomposed_query := decomposed_query state;
                     dq_expanded_query_dicts := expanded_query_dicts state;
                     dq_decomposed_query_tools := decomposed_query_tools state;
                     dq_final_top_k_tools := top_tools |} ],
       t ++ ext) ∧
    (len top_tools = individual_top_k ∨ top_tools = []) ∧
    length ext ≤ max_attempts ∧
    Forall (λ c, c = StructuredInvoke
                       (RerankerMultiQueryExpansionVariations.FinalToolNames_schema
                          (reranker_multi_query_expansion_variations llm)) ms) ext.
Proof.
  intros Hms. unfold rerank_expanded_queries. run_M.
  destruct (RerankerFacts.intent_generate_run lib
              (reranker_multi_query_expansion_variations llm)
              (decomposed_query state)
              (PyList (expanded_query <$> expanded_query_dicts state))
              (decomposed_query_tools state)
              (retrieved_tools <$> expanded_query_dicts state) ms t Hms)
    as (r & ext & Hgen & Hlen & Hall & Hr).
  rewrite Hgen. exists r, ext. split; [done|].
  split; [destruct Hr as [->|[Hr _]]; [by right|by left]|].
  split; done.
Qed.

Lemma rerank_expanded_queries_not_composed state t e :
  RerankerMultiQueryExpansionVariations._get_finalized_list_thoughts_messages lib
    (reranker_multi_query_expansion_variations llm)
    (decomposed_query state)
    (PyList (expanded_query <$> expanded_query_dicts state))
    (decomposed_query_tools state)
    (retrieved_tools <$> expanded_query_dicts state) = Raised e →
  rerank_expanded_queries lib llm state t = (Raised e, t).
Proof.
  intros He. unfold rerank_expanded_queries. unfold mbind, M_bind.
  by rewrite (RerankerFacts.intent_generate_not_composed _ _ _ _ _ _ e).
Qed.

Lemma process_decomposed_query_inv dq t out t1 :
  process_decomposed_query lib sched llm retriever dq t = (Returned out, t1) →
  ∃ d, out = [d] ∧ dq_decomposed_query d = dq ∧
       (len (dq_final_top_k_tools d) = individual_top_k ∨
        dq_final_top_k_tools d = []).
Proof.
  unfold process_decomposed_query. unfold mbind at 1, M_bind at 1.
  destruct (retrieved_branch lib sched llm retriever dq t)
    as [[branch|e] t0] eqn:Hbranch; [|done].
  destruct (retrieved_branch_fields _ _ _ _ _ _ _ _ Hbranch) as [Hdq Hnil].
  unfold mbind, M_bind.
  destruct (RerankerMultiQueryExpansionVariations._get_finalized_list_thoughts_messages
              lib (reranker_multi_query_expansion_variations llm)
              (decomposed_query branch)
              (PyList (expanded_query <$> expanded_query_dicts branch))
              (decomposed_query_tools branch)
              (retrieved_tools <$> expanded_query_dicts branch))
    as [ms|e] eqn:Hms.
  - destruct (rerank_expanded_queries_composed branch t0 ms Hms)
      as (top_tools & ext & -> & Hlen & _).
    rewrite Hnil. simpl. intros [= <- <-]. eauto.
  - by rewrite (rerank_expanded_queries_not_composed branch t0 e Hms).
Qed.

(** The branches of the fan-out: one Intent Result for each decomposed
    query, in the order of the decomposed queries. *)
Lemma branches_written dqs (written : list (list decomposed_query_dict)) :
  Forall2 (λ (task : M (list decomposed_query_dict)) out,
             ∃ t1 t2, task t1 = (Returned out, t2))
          (process_decomposed_query lib sched llm retriever <$> dqs) written →
  dq_decomposed_query <$> mjoin written = dqs ∧
  Forall (λ d, len (dq_final_top_k_tools d) = individual_top_k ∨
               dq_final_top_k_tools d = []) (mjoin written).
Proof.
  revert written. induction dqs as [|dq dqs IH]; intros written Hall.
  - apply Forall2_nil_inv_l in Hall as ->. by split.
  - rewrite fmap_cons in Hall.
    apply Forall2_cons_inv_l in Hall as (out & rest & (t1 & t2 & Hrun) & Hall & ->).
    apply process_decomposed_query_inv in Hrun as (d & -> & Hd & Hlen).
    destruct (IH rest Hall) as [Hdqs Hshape].
    change (mjoin ([d] :: rest)) with (d :: mjoin rest).
    split; [by rewrite fmap_cons, Hd, Hdqs|by constructor].
Qed.
End BranchFacts.

(** ** Prompts that compose *)

Lemma brace_free_foldl_append (l : list string) : ∀ acc,
  brace_free acc = true → Forall (λ s, brace_free s = true) l →
  brace_free (foldl String.append acc l) = true.
Proof.
  induction l as [|s l IH]; intros acc Hacc Hl; [done|].
  apply Forall_cons in Hl as [Hs Hl]. cbn [foldl].
  apply IH; [|done]. by apply brace_free_app_true.
Qed.

Lemma brace_free_format_documents (docs : list Document) :
  Forall (λ doc, plain_document doc = true) docs →
  brace_free (RerankerMultiQueryExpansionVariations._format_documents docs) = true.
Proof.
  intros Hdocs. unfold RerankerMultiQueryExpansionVariations._format_documents.
  apply brace_free_join; [done|].
  apply Forall_fmap. eapply Forall_impl; [exact Hdocs|].
  intros doc [Hname Hcontent]%andb_prop. unfold compose. cbv beta zeta. brace_free_text.
Qed.

(** The first prompt of the Query Expander composes when the question holds
    no brace, and then holds the two texts as they are. *)
Lemma expansion_messages_compose lib self (q : string) :
  brace_free q = true →
  MultiQueryExpansionModule._get_expansion_messages lib self q
  = Returned
      [ Message System (MultiQueryExpansionModule._get_system_message self);
        Message Human (MultiQueryExpansionModule._get_human_message self q) ].
Proof.
  intros Hq. unfold MultiQueryExpansionModule._get_expansion_messages. cbv zeta.
  apply system_human_brace_free.
  - unfold MultiQueryExpansionModule._get_system_message. brace_free_text.
  - unfold MultiQueryExpansionModule._get_human_message. brace_free_text.
Qed.

(** The prompt of the Intent-Level Reranker composes when neither the
    question nor the retrieved documents hold a brace; what is given as
    [ai_response] is a value, not a template, and can hold any text. *)
Lemma finalized_messages_compose lib self (uq : string) (ai : pyval)
    (uqr : list Document) (sr : list (list Document)) :
  brace_free uq = true →
  Forall (λ doc, plain_document doc = true) uqr →
  Forall (Forall (λ doc, plain_document doc = true)) sr →
  ∃ ms,
    RerankerMultiQueryExpansionVariations._get_finalized_list_thoughts_messages
      lib self uq ai uqr sr = Returned ms.
Proof.
  intros Huq Huqr Hsr.
  unfold RerankerMultiQueryExpansionVariations._get_finalized_list_thoughts_messages.
  cbv zeta. rewrite expansion_messages_compose by done.
  cbn [mbind outcome_bind].
  unfold AIMessagePromptTemplate.from_template,
    HumanMessagePromptTemplate.from_template.
  change (PromptTemplate.from_template lib "{ai_response}")
    with (Returned (PromptTemplate.Plain (lib:=lib)
                      [Literal ""; Field "ai_response"; Literal ""])).
  cbn [mbind outcome_bind mret outcome_ret].
  rewrite from_template_brace_free.
  - cbn. rewrite decide_True by done. cbn. eauto.
  - pose proof (brace_free_format_documents uqr Huqr) as Hfirst.
    assert (brace_free
              (foldl String.append ""
                 (imap (λ (i : nat) (sentence_result : list Document),
                          "SENTENCE " +:+ pretty (i + 1)%nat +:+
                          " EMBEDDED AND RETRIEVED TOOLS:" +:+ LF +:+
                          RerankerMultiQueryExpansionVariations._format_documents
                            sentence_result +:+ LF +:+
                          "================" +:+ LF) sr)) = true) as Hsection.
    { apply brace_free_foldl_append; [done|].
      apply Forall_lookup. intros i s Hs.
      rewrite list_lookup_imap in Hs.
      destruct (sr !! i) as [docs|] eqn:Hdocs; [|done].
      injection Hs as <-.
      pose proof (brace_free_format_documents docs
                    (Forall_lookup_1 _ _ _ _ Hsr Hdocs)) as Hdocs'.
      brace_free_text. }
    brace_free_text.
Qed.



(** With the scheduler that runs the last pending task first, the index is
    asked for the decomposed query before the paraphrases; with the one that
    follows the order of the tasks, after them. *)
Example retrieval_order_depends_on_the_scheduler :
  drop 2 (Workflow.retrieved_branch plain_fields_only last_first
            (scripted [says "Plan: two paraphrases."]
                      [Returned ["what is npv"; "compute npv"]])
            (retriever_of (populated [tool "get_npv" "Net present value."]))
            "What is the NPV?" []).2
  = [IndexQuery "What is the NPV?" 5; IndexQuery "compute npv" 5;
     IndexQuery "what is npv" 5] ∧
  drop 2 (Workflow.retrieved_branch plain_fields_only in_order
            (scripted [says "Plan: two paraphrases."]
                      [Returned ["what is npv"; "compute npv"]])
            (retriever_of (populated [tool "get_npv" "Net present value."]))
            "What is the NPV?" []).2
  = [IndexQuery "what is npv" 5; IndexQuery "compute npv" 5;
     IndexQuery "What is the NPV?" 5].
Proof. split; vm_compute; reflexivity. Qed.

(** X9. When the expansion of a decomposed query raises, the branch raises
    the same exception at once: the index is not queried and the
    Intent-Level Reranker is not run. *)
Theorem branch_stops_at_failed_expansion
    (lib : FormatLibrary) (sched : Scheduler) (llm : ChatModel)
    {KB : Type} `{BaseVectorStoreIndexer KB}
    (retriever : InitialToolRetrievalModule.t KB) (dq : string) (t t0 : trace)
    (e : exn) :
  MultiQueryExpansionModule.generate lib
    (Workflow.multi_query_expansion_variation_module llm) dq t = (Raised e, t0) →
  Workflow.process_decomposed_query lib sched llm retriever dq t = (Raised e, t0).
Proof.
  intros Hexp.
  unfold Workflow.process_decomposed_query.
  unfold mbind at 1, M_bind at 1. unfold Workflow.retrieved_branch.
  unfold mbind at 1, M_bind at 1.
  rewrite expand_query_run. cbn [Workflow.decomposed_query].
  by rewrite Hexp.
Qed.

Lemma branch_stops_at_failed_expansion_witness :
  ∃ t0,
    Workflow.process_decomposed_query plain_fields_only in_order (scripted [] [])
      (retriever_of (populated [tool "get_npv" "Net present value."]))
      "What is the NPV?" []
    = (Raised (Exception (OtherException "APIConnectionError") "Connection error."),
       t0).
Proof.
  eexists.
  apply (branch_stops_at_failed_expansion plain_fields_only in_order
           (scripted [] [])
           (retriever_of (populated [tool "get_npv" "Net present value."]))
           "What is the NPV?" []).
  vm_compute. reflexivity.
Defined.

(** X10. When the index was never populated, a branch whose expansion
    returned raises the retriever's ValueError with the not-ready message.
    Between the expansion and the exception the branch only queries the
    index, at least once, each time for 5 candidates and for the decomposed
    query or one of its paraphrases; which of these queries are made, and in
    which order, is left to the scheduler.  The Intent-Level Reranker is not
    run. *)
Theorem branch_fails_when_index_not_ready
    (lib : FormatLibrary) (sched : Scheduler) (llm : ChatModel)
    (unpopulated : FAISSVectorStoreIndexer.t) (dq : string)
    (t t0 : trace) (paraphrases : list string) :
  FAISSVectorStoreIndexer.index unpopulated = None →
  MultiQueryExpansionModule.generate lib
    (Workflow.multi_query_expansion_variation_module llm) dq t
    = (Returned paraphrases, t0) →
  ∃ calls,
    Workflow.process_decomposed_query lib sched llm
      {| InitialToolRetrievalModule.toolshed_knowledge_base := unpopulated |} dq t
    = (Raised (Exception ValueError
         "Error retrieving tools: Index has not been created yet. Call 'index_documents' or 'load_index' first."),
       t0 ++ calls) ∧
    calls ≠ [] ∧
    Forall (λ c, ∃ q, c = IndexQuery q 5 ∧ q ∈ paraphrases ++ [dq]) calls.
Proof.
  intros Hnone Hexp.
  unfold Workflow.process_decomposed_query.
  unfold mbind at 1, M_bind at 1. unfold Workflow.retrieved_branch.
  unfold mbind at 1, M_bind at 1.
  rewrite expand_query_run. cbn [Workflow.decomposed_query].
  rewrite Hexp. unfold mbind, M_bind.
  match goal with
  | |- context [superstep sched (Workflow.retrieval_tasks ?r ?s) t0] =>
      destruct (retrieval_superstep_fails sched r s t0
                  (Exception ValueError
                     "Index has not been created yet. Call 'index_documents' or 'load_index' first."))
        as (calls & Hstep & Hne & Hcalls)
  end.
  { intros tr q k. cbn. unfold FAISSVectorStoreIndexer.query. by rewrite Hnone. }
  rewrite Hstep. exists calls. split; [done|]. split; [done|exact Hcalls].
Qed.

Lemma branch_fails_when_index_not_ready_witness :
  ∃ t0 calls,
    Workflow.process_decomposed_query plain_fields_only last_first
      (scripted [says "Plan: two paraphrases."]
                [Returned ["what is npv"; "compute npv"]])
      {| InitialToolRetrievalModule.toolshed_knowledge_base :=
           FAISSVectorStoreIndexer.__init__ (Some embedder) |}
      "What is the NPV?" []
    = (Raised (Exception ValueError
         "Error retrieving tools: Index has not been created yet. Call 'index_documents' or 'load_index' first."),
       t0 ++ calls) ∧
    calls ≠ [].
Proof.
  eexists.
  edestruct (branch_fails_when_index_not_ready plain_fields_only last_first
               (scripted [says "Plan: two paraphrases."]
                         [Returned ["what is npv"; "compute npv"]])
               (FAISSVectorStoreIndexer.__init__ (Some embedder))
               "What is the NPV?" [])
    as (calls & Hrun & Hne & _).
  - reflexivity.
  - vm_compute. reflexivity.
  - exists calls. split; [exact Hrun|exact Hne].
Defined.

(** Without cancellation every retrieval is attempted before the exception
    leaves; with it, the first failure is the only query. *)
Example not_ready_index_is_queried_by_every_task :
  drop 2 (Workflow.process_decomposed_query plain_fields_only last_first
            (scripted [says "Plan: two paraphrases."]
                      [Returned ["what is npv"; "compute npv"]])
            (retriever_of (FAISSVectorStoreIndexer.__init__ (Some embedder)))
            "What is the NPV?" []).2
  = [IndexQuery "What is the NPV?" 5; IndexQuery "compute npv" 5;
     IndexQuery "what is npv" 5] ∧
  drop 2 (Workflow.process_decomposed_query plain_fields_only in_order
            (scripted [says "Plan: two paraphrases."]
                      [Returned ["what is npv"; "compute npv"]])
            (retriever_of (FAISSVectorStoreIndexer.__init__ (Some embedder)))
            "What is the NPV?" []).2
  = [IndexQuery "what is npv" 5].
Proof. split; vm_compute; reflexivity. Qed.

(** X11. The node rerank_expanded_queries composes the reranker's prompt
    before any call.  When the prompt composes, the node hands on exactly one
    Intent Result: it carries the query, the paraphrase retrievals and the
    candidates of the branch unchanged, its shortlist has 5 entries or is
    empty, and at most three calls were made, all of them the structured call
    with that prompt.  When composing raises, the node raises the same
    exception and no call is made.  The prompt composes whenever the
    decomposed query and the retrieved documents hold no brace. *)
Theorem rerank_expanded_queries_gives_one_intent_result
    (lib : FormatLibrary) (llm : ChatModel)
    (state : Workflow.DecomposedQueryState) (t : trace) :
  match
    RerankerMultiQueryExpansionVariations._get_finalized_list_thoughts_messages
      lib (Workflow.reranker_multi_query_expansion_variations llm)
      (Workflow.decomposed_query state)
      (PyList (Workflow.expanded_query <$> Workflow.expanded_query_dicts state))
      (Workflow.decomposed_query_tools state)
      (Workflow.retrieved_tools <$> Workflow.expanded_query_dicts state)
  with
  | Returned ms =>
      ∃ top_tools ext,
        Workflow.rerank_expanded_queries lib llm state t
        = (Returned
             [ {| Workflow.dq_decomposed_query := Workflow.decomposed_query state;
                  Workflow.dq_expanded_query_dicts :=
                    Workflow.expanded_query_dicts state;
                  Workflow.dq_decomposed_query_tools :=
                    Workflow.decomposed_query_tools state;
                  Workflow.dq_final_top_k_tools := top_tools |} ],
           t ++ ext) ∧
        (len top_tools = 5%Z ∨ top_tools = []) ∧
        length ext ≤ 3 ∧
        Forall (λ c, c = StructuredInvoke
                           (RerankerMultiQueryExpansionVariations.FinalToolNames_schema
                              (Workflow.reranker_multi_query_expansion_variations llm))
                           ms) ext
  | Raised e =>
      Workflow.rerank_expanded_queries lib llm state t = (Raised e, t) ∧
      ¬ (brace_free (Workflow.decomposed_query state) = true ∧
         Forall (λ doc, plain_document doc = true)
           (Workflow.decomposed_query_tools state) ∧
         Forall (λ d, Forall (λ doc, plain_document doc = true)
                        (Workflow.retrieved_tools d))
           (Workflow.expanded_query_dicts state))
  end.
Proof.
  destruct (RerankerMultiQueryExpansionVariations._get_finalized_list_thoughts_messages
              _ _ _ _ _ _) as [ms|e] eqn:Hms.
  - by apply rerank_expanded_queries_composed.
  - split; [by apply rerank_expanded_queries_not_composed|].
    intros (Hq & Htools & Hdicts).
    destruct (finalized_messages_compose lib
                (Workflow.reranker_multi_query_expansion_variations llm)
                (Workflow.decomposed_query state)
                (PyList (Workflow.expanded_query
                           <$> Workflow.expanded_query_dicts state))
                (Workflow.decomposed_query_tools state)
                (Workflow.retrieved_tools <$> Workflow.expanded_query_dicts state))
      as [ms Hcomposed]; [done|done| |congruence].
    by apply Forall_fmap.
Qed.

(** ** The last node and the whole fusion *)

Lemma rerank_decomposed_queries_several lib llm state t :
  2 ≤ length (Workflow.decomposed_query_dicts state) →
  ∃ r ext,
    Workflow.rerank_decomposed_queries lib llm state t = (Returned r, t ++ ext) ∧
    (r = [] ∨ len_set r = Workflow.final_top_k) ∧
    match
      RerankerDecomposedQueries._get_final_combined_thoughts_messages lib
        (Workflow.reranker_query_decomposition llm)
        (Workflow.rewritten_query state)
        (Workflow.dq_decomposed_query <$> Workflow.decomposed_query_dicts state)
        (Workflow.dq_final_top_k_tools <$> Workflow.decomposed_query_dicts state)
    with
    | Returned ms => ext !! 0 = Some (LlmInvoke ms)
    | Raised e =>
        ext = [] ∧ r = [] ∧
        ¬ (brace_free (Workflow.rewritten_query state) = true ∧
           Forall (λ d, brace_free (Workflow.dq_decomposed_query d) = true ∧
                        Forall (λ name, brace_free name = true)
                          (Workflow.dq_final_top_k_tools d))
             (Workflow.decomposed_query_dicts state))
    end.
Proof.
  intros Hlen. unfold Workflow.rerank_decomposed_queries.
  rewrite bool_decide_eq_false_2
    by (unfold len; rewrite length_fmap; lia).
  set (cc := Workflow.reranker_query_decomposition llm).
  set (intents := Workflow.dq_decomposed_query <$> _).
  set (lol := Workflow.dq_final_top_k_tools <$> _).
  destruct (RerankerDecomposedQueries._get_final_combined_thoughts_messages
              lib cc (Workflow.rewritten_query state) intents lol)
    as [ms|e] eqn:Hms.
  - destruct (combiner_two_pass_run lib cc _ intents lol ms Hms t)
      as (r & ext & Hgen & Hhead & _).
    destruct (CombinerFacts.combiner_generate_run lib cc
                (Workflow.rewritten_query state) intents lol t)
      as (r' & ext' & Hgen' & _ & _ & Hr).
    rewrite Hgen in Hgen'. injection Hgen' as <- _.
    unfold mbind, M_bind. rewrite Hgen. exists r, ext.
    split; [done|]. split; [|done].
    destruct Hr as [->|[Hr _]]; [by left|by right].
  - unfold mbind, M_bind.
    rewrite (combiner_swallows_prompt_error _ _ _ _ _ e) by done.
    exists [], []. split; [by rewrite app_nil_r|]. split; [by left|].
    split; [done|]. split; [done|].
    intros [Hq Hdicts].
    destruct (combiner_prompt_composes lib cc (Workflow.rewritten_query state)
                intents lol) as [ms Hcomposed]; [| | | |congruence].
    + subst intents lol. rewrite !length_fmap. lia.
    + done.
    + subst intents. apply Forall_fmap.
      eapply Forall_impl; [exact Hdicts|]. by intros d [Hd _].
    + subst intents lol. rewrite length_fmap.
      rewrite take_ge by (by rewrite length_fmap).
      apply Forall_fmap.
      eapply Forall_impl; [exact Hdicts|]. by intros d [_ Hd].
Qed.

(** X12. With two or more Intent Results the last node never raises, and
    what it returns is empty or has 5 distinct identifiers.  The intents and
    the shortlists it hands to the Cross-Intent Combiner come from the same
    results, so their numbers agree whatever the shortlists hold (empty ones
    included).  When the Combiner's prompt composes, the first call is the
    free-form call with that prompt.  When composing raises, no call is made
    and the node returns the empty list; that only happens when the rewritten
    query, a decomposed query or a shortlisted name holds a brace. *)
Theorem rerank_decomposed_queries_with_several_intents
    (lib : FormatLibrary) (llm : ChatModel) (state : Workflow.ToolshedState)
    (t : trace) :
  2 ≤ length (Workflow.decomposed_query_dicts state) →
  ∃ r ext,
    Workflow.rerank_decomposed_queries lib llm state t = (Returned r, t ++ ext) ∧
    (r = [] ∨ len_set r = 5%Z) ∧
    match
      RerankerDecomposedQueries._get_final_combined_thoughts_messages lib
        (Workflow.reranker_query_decomposition llm)
        (Workflow.rewritten_query state)
        (Workflow.dq_decomposed_query <$> Workflow.decomposed_query_dicts state)
        (Workflow.dq_final_top_k_tools <$> Workflow.decomposed_query_dicts state)
    with
    | Returned ms => ext !! 0 = Some (LlmInvoke ms)
    | Raised e =>
        ext = [] ∧ r = [] ∧
        ¬ (brace_free (Workflow.rewritten_query state) = true ∧
           Forall (λ d, brace_free (Workflow.dq_decomposed_query d) = true ∧
                        Forall (λ name, brace_free name = true)
                          (Workflow.dq_final_top_k_tools d))
             (Workflow.decomposed_query_dicts state))
    end.
Proof. apply rerank_decomposed_queries_several. Qed.

Lemma rerank_decomposed_queries_with_several_intents_witness :
  ∃ r ext ms,
    Workflow.rerank_decomposed_queries plain_fields_only
      (constant_model "reasoning" ["get_npv"; "get_irr"])
      {| Workflow.user_query := "npv, irr?";
         Workflow.conversation_history := [];
         Workflow.rewritten_query := "What are the NPV and the IRR?";
         Workflow.decomposed_queries := ["What is the NPV?"; "What is the IRR?"];
         Workflow.list_of_intents := [];
         Workflow.ts_retrieved_tools := [];
         Workflow.decomposed_query_dicts :=
           [ {| Workflow.dq_decomposed_query := "What is the NPV?";
                Workflow.dq_expanded_query_dicts := [];
                Workflow.dq_decomposed_query_tools := [];
                Workflow.dq_final_top_k_tools := [] |};
             {| Workflow.dq_decomposed_query := "What is the IRR?";
                Workflow.dq_expanded_query_dicts := [];
                Workflow.dq_decomposed_query_tools := [];
                Workflow.dq_final_top_k_tools := ["get_irr"] |} ];
         Workflow.final_top_k_tools := None |} []
    = (Returned r, [] ++ ext) ∧
    ext !! 0 = Some (LlmInvoke ms) ∧
    (r = [] ∨ len_set r = 5%Z).
Proof.
  edestruct (rerank_decomposed_queries_with_several_intents plain_fields_only
               (constant_model "reasoning" ["get_npv"; "get_irr"])
               {| Workflow.user_query := "npv, irr?";
                  Workflow.conversation_history := [];
                  Workflow.rewritten_query := "What are the NPV and the IRR?";
                  Workflow.decomposed_queries :=
                    ["What is the NPV?"; "What is the IRR?"];
                  Workflow.list_of_intents := [];
                  Workflow.ts_retrieved_tools := [];
                  Workflow.decomposed_query_dicts :=
                    [ {| Workflow.dq_decomposed_query := "What is the NPV?";
                         Workflow.dq_expanded_query_dicts := [];
                         Workflow.dq_decomposed_query_tools := [];
                         Workflow.dq_final_top_k_tools := [] |};
                      {| Workflow.dq_decomposed_query := "What is the IRR?";
                         Workflow.dq_expanded_query_dicts := [];
                         Workflow.dq_decomposed_query_tools := [];
                         Workflow.dq_final_top_k_tools := ["get_irr"] |} ];
                  Workflow.final_top_k_tools := None |} [])
    as (r & ext & Hrun & Hr & Hhead).
  - simpl. lia.
  - destruct (RerankerDecomposedQueries._get_final_combined_thoughts_messages
                _ _ _ _ _) as [ms|e] eqn:Hms.
    + exists r, ext, ms. split; [exact Hrun|]. split; [exact Hhead|exact Hr].
    + exfalso. vm_compute in Hms. discriminate Hms.
Defined.

(** A rewritten query with braces: the Combiner's prompt does not compose,
    and the last node returns the empty list without a call. *)
Example braces_leave_the_fusion_result_empty :
  Workflow.rerank_decomposed_queries plain_fields_only
    (constant_model "reasoning" ["get_npv"; "get_irr"])
    {| Workflow.user_query := "npv, irr?";
       Workflow.conversation_history := [];
       Workflow.rewritten_query := "What are {npv} and {irr}?";
       Workflow.decomposed_queries := ["What is the NPV?"; "What is the IRR?"];
       Workflow.list_of_intents := [];
       Workflow.ts_retrieved_tools := [];
       Workflow.decomposed_query_dicts :=
         [ {| Workflow.dq_decomposed_query := "What is the NPV?";
              Workflow.dq_expanded_query_dicts := [];
              Workflow.dq_decomposed_query_tools := [];
              Workflow.dq_final_top_k_tools := ["get_npv"] |};
           {| Workflow.dq_decomposed_query := "What is the IRR?";
              Workflow.dq_expanded_query_dicts := [];
              Workflow.dq_decomposed_query_tools := [];
              Workflow.dq_final_top_k_tools := ["get_irr"] |} ];
       Workflow.final_top_k_tools := None |} []
  = (Returned [], []).
Proof. vm_compute. reflexivity. Qed.

Lemma rerank_decomposed_queries_shape lib llm state t :
  Workflow.decomposed_query_dicts state ≠ [] →
  Forall (λ d, len (Workflow.dq_final_top_k_tools d) = Workflow.individual_top_k ∨
               Workflow.dq_final_top_k_tools d = [])
         (Workflow.decomposed_query_dicts state) →
  ∃ r t',
    Workflow.rerank_decomposed_queries lib llm state t = (Returned r, t') ∧
    (r = [] ∨ len r = Workflow.individual_top_k ∨ len_set r = Workflow.final_top_k).
Proof.
  intros Hne Hall.
  destruct (Workflow.decomposed_query_dicts state) as [|d [|d' ds]] eqn:Hds; [done| |].
  - rewrite (rerank_decomposed_queries_single lib llm state d t Hds).
    apply Forall_cons in Hall as [[Hd|Hd] _];
      eexists _, _; (split; [done|]); eauto.
  - destruct (rerank_decomposed_queries_several lib llm state t)
      as (r & ext & Hrun & [->|Hr] & _); [rewrite Hds; simpl; lia| |];
      rewrite Hrun; eexists _, _; (split; [done|]); eauto.
Qed.

Lemma fusion_shape_of_run
    (lib : FormatLibrary) (sched : Scheduler)
    (llm : ChatModel) {KB : Type} `{BaseVectorStoreIndexer KB}
    (retriever : InitialToolRetrievalModule.t KB)
    (state state' : Workflow.ToolshedState) (t t' : trace) :
  Workflow.decomposed_queries state ≠ [] →
  Workflow.decomposed_query_dicts state = [] →
  Workflow.fuse_decomposed lib sched llm retriever state t = (Returned state', t') →
  Workflow.dq_decomposed_query <$> Workflow.decomposed_query_dicts state'
    ≡ₚ Workflow.decomposed_queries state ∧
  Forall (λ d, len (Workflow.dq_final_top_k_tools d) = Workflow.individual_top_k ∨
               Workflow.dq_final_top_k_tools d = [])
         (Workflow.decomposed_query_dicts state') ∧
  ∃ r, Workflow.final_top_k_tools state' = Some r ∧
       (r = [] ∨ len r = Workflow.individual_top_k ∨
        len_set r = Workflow.final_top_k).
Proof.
  intros Hne Hnil.
  unfold Workflow.fuse_decomposed, Workflow.continue_to_process_decomposed_queries.
  rewrite list_fmap_id.
  destruct (Workflow.decomposed_queries state) as [|dq dqs] eqn:Hdqs; [done|].
  unfold mbind at 1, M_bind at 1.
  destruct (superstep sched _ t) as [[written|e] t0] eqn:Hstep; [|done].
  apply superstep_returned in Hstep.
  apply branches_written in Hstep as [Hnew Hall].
  rewrite Hnil in *. rewrite app_nil_l.
  unfold mbind, M_bind.
  match goal with
  | |- context [Workflow.rerank_decomposed_queries lib llm ?s t0] =>
      destruct (rerank_decomposed_queries_shape lib llm s t0)
        as (r & t1 & Hrun & Hr)
  end.
  { simpl. intros Hw. rewrite Hw in Hnew. discriminate Hnew. }
  { done. }
  rewrite Hrun. intros [= <- <-]. simpl.
  split; [by rewrite Hnew|]. split; [done|]. eauto.
Qed.

(** X13. When the fusion of a non-empty list of decomposed queries returns,
    there is exactly one Intent Result for each decomposed query, each with a
    shortlist of 5 entries or an empty one, and the Fusion Result is set: it
    is empty, or has 5 entries (one intent), or has 5 distinct identifiers
    (several intents). *)
Theorem fusion_result_shape
    (lib : FormatLibrary) (sched : Scheduler)
    (llm : ChatModel) {KB : Type} `{BaseVectorStoreIndexer KB}
    (retriever : InitialToolRetrievalModule.t KB)
    (state state' : Workflow.ToolshedState) (t t' : trace) :
  Workflow.decomposed_queries state ≠ [] →
  Workflow.decomposed_query_dicts state = [] →
  Workflow.fuse_decomposed lib sched llm retriever state t = (Returned state', t') →
  Workflow.dq_decomposed_query <$> Workflow.decomposed_query_dicts state'
    ≡ₚ Workflow.decomposed_queries state ∧
  Forall (λ d, len (Workflow.dq_final_top_k_tools d) = 5%Z ∨
               Workflow.dq_final_top_k_tools d = [])
         (Workflow.decomposed_query_dicts state') ∧
  ∃ r, Workflow.final_top_k_tools state' = Some r ∧
       (r = [] ∨ len r = 5%Z ∨ len_set r = 5%Z).
Proof. apply fusion_shape_of_run. Qed.

Lemma fusion_result_shape_witness :
  ∃ state',
    fst (Workflow.fuse_decomposed plain_fields_only in_order
           (scripted [says "Plan: two paraphrases."]
              [ Returned ["what is npv"; "compute npv"];
                Returned ["get_npv"; "get_pv"; "get_fv"; "get_irr"; "get_roi"] ])
           (retriever_of (populated [tool "get_npv" "Net present value."]))
           {| Workflow.user_query := "npv?";
              Workflow.conversation_history := [];
              Workflow.rewritten_query := "What is the NPV?";
              Workflow.decomposed_queries := ["What is the NPV?"];
              Workflow.list_of_intents := [];
              Workflow.ts_retrieved_tools := [];
              Workflow.decomposed_query_dicts := [];
              Workflow.final_top_k_tools := None |} [])
    = Returned state' ∧
    Workflow.dq_decomposed_query <$> Workflow.decomposed_query_dicts state'
      ≡ₚ ["What is the NPV?"].
Proof.
  eexists. split; [vm_compute; reflexivity|].
  eapply (fusion_result_shape plain_fields_only in_order
            (scripted [says "Plan: two paraphrases."]
               [ Returned ["what is npv"; "compute npv"];
                 Returned ["get_npv"; "get_pv"; "get_fv"; "get_irr"; "get_roi"] ])
            (retriever_of (populated [tool "get_npv" "Net present value."]))
            {| Workflow.user_query := "npv?";
               Workflow.conversation_history := [];
               Workflow.rewritten_query := "What is the NPV?";
               Workflow.decomposed_queries := ["What is the NPV?"];
               Workflow.list_of_intents := [];
               Workflow.ts_retrieved_tools := [];
               Workflow.decomposed_query_dicts := [];
               Workflow.final_top_k_tools := None |} _ [] _).
  - discriminate.
  - reflexivity.
  - vm_compute. reflexivity.
Defined.

(** ** The document builder *)

Section DocumentBuilderFacts.
Import DocumentBuilder.

Lemma build_document_inv self tool_name f1 f2 f3 f4 f5 hq kt doc :
  build_document self tool_name f1 f2 f3 f4 f5 hq kt = Returned doc →
  ∃ entry tool_object content_parts,
    dict_get (toolshed_dict self) tool_name = Some entry ∧
    entry !! "tool_object" = Some tool_object ∧
    doc = {| page_content := join " - " content_parts;
             metadata := {[ "tool_name" := tool_name;
                            "tool_hash" := "Not implemented yet" ]} |}.
Proof.
  unfold build_document, dict_getitem, map_getitem.
  destruct (dict_get (toolshed_dict self) tool_name) as [entry|]; [|done].
  cbn [mbind outcome_bind].
  destruct (entry !! "tool_object") as [tool_object|] eqn:Hobj; [|done].
  cbn [mbind outcome_bind].
  intros Hdoc.
  repeat match type of Hdoc with
         | (?m ≫= _) = Returned _ =>
             destruct m as [?parts|?e]; cbn [mbind outcome_bind] in Hdoc;
             [|discriminate Hdoc]
         end.
  injection Hdoc as <-. eauto 10.
Qed.

Lemma built_document_tool_name self tool_name f1 f2 f3 f4 f5 hq kt doc :
  build_document self tool_name f1 f2 f3 f4 f5 hq kt = Returned doc →
  metadata doc !! "tool_name" = Some tool_name.
Proof.
  intros Hdoc.
  destruct (build_document_inv _ _ _ _ _ _ _ _ _ _ Hdoc)
    as (entry & tool_object & parts & _ & _ & ->).
  cbn [metadata]. by rewrite lookup_insert_eq.
Qed.
End DocumentBuilderFacts.

(** X14. A document that build_document returns carries the tool's name
    under the key [tool_name] (and the placeholder under [tool_hash]), so the
    Intent-Level Reranker labels it with that name in its prompt, never with
    the fallback Unknown. *)
Theorem built_document_carries_its_tool_name
    (self : DocumentBuilder.t) (tool_name : string)
    (include_name include_description include_args_schema
     include_hypothetical_questions include_key_topics : bool)
    (hq kt : option (gmap string (list string))) (doc : Document) :
  DocumentBuilder.build_document self tool_name include_name include_description
    include_args_schema include_hypothetical_questions include_key_topics hq kt
    = Returned doc →
  metadata doc !! "tool_name" = Some tool_name ∧
  metadata doc !! "tool_hash" = Some "Not implemented yet" ∧
  RerankerMultiQueryExpansionVariations._format_documents [doc]
  = "-------" +:+ LF +:+ "TOOL NAME: " +:+ tool_name +:+ LF +:+
    "TOOL DESCRIPTION & USEFUL DETAILS: " +:+ page_content doc.
Proof.
  intros Hdoc.
  destruct (build_document_inv _ _ _ _ _ _ _ _ _ _ Hdoc)
    as (entry & tool_object & parts & _ & _ & ->).
  unfold RerankerMultiQueryExpansionVariations._format_documents.
  cbn [metadata page_content fmap list_fmap join].
  rewrite lookup_insert_eq.
  rewrite lookup_insert_ne by done. rewrite lookup_singleton_eq. done.
Qed.

Lemma built_document_carries_its_tool_name_witness :
  ∃ doc,
    DocumentBuilder.build_document
      {| DocumentBuilder.toolshed_dict := sample_catalogue |}
      "get_net_present_value" true true true false false None None
    = Returned doc ∧
    metadata doc !! "tool_name" = Some "get_net_present_value".
Proof.
  eexists. split; [vm_compute; reflexivity|].
  eapply (built_document_carries_its_tool_name
            {| DocumentBuilder.toolshed_dict := sample_catalogue |}
            "get_net_present_value" true true true false false None None).
  vm_compute. reflexivity.
Defined.

(** X15. The order of the errors of build_document.  A tool that is not in
    the catalogue gives KeyError with the tool's name whatever else is asked
    for.  For a tool that is there, asking for the hypothetical questions
    without giving their dict gives the ValueError about that dict, also when
    the key topics are asked for without their dict (provided the argument
    schema, when asked for, could be read). *)
Theorem build_document_error_order
    (self : DocumentBuilder.t) (tool_name : string)
    (include_name include_description include_args_schema include_key_topics : bool)
    (kt : option (gmap string (list string))) :
  (dict_get (DocumentBuilder.toolshed_dict self) tool_name = None →
   ∀ include_hypothetical_questions hq,
     DocumentBuilder.build_document self tool_name include_name
       include_description include_args_schema include_hypothetical_questions
       include_key_topics hq kt
     = Raised (KeyError tool_name)) ∧
  (∀ entry tool_object,
     dict_get (DocumentBuilder.toolshed_dict self) tool_name = Some entry →
     entry !! "tool_object" = Some tool_object →
     (include_args_schema = true →
      ∃ text, DocumentBuilder._get_args_schema self tool_name = Returned text) →
     DocumentBuilder.build_document self tool_name include_name
       include_description include_args_schema true include_key_topics None kt
     = Raised (Exception ValueError
         "hypothetical_questions_dict must be provided when include_hypothetical_questions is True")).
Proof.
  split.
  - intros Hnone f4 hq.
    unfold DocumentBuilder.build_document, dict_getitem. by rewrite Hnone.
  - intros entry tool_object Hentry Hobj Hargs.
    unfold DocumentBuilder.build_document, dict_getitem, map_getitem.
    rewrite Hentry. cbn [mbind outcome_bind]. rewrite Hobj.
    cbn [mbind outcome_bind].
    destruct include_args_schema; [|done]. destruct Hargs as [text ->]; done.
Qed.

Lemma build_document_error_order_witness :
  DocumentBuilder.build_document
    {| DocumentBuilder.toolshed_dict := sample_catalogue |}
    "get_beta" true true true true true None None
  = Raised (KeyError "get_beta").
Proof.
  apply (build_document_error_order
           {| DocumentBuilder.toolshed_dict := sample_catalogue |}
           "get_beta" true true true true None).
  reflexivity.
Defined.

(** X16. An enhancement with nothing to add leaves the document as it is:
    when the dict of hypothetical questions has no entry for the tool, or an
    empty one, the document is the one built without asking for the
    questions; no empty part and no dangling separator is added. *)
Theorem build_document_skips_absent_questions
    (self : DocumentBuilder.t) (tool_name : string)
    (include_name include_description include_args_schema include_key_topics : bool)
    (questions_dict : gmap string (list string))
    (kt : option (gmap string (list string))) :
  default [] (questions_dict !! tool_name) = [] →
  DocumentBuilder.build_document self tool_name include_name include_description
    include_args_schema true include_key_topics (Some questions_dict) kt
  = DocumentBuilder.build_document self tool_name include_name include_description
      include_args_schema false include_key_topics None kt.
Proof.
  intros Hnone.
  unfold DocumentBuilder.build_document, DocumentBuilder._get_hypothetical_questions.
  rewrite Hnone. cbn [join].
  destruct (dict_getitem _ _) as [entry|e]; [|done]. cbn [mbind outcome_bind].
  destruct (map_getitem _ _) as [tool_object|e]; [|done]. cbn [mbind outcome_bind].
  destruct (if include_args_schema then _ else _) as [parts|e]; [|done].
  cbn [mbind outcome_bind].
  rewrite bool_decide_eq_false_2 by (by intros []). done.
Qed.

Lemma build_document_skips_absent_questions_witness :
  DocumentBuilder.build_document
    {| DocumentBuilder.toolshed_dict := sample_catalogue |}
    "get_irr" true true false true false
    (Some {[ "get_net_present_value" := ["What is the NPV of my project?"] ]}) None
  = DocumentBuilder.build_document
      {| DocumentBuilder.toolshed_dict := sample_catalogue |}
      "get_irr" true true false false false None None.
Proof.
  apply (build_document_skips_absent_questions
           {| DocumentBuilder.toolshed_dict := sample_catalogue |}
           "get_irr" true true false false
           {[ "get_net_present_value" := ["What is the NPV of my project?"] ]} None).
  vm_compute. reflexivity.
Defined.


(** X17. When build_documents returns, there is one document for each
    requested tool name, in the order of the request, each carrying its name;
    a request without names, or with an empty list of names, stands for the
    whole catalogue in its own order. *)
Theorem build_documents_one_document_per_name
    (self : ToolshedKnowledgeBaseBuilder.t) (tool_names : option (list string))
    (include_name include_description include_args_schema
     include_hypothetical_questions include_key_topics : bool)
    (hq kt : option (gmap string (list string))) (docs : list Document) :
  ToolshedKnowledgeBaseBuilder.build_documents self tool_names include_name
    include_description include_args_schema include_hypothetical_questions
    include_key_topics hq kt
    = Returned docs →
  (λ doc, metadata doc !! "tool_name") <$> docs
  = Some <$> (match tool_names with
              | None | Some [] => (ToolshedKnowledgeBaseBuilder.toolshed_dict self).*1
              | Some names => names
              end).
Proof.
  unfold ToolshedKnowledgeBaseBuilder.build_documents.
  intros Hdocs. apply for_each_inv in Hdocs.
  induction Hdocs as [|name doc names docs Hdoc _ IH]; [done|].
  cbn [fmap list_fmap]. rewrite IH. f_equal.
  by apply built_document_tool_name in Hdoc.
Qed.

Lemma build_documents_one_document_per_name_witness :
  ∃ docs,
    ToolshedKnowledgeBaseBuilder.build_documents
      (ToolshedKnowledgeBaseBuilder.__init__ sample_catalogue) (Some [])
      true true true false false None None
    = Returned docs ∧
    (λ doc, metadata doc !! "tool_name") <$> docs
    = Some <$> ["get_net_present_value"; "get_irr"].
Proof.
  eexists. split; [vm_compute; reflexivity|].
  apply (build_documents_one_document_per_name
           (ToolshedKnowledgeBaseBuilder.__init__ sample_catalogue) (Some [])
           true true true false false None None).
  vm_compute. reflexivity.
Defined.

(** X18. With the default arguments (the whole catalogue, name and
    description only) build_documents cannot fail on a catalogue in which
    every entry has its [tool_object]: it returns as many documents as the
    catalogue has entries. *)
Theorem build_documents_default_builds_whole_catalogue
    (toolshed_dict : list (string * gmap string DocumentBuilder.ToolObject)) :
  Forall (λ item, is_Some (item.2 !! "tool_object")) toolshed_dict →
  ∃ docs,
    ToolshedKnowledgeBaseBuilder.build_documents
      (ToolshedKnowledgeBaseBuilder.__init__ toolshed_dict)
      None true true false false false None None = Returned docs ∧
    length docs = length toolshed_dict.
Proof.
  intros Hall. unfold ToolshedKnowledgeBaseBuilder.build_documents.
  cbn [ToolshedKnowledgeBaseBuilder.toolshed_dict
       ToolshedKnowledgeBaseBuilder.document_builder
       ToolshedKnowledgeBaseBuilder.__init__].
  destruct (for_each_total
              (λ tool_name,
                 DocumentBuilder.build_document
                   {| DocumentBuilder.toolshed_dict := toolshed_dict |} tool_name
                   true true false false false None None)
              toolshed_dict.*1) as (docs & Hdocs & Hlen).
  - apply Forall_fmap. apply Forall_forall. intros [name entry] Hin. simpl.
    assert (∃ entry', dict_get toolshed_dict name = Some entry' ∧
                      is_Some (entry' !! "tool_object"))
      as (entry' & Hget & [obj Hobj]).
    { clear -Hall Hin.
      induction toolshed_dict as [|[k v] d IH]; [by apply elem_of_nil in Hin|].
      apply Forall_cons in Hall as [Hv Hall]. simpl.
      case_decide; [eauto|].
      apply elem_of_cons in Hin as [[= -> ->]|Hin]; [done|]. by apply IH. }
    unfold DocumentBuilder.build_document, dict_getitem, map_getitem.
    cbn [DocumentBuilder.toolshed_dict]. rewrite Hget. cbn [mbind outcome_bind].
    rewrite Hobj. cbn. eauto.
  - exists docs. split; [done|]. by rewrite Hlen, length_fmap.
Qed.

Lemma build_documents_default_builds_whole_catalogue_witness :
  ∃ docs,
    ToolshedKnowledgeBaseBuilder.build_documents
      (ToolshedKnowledgeBaseBuilder.__init__ sample_catalogue)
      None true true false false false None None = Returned docs ∧
    length docs = length sample_catalogue.
Proof.
  apply (build_documents_default_builds_whole_catalogue sample_catalogue).
  repeat constructor; vm_compute; eauto.
Defined.

Section NameFormatting.
Import DocumentBuilder.

Lemma snake_case_char_cases c :
  snake_case_char c = true →
  is_upper c = false ∧
  (let c' := if Ascii.eqb c UNDERSCORE then SPACE else c in
   is_upper c' = false ∧
   (if is_upper c' || is_lower c'
    then (if Ascii.eqb (to_upper c') SPACE then UNDERSCORE
          else to_lower (to_upper c')) = c ∧
         (if Ascii.eqb (to_lower c') SPACE then UNDERSCORE
          else to_lower (to_lower c')) = c
    else (if Ascii.eqb c' SPACE then UNDERSCORE else to_lower c') = c)).
Proof.
  destruct c as [[] [] [] [] [] [] [] []]; vm_compute; intros H;
    try discriminate H; repeat split.
Qed.

Lemma spaces_before_capitals_no_capital b s :
  all_chars (λ c, negb (is_upper c)) s = true →
  spaces_before_capitals b s = s.
Proof.
  revert b. induction s as [|c s IH]; intros b; simpl; [done|].
  intros [Hc Hs]%andb_prop. apply negb_true_iff in Hc. rewrite Hc. simpl.
  by rewrite IH.
Qed.

Lemma replace_underscores_no_capital s :
  all_chars snake_case_char s = true →
  all_chars (λ c, negb (is_upper c)) (replace_underscores s) = true.
Proof.
  induction s as [|c s IH]; simpl; [done|].
  intros [Hc Hs]%andb_prop.
  destruct (snake_case_char_cases c Hc) as (_ & -> & _). simpl. by apply IH.
Qed.

Lemma unformat_title_replace b s :
  all_chars snake_case_char s = true →
  unformat (title b (replace_underscores s)) = s.
Proof.
  revert b. induction s as [|c s IH]; intros b; simpl; [done|].
  intros [Hc Hs]%andb_prop.
  destruct (snake_case_char_cases c Hc) as (_ & _ & Hcase). simpl in Hcase.
  destruct (is_upper _ || is_lower _).
  - destruct Hcase as [Hup Hlow]. simpl.
    destruct b; simpl; rewrite ?Hup, ?Hlow; by rewrite IH.
  - simpl. rewrite Hcase. by rewrite IH.
Qed.

Lemma unformat_format_snake_case tool_name :
  all_chars snake_case_char tool_name = true →
  unformat (_format_tool_name_for_embedding tool_name) = tool_name.
Proof.
  intros Hsnake. unfold _format_tool_name_for_embedding.
  rewrite spaces_before_capitals_no_capital
    by (by apply replace_underscores_no_capital).
  by apply unformat_title_replace.
Qed.
End NameFormatting.

(** X19. Formatting a tool name for embedding loses nothing on snake_case
    names (small letters, digits and underscores): two such names with the
    same formatted name are the same name, so no two tools of the catalogue
    get the same title. *)
Theorem snake_case_names_do_not_collide (name1 name2 : string) :
  all_chars snake_case_char name1 = true →
  all_chars snake_case_char name2 = true →
  DocumentBuilder._format_tool_name_for_embedding name1
    = DocumentBuilder._format_tool_name_for_embedding name2 →
  name1 = name2.
Proof.
  intros H1 H2 Heq.
  rewrite <- (unformat_format_snake_case name1 H1).
  rewrite <- (unformat_format_snake_case name2 H2).
  by rewrite Heq.
Qed.

Lemma snake_case_names_do_not_collide_witness :
  "get_net_present_value" = unformat "Get Net Present Value".
Proof.
  apply (snake_case_names_do_not_collide "get_net_present_value"
           (unformat "Get Net Present Value")).
  - vm_compute. reflexivity.
  - vm_compute. reflexivity.
  - vm_compute. reflexivity.
Defined.

(** ** The whole graph *)


(** X21. Whatever the services do, a Fusion Result that comes out of the
    whole graph through retrieve_tools_from_toolshed is empty, or has 5
    entries, or has 5 distinct identifiers: these are the only lists of tool
    names the agent can be handed. *)
Theorem retrieved_tool_names_shape
    (lib : FormatLibrary) (sched : Scheduler)
    (llm : ChatModel) (llm_text : TextModel) {KB : Type}
    `{BaseVectorStoreIndexer KB} (retriever : InitialToolRetrievalModule.t KB)
    (state : Agent.AdvancedRAGToolFusionAgent) (t t' : trace) (r : list string) :
  Agent.retrieve_tools_from_toolshed lib sched llm llm_text retriever state t
    = (Returned r, t') →
  r = [] ∨ len r = 5%Z ∨ len_set r = 5%Z.
Proof.
  unfold Agent.retrieve_tools_from_toolshed,
    FusionGraph.advanced_rag_tool_fusion.
  unfold mbind at 1 2 3, M_bind at 1 2 3.
  destruct (FusionGraph.rewrite_user_query _ _ _ _ _) as [[rq|e] t1]; [|done].
  destruct (FusionGraph.decompose_user_query _ _ _ _) as [[dqs|e] t2]; [|done].
  match goal with
  | |- context [Workflow.fuse_decomposed lib sched llm retriever ?s t2] =>
      set (st := s);
      destruct (Workflow.fuse_decomposed lib sched llm retriever st t2)
        as [[state'|e] t3] eqn:Hfuse; [|done]
  end.
  destruct dqs as [|dq dqs].
  - unfold Workflow.fuse_decomposed in Hfuse. simpl in Hfuse.
    injection Hfuse as <- <-. done.
  - destruct (fusion_shape_of_run lib sched llm retriever st state' t2 t3)
      as (_ & _ & r' & Hfinal & Hr'); [done|done|done|].
    rewrite Hfinal. by intros [= <- <-].
Qed.

Lemma retrieved_tool_names_shape_witness :
  ["get_npv"; "get_pv"; "get_fv"; "get_irr"; "get_roi"] = @nil string ∨
  len ["get_npv"; "get_pv"; "get_fv"; "get_irr"; "get_roi"] = 5%Z ∨
  len_set ["get_npv"; "get_pv"; "get_fv"; "get_irr"; "get_roi"] = 5%Z.
Proof.
  eapply (retrieved_tool_names_shape plain_fields_only in_order
            (scripted [says "Plan: two paraphrases."]
               [ Returned [];
                 Returned ["What is the NPV?"];
                 Returned ["what is npv"; "compute npv"];
                 Returned ["get_npv"; "get_pv"; "get_fv"; "get_irr"; "get_roi"] ])
            (rewrites_to "What is the NPV?")
            (retriever_of (populated [tool "get_npv" "Net present value."]))
            {| Agent.user_query := "npv?";
               Agent.conversation_history := None;
               Agent.retrieved_tool_name_from_toolshed := [];
               Agent.messages := [] |} []).
  vm_compute. reflexivity.
Defined.

(** ** The agent node *)

Lemma dict_get_setitem {V} (d : list (string * V)) k v k' :
  dict_get (dict_setitem d k v) k'
  = if decide (k = k') then Some v else dict_get d k'.
Proof.
  induction d as [|[k0 v0] d IH]; simpl.
  - done.
  - destruct (decide (k0 = k)) as [->|Hne]; simpl.
    + by destruct (decide (k = k')).
    + rewrite IH. destruct (decide (k0 = k')) as [->|]; [|done].
      by rewrite decide_False.
Qed.

Lemma toolshed_dict_lookup_from (tool_list : list Agent.Tool) :
  ∀ (d : list (string * gmap string Agent.Tool)) n,
  dict_get (foldl (λ d tool, dict_setitem d (Agent.name tool)
                               {[ "tool_object" := tool ]}) d tool_list) n
  = match last (filter (λ tool, Agent.name tool = n) tool_list) with
    | Some tool => Some ({[ "tool_object" := tool ]} : gmap string Agent.Tool)
    | None => dict_get d n
    end.
Proof.
  induction tool_list as [|tool tools IH]; intros d n; simpl; [done|].
  rewrite IH, filter_cons. rewrite dict_get_setitem.
  destruct (decide (Agent.name tool = n)) as [Heq|Hne].
  - rewrite last_cons. by destruct (last _).
  - done.
Qed.

Lemma toolshed_dict_known tool_list n :
  n ∈ Agent.name <$> tool_list →
  ∃ tool, Agent.name tool = n ∧ tool ∈ tool_list ∧
          dict_get (Agent.toolshed_dict tool_list) n
          = Some ({[ "tool_object" := tool ]} : gmap string Agent.Tool).
Proof.
  intros (tool0 & Hn & Hin)%list_elem_of_fmap.
  unfold Agent.toolshed_dict. rewrite toolshed_dict_lookup_from.
  destruct (last (filter (λ tool, Agent.name tool = n) tool_list))
    as [tool|] eqn:Hlast.
  - apply last_Some_elem_of in Hlast. apply list_elem_of_filter in Hlast as [? ?].
    eauto.
  - apply last_None in Hlast.
    assert (tool0 ∈ filter (λ tool, Agent.name tool = n) tool_list) as Hf
      by (by apply list_elem_of_filter).
    rewrite Hlast in Hf. by apply elem_of_nil in Hf.
Qed.

Lemma toolshed_dict_unknown tool_list n :
  n ∉ Agent.name <$> tool_list →
  dict_get (Agent.toolshed_dict tool_list) n = None.
Proof.
  intros Hnin. unfold Agent.toolshed_dict. rewrite toolshed_dict_lookup_from.
  destruct (last (filter (λ tool, Agent.name tool = n) tool_list))
    as [tool|] eqn:Hlast; [|done].
  apply last_Some_elem_of in Hlast. apply list_elem_of_filter in Hlast as [Hn Hin].
  destruct Hnin. apply list_elem_of_fmap. eauto.
Qed.

Lemma select_tool_known tool_list n :
  n ∈ Agent.name <$> tool_list →
  ∃ tool, Agent.name tool = n ∧ tool ∈ tool_list ∧
    (entry ← dict_getitem (Agent.toolshed_dict tool_list) n;
     map_getitem entry "tool_object") = Returned tool.
Proof.
  intros Hn.
  destruct (toolshed_dict_known tool_list n Hn) as (tool & Hname & Hin & Hget).
  exists tool. split; [done|]. split; [done|].
  unfold dict_getitem. rewrite Hget.
  unfold mbind, outcome_bind, map_getitem. by rewrite lookup_singleton_eq.
Qed.

Lemma select_tool_unknown tool_list n :
  n ∉ Agent.name <$> tool_list →
  (entry ← dict_getitem (Agent.toolshed_dict tool_list) n;
   map_getitem entry "tool_object") = Raised (KeyError n).
Proof.
  intros Hn. unfold dict_getitem.
  by rewrite (toolshed_dict_unknown tool_list n Hn).
Qed.

Lemma select_known_tools tool_list names :
  Forall (λ n, n ∈ Agent.name <$> tool_list) names →
  ∃ selected,
    for_each (λ tool_name,
                entry ← dict_getitem (Agent.toolshed_dict tool_list) tool_name;
                map_getitem entry "tool_object") names
    = Returned selected ∧
    Agent.name <$> selected = names ∧
    Forall (λ tool, tool ∈ tool_list) selected.
Proof.
  induction 1 as [|n names Hn _ (selected & Hsel & Hnames & Hall)];
    cbn [for_each].
  - by exists [].
  - destruct (select_tool_known tool_list n Hn) as (tool & Hname & Hin & ->).
    rewrite Hsel. exists (tool :: selected).
    split; [done|]. split; [by rewrite fmap_cons, Hname, Hnames|by constructor].
Qed.

Lemma agent_node_run llm_tools tool_list state (t : trace) :
  Agent.agent_node llm_tools tool_list state t
  = match for_each
            (λ tool_name,
               entry ← dict_getitem (Agent.toolshed_dict tool_list) tool_name;
               map_getitem entry "tool_object")
            (Agent.retrieved_tool_name_from_toolshed state) with
    | Returned selected_tools =>
        match Agent.chat_invoke_with_tools llm_tools selected_tools t
                (Agent.messages state) with
        | Returned answer =>
            (Returned [answer], t ++ [LlmInvoke (Agent.messages state)])
        | Raised e => (Raised e, t ++ [LlmInvoke (Agent.messages state)])
        end
    | Raised e => (Raised e, t)
    end.
Proof. reflexivity. Qed.

(** X22. When the list of retrieved tool names holds a name that is not the
    name of a tool of the catalogue (and the names before it are), agent_node
    raises KeyError with that name and the model is not called. *)
Theorem agent_node_unknown_tool
    (llm_tools : Agent.ToolCallingModel) (tool_list : list Agent.Tool)
    (state : Agent.AdvancedRAGToolFusionAgent) (t : trace)
    (before after : list string) (unknown : string) :
  Agent.retrieved_tool_name_from_toolshed state = before ++ unknown :: after →
  Forall (λ n, n ∈ Agent.name <$> tool_list) before →
  unknown ∉ Agent.name <$> tool_list →
  Agent.agent_node llm_tools tool_list state t = (Raised (KeyError unknown), t).
Proof.
  intros Hnames Hknown Hunknown.
  rewrite agent_node_run, Hnames.
  assert (for_each
            (λ tool_name,
               entry ← dict_getitem (Agent.toolshed_dict tool_list) tool_name;
               map_getitem entry "tool_object")
            (before ++ unknown :: after) = Raised (KeyError unknown)) as ->; [|done].
  clear Hnames.
  induction Hknown as [|n before Hn _ IH]; cbn [app for_each].
  - by rewrite (select_tool_unknown tool_list unknown Hunknown).
  - destruct (select_tool_known tool_list n Hn) as (tool & _ & _ & ->).
    by rewrite IH.
Qed.

Lemma agent_node_unknown_tool_witness :
  Agent.agent_node (answers_with_tools "The NPV is 12.") sample_tools
    {| Agent.user_query := "npv?";
       Agent.conversation_history := None;
       Agent.retrieved_tool_name_from_toolshed :=
         ["get_npv"; "get_beta"; "get_irr"];
       Agent.messages := [Message Human "npv?"] |} []
  = (Raised (KeyError "get_beta"), []).
Proof.
  apply (agent_node_unknown_tool (answers_with_tools "The NPV is 12.") sample_tools
           {| Agent.user_query := "npv?";
              Agent.conversation_history := None;
              Agent.retrieved_tool_name_from_toolshed :=
                ["get_npv"; "get_beta"; "get_irr"];
              Agent.messages := [Message Human "npv?"] |} []
           ["get_npv"] ["get_irr"] "get_beta").
  - reflexivity.
  - repeat constructor.
  - vm_compute. intros Hin. repeat (apply elem_of_cons in Hin as [Hin|Hin];
      [discriminate Hin|]). by apply elem_of_nil in Hin.
Defined.

(** X23. When every retrieved name is the name of a tool of the catalogue,
    agent_node calls the model exactly once, with the messages of the state
    and with tools of the catalogue that bear the retrieved names, in their
    order; an empty list of names binds no tool. *)
Theorem agent_node_binds_retrieved_tools
    (llm_tools : Agent.ToolCallingModel) (tool_list : list Agent.Tool)
    (state : Agent.AdvancedRAGToolFusionAgent) (t : trace) :
  Forall (λ n, n ∈ Agent.name <$> tool_list)
         (Agent.retrieved_tool_name_from_toolshed state) →
  ∃ selected_tools,
    Agent.name <$> selected_tools = Agent.retrieved_tool_name_from_toolshed state ∧
    Forall (λ tool, tool ∈ tool_list) selected_tools ∧
    Agent.agent_node llm_tools tool_list state t
    = (match Agent.chat_invoke_with_tools llm_tools selected_tools t
               (Agent.messages state) with
       | Returned answer => Returned [answer]
       | Raised e => Raised e
       end,
       t ++ [LlmInvoke (Agent.messages state)]).
Proof.
  intros Hknown.
  destruct (select_known_tools tool_list _ Hknown)
    as (selected & Hsel & Hnames & Hall).
  exists selected. split; [done|]. split; [done|].
  rewrite agent_node_run, Hsel.
  by destruct (Agent.chat_invoke_with_tools llm_tools selected t _).
Qed.

Lemma agent_node_binds_retrieved_tools_witness :
  ∃ selected_tools,
    Agent.name <$> selected_tools = ["get_irr"; "get_npv"] ∧
    Forall (λ tool, tool ∈ sample_tools) selected_tools ∧
    Agent.agent_node (answers_with_tools "The NPV is 12.") sample_tools
      {| Agent.user_query := "npv?";
         Agent.conversation_history := None;
         Agent.retrieved_tool_name_from_toolshed := ["get_irr"; "get_npv"];
         Agent.messages := [Message Human "npv?"] |} []
    = (match Agent.chat_invoke_with_tools (answers_with_tools "The NPV is 12.")
               selected_tools [] [Message Human "npv?"] with
       | Returned answer => Returned [answer]
       | Raised e => Raised e
       end,
       [] ++ [LlmInvoke [Message Human "npv?"]]).
Proof.
  apply (agent_node_binds_retrieved_tools (answers_with_tools "The NPV is 12.")
           sample_tools
           {| Agent.user_query := "npv?";
              Agent.conversation_history := None;
              Agent.retrieved_tool_name_from_toolshed := ["get_irr"; "get_npv"];
              Agent.messages := [Message Human "npv?"] |} []).
  repeat constructor; vm_compute; set_solver.
Defined.
